(* ===== verification/_CoqProject ===== *)
-Q . S2P
Prelude.v
MySQL.v
Integrity.v
Connector.v
Schema.v
Users.v
Complaints.v
App.v
ServerRel.v
Output.v
Isolation.v
Session.v
MultiSession.v
Refinement.v
