(* ===== verification/Prelude.v ===== *)
(** * Grievance Management System: a verification development

    The program verified here is [src/app.py], a Streamlit application over
    a MySQL database.  Its parts, and how they interact:

    - [get_database_connection] (app.py 8-14) opens a
      [mysql.connector.connection.MySQLConnection], the pure-Python
      connector.  Every data-access function opens its own connection and
      cursor, runs one statement and closes both.
    - [init_db] (17-48) issues two [CREATE TABLE IF NOT EXISTS] statements,
      for [USERS] and for [COMPLAINTS], whose foreign key names the parent
      table as [users].
    - The data-access functions [register_user] (51-64), [login_user]
      (66-76), [submit_complaint] (79-89), [get_user_complaints] (91-106)
      and [update_complaint_status] (108-124) each issue one SQL statement.
    - [main] (127-207) is the Streamlit script.  Streamlit re-executes it
      from the top on every interaction.  It keeps the logged-in user in
      [st.session_state.user_id] and calls the functions above.

    ** Files and what they model

    - [Prelude] (this file): the Python execution monad [Py] (state, with
      exceptions as values) and its notation [let* x := m in k] in
      [py_scope]; [try_except] and [try_finally], which follow Python's
      [try]/[except]/[finally] rules; Python's [str.strip] and
      [str.isspace] on strings of code points below 256; ASCII
      lower-casing; the hint database [py] and the generic lemmas.
    - [MySQL]: the database server as the application's SQL meets it.
      - State [Server]: the catalog of table names, the rows of the two
        tables, the two AUTO_INCREMENT counters, the clock read by
        CURRENT_TIMESTAMP, and whether the server is running.
      - [Stmt]: one constructor per SQL text of app.py.
      - [exec]: the semantics of each statement, as a function.
      - The server's configuration is a [Config] record.  It holds
        [lower_case_table_names] (whether table names are compared
        case-insensitively), [strict_mode] (STRICT_TRANS_TABLES) and the
        collation of the string comparisons in [WHERE username = %s].
      - A [Collation] is a class of boolean equalities, with the binary
        and the ASCII case-insensitive instances.
    - [Connector]: the client-process state [World] and the connector
      calls in the [Py] monad.
      - [get_database_connection] is the call [MySQLConnection] with the
        four arguments of app.py 9-13 ([grievances_args]).  The
        handshake ([connect_error]) fails with 2003 when the server is
        down or not on that host, 1045 when the account is refused, and
        1049 when the database does not exist.  The host, the accounts and
        the databases are part of the server's [Config].
      - [World] holds the server, the open-connection and open-cursor
        counts, the cursor's unread result set, the Streamlit output of
        the current run and the session state.
      - The calls are [get_database_connection], [cursor],
        [cursor_execute], [fetchone], [fetchall], [lastrowid],
        [cursor_close], [db_close] and [commit].
      - [cursor_close] raises InternalError "Unread result found" when
        the result set was not read to its end, as
        [MySQLCursor.close] -> [handle_unread_result] does.
    - [Schema]: [init_db].
    - [Users]: [register_user] and [login_user].
    - [Complaints]: [submit_complaint], [get_user_complaints],
      [update_complaint_status], and the complaint lifecycle.
    - [App]: one run of [main] for a user action, Streamlit's
      [st.rerun], the page on a server with case-sensitive table names,
      and concrete sessions.
    - [ServerRel]: a preorder on servers kept by every statement app.py
      issues is kept by every data-access function, by [main] and by a
      whole interaction ([app_run_on_srv]); the invariants of [Session]
      and [MultiSession] are instances of it.
    - [Output]: what a page shows after an interaction.
    - [Isolation]: which complaints a run can change ([keeps_for]).
    - [Session]: the session as a step relation over runs and time
      ([app_step], [reachable_from]), its invariant, and a server on
      which the application can never be used.
    - [MultiSession]: several browser sessions sharing one server
      ([System], [sys_step]), interleaved one interaction at a time, and
      the data-access calls of all sessions interleaved one call at a
      time ([call_step]).
    - [Refinement]: the abstract store of spec §3-4 (users and
      complaints as stdpp [gmap]s keyed by id) with its operations
      [spec_register], [spec_login], [spec_submit], [spec_list],
      [spec_resolve]; the abstraction [abs] of a server, which reads a
      complaint's state with [classify] from its status, resolution and
      resolved_At columns ([Invalid] for columns that fit neither
      state); the refinement of each SQL statement, and of each
      data-access function.

    Each Python function is one [Definition] of the same name.  It is
    written statement by statement in the [Py] monad: the same calls, in
    the same order, with the same [try] structure.

    ** Theorems, by group

    - Schema: [init_db] creates both tables and is idempotent on a server
      with case-insensitive table names.  On a server with case-sensitive
      names (MySQL's default on Linux), the second CREATE fails, because
      the foreign key names [users] while the table is [USERS].  [init_db]
      then raises and leaves a connection and a cursor open.
    - Users: registering then logging in returns the id that registration
      assigned.  A wrong password is refused under the binary collation but
      not always under a case-insensitive one.  Two users with the same
      credentials make [login_user] raise from its [finally] clause.
      [register_user] reports storage errors as [False], but a connection
      failure escapes it.  An over-long username or password is refused in
      strict mode and silently truncated otherwise.
    - Complaints: submitting then listing shows the complaint as
      "Pending" with the "Not Available" resolution.  Resolving sets the
      status, the text and the timestamp.  [update_complaint_status]
      returns [True] even when no row has the given id, and checks no
      owner.  A statement changes a complaint only when it is the UPDATE
      naming that complaint's id ([exec_complaint_history]).  An
      invariant of the server ([wf_server]) holds after every
      operation: ids are unique and within the INT range, the foreign key
      holds, timestamps are ordered, and the status agrees with the
      resolved timestamp.
    - App, Output, Isolation, Session: on a case-insensitive server
      that accepts the connection, every page a logged-in user loads
      without a click lists exactly that user's complaints as the server
      holds them ([page_lists_complaints]).  The run [st.rerun()] starts never reruns again, so a
      [RerunException] is never shown, and the success messages of login
      and of a status update are never seen.  Through the page a user
      changes only their own complaints, although
      [update_complaint_status] checks no owner.  In every state of a
      session ([reachable_from], by rule induction) the server satisfies
      [wf_server] and the logged-in user is a row of USERS.  On a server
      with case-sensitive table names every interaction shows the error
      of [init_db], and no user is ever stored.  On a server that refuses
      the connection (no [Grievances] database, which app.py never
      creates, among others) every interaction shows the handshake error.
      Streamlit's rerun loop ([rerun_loop], with fuel) always stops within
      two runs, with the page [app_run] gives.
    - MultiSession: with any number of sessions interleaving their
      interactions ([rtc] of [sys_step]), the shared server keeps
      [wf_server] and every session's user is a row of USERS.  The
      single data-access calls of concurrent sessions, in any order and
      with any arguments, keep [wf_server] too ([call_interleaving_wf]).
    - Bounds: once the AUTO_INCREMENT counter of USERS has passed
      [INT_MAX], no user is ever stored again ([users_counter_exhausted]).
    - Refinement: against a server satisfying [wf_server],
      [register_user], [submit_complaint], [update_complaint_status] and
      [login_user] act on the abstract store as spec 4.2-4.6 say, except
      that [login_user] raises where two users match; the listing of
      [get_user_complaints] is equivalent to the abstract per-user view,
      and its rows are well typed.

    ** Bounds and modelling choices

    - INT columns hold ids up to [INT_MAX] = 2^31 - 1.  An insert once
      the counter has passed it fails, as MySQL's does.
    - VARCHAR(n) lengths are counted in characters, TEXT in bytes, with
      one byte per character: strings are Rocq strings of code points
      below 256.
    - The clock is a [Z] of seconds.  It is constant during one run of
      the script and advances between runs (the [step_tick] step of [Session]).
      The 2038 bound of TIMESTAMP is not modelled.
    - A statement's effect is applied when it executes, and [commit] is
      the identity.  Every mutating statement of app.py is followed by
      [commit] on the same connection before any other statement, so no
      other session can observe the difference.
    - [rerun_loop] bounds the runs of one interaction by a fuel argument.
      Fuel 2 is enough for every action and every state
      ([rerun_loop_terminates]), so [app_run] is the loop's result.
    - Rows are returned in table order, which is id order: InnoDB scans
      the clustered index.  The spec leaves this order open.

    ** Not modelled

    - mysql-connector-python and the Streamlit runtime are libraries
      app.py only calls.  [Connector], [App] and [Output] give the
      behaviour app.py relies on ([MySQLConnection], the cursor calls,
      [st.rerun], the script runner, the message calls) as an
      environment, from their documented behaviour; they are not code of
      this repository.  So are [app_run] (a run and the run [st.rerun]
      asks for), [Session.app_step] and [MultiSession]'s [run_session]
      and [open_session] (the runtime's sessions): the theorems use them,
      but they model no lines of app.py.
    - Streamlit's rendering (titles, headers, tabs, page config): these
      have no state.  The widgets that carry values (text inputs, buttons,
      the select box) are modelled through the user action of a run.
    - pandas beyond what the code uses (a list of rows, [.empty], the ID
      column).
    - Sessions running concurrently: [MultiSession] interleaves whole
      interactions with the session states, and single data-access calls
      for the server alone; the session states under call-level
      interleaving are not tracked.  Each data-access call is one
      statement and its commit, so transactions and isolation levels add
      nothing observable and are not modelled.
    - Network failures in the middle of a statement: only failure at
      connect time is modelled. *)

From Stdlib Require Export ZArith Lia Ascii String.
From stdpp Require Export base list strings.

Declare Scope py_scope.
Delimit Scope py_scope with py.

(** ** The Python execution monad *)

(** The result of running Python code: it returns a value or raises. *)
Inductive outcome (E A : Type) : Type :=
| Ret (a : A)
| Exc (e : E).
Arguments Ret {E A} a.
Arguments Exc {E A} e.

(** A computation over a state [S] that may raise an exception of [E]. *)
Definition Py (S E A : Type) : Type := S -> outcome E A * S.

Section PyMonad.
Context {S E : Type}.

Definition ret {A} (a : A) : Py S E A := fun s => (Ret a, s).

Definition bind {A B} (m : Py S E A) (k : A -> Py S E B) : Py S E B :=
  fun s => match m s with
           | (Ret a, s') => k a s'
           | (Exc e, s') => (Exc e, s')
           end.

Definition raise {A} (e : E) : Py S E A := fun s => (Exc e, s).

Definition gets {A} (f : S -> A) : Py S E A := fun s => (Ret (f s), s).

Definition modify (f : S -> S) : Py S E unit := fun s => (Ret tt, f s).

(** [try: m except C as e: h e], where [catches e] says whether [e] is
    an instance of the class [C]; other exceptions propagate. *)
Definition try_except {A} (catches : E -> bool) (m : Py S E A)
           (h : E -> Py S E A) : Py S E A :=
  fun s => match m s with
           | (Exc e, s') => if catches e then h e s' else (Exc e, s')
           | r => r
           end.

(** [try: m finally: f].  The [finally] block always runs.  An exception
    it raises replaces whatever [m] returned or raised; otherwise [m]'s
    outcome stands. *)
Definition try_finally {A} (m : Py S E A) (f : Py S E unit) : Py S E A :=
  fun s => match m s with
           | (o, s') => match f s' with
                        | (Ret _, s'') => (o, s'')
                        | (Exc e, s'') => (Exc e, s'')
                        end
           end.
End PyMonad.

Notation "'let*' x := m 'in' k" := (bind m (fun x => k))
  (at level 10, x name, m at level 100, k at level 200,
   format "'[v' 'let*'  x  :=  m  'in' '/' k ']'") : py_scope.
Notation "'let*' ' p := m 'in' k" := (bind m (fun x => match x with p => k end))
  (at level 10, p pattern, m at level 100, k at level 200) : py_scope.
Open Scope py_scope.

(** ** Monad laws, pointwise in the state *)

Section PyLaws.
Context {S E : Type}.

Lemma bind_ret_l {A B} (a : A) (k : A -> Py S E B) s :
  bind (ret a) k s = k a s.
Proof. reflexivity. Qed.

Lemma bind_ret_r {A} (m : Py S E A) s : bind m ret s = m s.
Proof. unfold bind, ret. by destruct (m s) as [[] ?]. Qed.

Lemma bind_assoc {A B C} (m : Py S E A) (k : A -> Py S E B)
      (h : B -> Py S E C) s :
  bind (bind m k) h s = bind m (fun a => bind (k a) h) s.
Proof. unfold bind. by destruct (m s) as [[] ?]. Qed.

Lemma bind_raise {A B} (e : E) (k : A -> Py S E B) s :
  bind (raise e) k s = (Exc e, s).
Proof. reflexivity. Qed.

(** Rewriting a [bind] whose first computation's run is known. *)
Lemma bind_run_Ret {A B} (m : Py S E A) (k : A -> Py S E B) s a s' :
  m s = (Ret a, s') -> bind m k s = k a s'.
Proof. unfold bind. by intros ->. Qed.

Lemma bind_run_Exc {A B} (m : Py S E A) (k : A -> Py S E B) s e s' :
  m s = (Exc e, s') -> bind m k s = (Exc e, s').
Proof. unfold bind. by intros ->. Qed.

Lemma try_finally_run {A} (m : Py S E A) (f : Py S E unit) s o s' :
  m s = (o, s') -> try_finally m f s = match f s' with
                                       | (Ret _, s'') => (o, s'')
                                       | (Exc e, s'') => (Exc e, s'')
                                       end.
Proof. unfold try_finally. by intros ->. Qed.

End PyLaws.

Create HintDb py discriminated.
Create Rewrite HintDb pyrw.
#[export] Hint Rewrite @bind_ret_l @bind_assoc @bind_raise : pyrw.

(** Unfold the monad's combinators and reduce. *)
Ltac py_simpl :=
  repeat (unfold bind, ret, raise, gets, modify, try_except, try_finally in *;
          simpl in * ).

(** ** Python strings *)

(** [str.isspace] on one code point below 256: the ASCII whitespace
    characters 9-13 and 32, the separators 28-31, NEL (133) and NBSP
    (160). *)
Definition py_isspace (c : ascii) : bool :=
  let n := nat_of_ascii c in
  ((9 <=? n) && (n <=? 13)) || ((28 <=? n) && (n <=? 32)) ||
  (n =? 133) || (n =? 160).

Fixpoint py_lstrip (s : string) : string :=
  match s with
  | EmptyString => EmptyString
  | String c s' => if py_isspace c then py_lstrip s' else s
  end.

Definition py_rstrip (s : string) : string :=
  string_of_list_ascii
    (rev (list_ascii_of_string (py_lstrip
      (string_of_list_ascii (rev (list_ascii_of_string s)))))).

(** [s.strip()] with no argument. *)
Definition py_strip (s : string) : string := py_rstrip (py_lstrip s).

(** Truthiness of a Python [str]: non-empty. *)
Definition py_str_truthy (s : string) : bool :=
  match s with EmptyString => false | _ => true end.

(** Truthiness of a Python [int]: non-zero. *)
Definition py_int_truthy (z : Z) : bool := negb (Z.eqb z 0).

(** ASCII lower-casing, as case-insensitive comparisons use it. *)
Definition ascii_lower (c : ascii) : ascii :=
  let n := nat_of_ascii c in
  if (65 <=? n) && (n <=? 90) then ascii_of_nat (n + 32) else c.

Fixpoint str_lower (s : string) : string :=
  match s with
  | EmptyString => EmptyString
  | String c s' => String (ascii_lower c) (str_lower s')
  end.

Definition all_space (s : string) : bool :=
  forallb py_isspace (list_ascii_of_string s).

(** ** Generic lemmas on strings *)

Lemma py_lstrip_empty_iff s : py_lstrip s = EmptyString <-> all_space s = true.
Proof.
  unfold all_space. induction s as [|c s IH]; simpl; [done|].
  destruct (py_isspace c); simpl; [done|]. split; discriminate.
Qed.

Lemma string_list_ascii_rev_empty l :
  string_of_list_ascii (rev l) = EmptyString <-> l = [].
Proof.
  split; [|by intros ->].
  destruct l using rev_ind; [done|]. rewrite rev_app_distr. simpl. discriminate.
Qed.

Lemma all_space_rev s :
  all_space (string_of_list_ascii (rev (list_ascii_of_string s))) = all_space s.
Proof.
  unfold all_space. rewrite list_ascii_of_string_of_list_ascii.
  induction (list_ascii_of_string s) as [|c l IH]; [done|].
  simpl. rewrite forallb_app, IH. simpl. by rewrite andb_true_r, andb_comm.
Qed.

Lemma py_rstrip_empty_iff s : py_rstrip s = EmptyString <-> all_space s = true.
Proof.
  unfold py_rstrip. rewrite string_list_ascii_rev_empty.
  rewrite <- all_space_rev, <- py_lstrip_empty_iff.
  split; [|by intros ->].
  intros H. destruct (py_lstrip _); [done|]. discriminate.
Qed.

(** [s.strip()] is empty exactly when every character of [s] is
    whitespace. *)
Lemma py_strip_empty_iff s : py_strip s = EmptyString <-> all_space s = true.
Proof.
  unfold py_strip. rewrite py_rstrip_empty_iff.
  induction s as [|c s IH]; [done|].
  unfold all_space in *. simpl. destruct (py_isspace c) eqn:Hc; simpl.
  - exact IH.
  - by rewrite Hc.
Qed.

Lemma str_lower_idem s : str_lower (str_lower s) = str_lower s.
Proof.
  induction s as [|c s IH]; simpl; [done|]. rewrite IH. f_equal.
  destruct c as [b0 b1 b2 b3 b4 b5 b6 b7].
  destruct b0, b1, b2, b3, b4, b5, b6, b7; reflexivity.
Qed.

Lemma string_eqb_refl_true s : String.eqb s s = true.
Proof. apply String.eqb_refl. Qed.

#[export] Hint Resolve string_eqb_refl_true : py.
#[export] Hint Rewrite String.eqb_refl : pyrw.

(** ** Generic lemmas on lists *)

Lemma filter_app_single {A} (P : A -> bool) (l : list A) (x : A) :
  List.filter P (l ++ [x]) = List.filter P l ++ (if P x then [x] else []).
Proof. rewrite List.filter_app. simpl. by destruct (P x). Qed.

Lemma Forall_app_single {A} (P : A -> Prop) (l : list A) (x : A) :
  Forall P (l ++ [x]) <-> Forall P l /\ P x.
Proof. rewrite Forall_app, Forall_cons. naive_solver. Qed.

Lemma NoDup_app_single {A} (l : list A) (x : A) :
  NoDup l -> x ∉ l -> NoDup (l ++ [x]).
Proof.
  intros Hl Hx. apply NoDup_app. split_and!; [done| |by apply NoDup_singleton].
  intros y Hy ->%list_elem_of_singleton. done.
Qed.

Lemma substring_length_le n m s : (String.length (substring n m s) <= m)%nat.
Proof.
  revert n m. induction s as [|c s IH]; intros [|n] [|m]; simpl; try lia;
    try apply IH. specialize (IH 0 m). lia.
Qed.

(** Discharge a hypothesis of a theorem at a concrete input: evaluate,
    then close the equation, inequality or disequation that remains. *)
Ltac discharge_concrete :=
  first [apply (bool_decide_eq_true_1 _); vm_compute; reflexivity
        | vm_compute; first [reflexivity | lia | congruence]
        | reflexivity].

(** ** Effects: relations every step of a computation keeps *)

(** [preserves R m]: whatever [m] returns or raises, its final state is
    related by [R] to its initial state.  With [R] a preorder, this is
    closed under the combinators, so a whole function inherits it from
    the calls it makes. *)
Definition preserves {S E A} (R : S -> S -> Prop) (m : Py S E A) : Prop :=
  forall s o s', m s = (o, s') -> R s s'.

(** [raises_only X m]: every exception [m] raises satisfies [X]. *)
Definition raises_only {S E A} (X : E -> Prop) (m : Py S E A) : Prop :=
  forall s e s', m s = (Exc e, s') -> X e.

Section Effects.
Context {S E : Type}.

Section WithR.
Context (R : S -> S -> Prop) `{!PreOrder R}.

Lemma preserves_ret {A} (a : A) : preserves (E:=E) R (ret a).
Proof. intros s o s' [= _ <-]. reflexivity. Qed.

Lemma preserves_raise {A} (e : E) : preserves (A:=A) R (raise e).
Proof. intros s o s' [= _ <-]. reflexivity. Qed.

Lemma preserves_gets {A} (f : S -> A) : preserves (E:=E) R (gets f).
Proof. intros s o s' [= _ <-]. reflexivity. Qed.

Lemma preserves_modify (f : S -> S) :
  (forall s, R s (f s)) -> preserves (E:=E) R (modify f).
Proof. intros Hf s o s' [= _ <-]. apply Hf. Qed.

Lemma preserves_bind {A B} (m : Py S E A) (k : A -> Py S E B) :
  preserves R m -> (forall a, preserves R (k a)) -> preserves R (bind m k).
Proof.
  intros Hm Hk s o s'. unfold bind. destruct (m s) as [[a|e] s1] eqn:E1.
  - intros H2. transitivity s1; [by eapply Hm|by eapply Hk].
  - intros [= _ <-]. by eapply Hm.
Qed.

Lemma preserves_try_finally {A} (m : Py S E A) (f : Py S E unit) :
  preserves R m -> preserves R f -> preserves R (try_finally m f).
Proof.
  intros Hm Hf s o s'. unfold try_finally. destruct (m s) as [o1 s1] eqn:E1.
  destruct (f s1) as [[]s2] eqn:E2; intros [= _ <-];
    (transitivity s1; [by eapply Hm|by eapply Hf]).
Qed.

Lemma preserves_try_except {A} (c : E -> bool) (m : Py S E A) (h : E -> Py S E A) :
  preserves R m -> (forall e, preserves R (h e)) -> preserves R (try_except c m h).
Proof.
  intros Hm Hh s o s'. unfold try_except. destruct (m s) as [[a|e] s1] eqn:E1.
  - intros [= _ <-]. by eapply Hm.
  - destruct (c e).
    + intros H2. transitivity s1; [by eapply Hm|by eapply Hh].
    + intros [= _ <-]. by eapply Hm.
Qed.
(** A computation that starts by reading the state: the rest runs from
    the state it read. *)
Lemma preserves_bind_gets {A B} (f : S -> A) (k : A -> Py S E B) :
  (forall s o s', k (f s) s = (o, s') -> R s s') -> preserves R (bind (gets f) k).
Proof. intros Hk s o s'. apply Hk. Qed.
End WithR.

Lemma preserves_impl {A} (R R' : S -> S -> Prop) (m : Py S E A) :
  (forall s s', R s s' -> R' s s') -> preserves R m -> preserves R' m.
Proof. intros HR Hm s o s' Hrun. apply HR. by eapply Hm. Qed.

Section WithX.
Context (X : E -> Prop).

Lemma raises_only_ret {A} (a : A) : raises_only X (ret (S:=S) a).
Proof. by intros s e s' [=]. Qed.

Lemma raises_only_raise {A} (e : E) : X e -> raises_only (A:=A) (S:=S) X (raise e).
Proof. by intros He s e' s' [= <- _]. Qed.

Lemma raises_only_gets {A} (f : S -> A) : raises_only X (gets (E:=E) f).
Proof. by intros s e s' [=]. Qed.

Lemma raises_only_modify (f : S -> S) : raises_only X (modify (E:=E) f).
Proof. by intros s e s' [=]. Qed.

Lemma raises_only_bind {A B} (m : Py S E A) (k : A -> Py S E B) :
  raises_only X m -> (forall a, raises_only X (k a)) -> raises_only X (bind m k).
Proof.
  intros Hm Hk s e s'. unfold bind. destruct (m s) as [[a|e1] s1] eqn:E1.
  - by apply Hk.
  - intros [= <- _]. by eapply Hm.
Qed.

Lemma raises_only_try_finally {A} (m : Py S E A) (f : Py S E unit) :
  raises_only X m -> raises_only X f -> raises_only X (try_finally m f).
Proof.
  intros Hm Hf s e s'. unfold try_finally. destruct (m s) as [o1 s1] eqn:E1.
  destruct (f s1) as [[]s2] eqn:E2; intros [= Ho _].
  - subst. by eapply Hm.
  - subst. by eapply Hf.
Qed.

Lemma raises_only_try_except {A} (c : E -> bool) (m : Py S E A) (h : E -> Py S E A) :
  raises_only X m -> (forall e, raises_only X (h e)) -> raises_only X (try_except c m h).
Proof.
  intros Hm Hh s e s'. unfold try_except. destruct (m s) as [[a|e1] s1] eqn:E1.
  - by intros [=].
  - destruct (c e1); [by apply Hh|]. intros [= <- _]. by eapply Hm.
Qed.
End WithX.
End Effects.

(** Decompose a goal [preserves R m] or [raises_only X m] along the
    structure of [m]; the calls that remain are left to [eauto]. *)
Ltac effects_step :=
  match goal with
  | |- preserves ?R (bind _ _) => apply (preserves_bind R); [|intros ?]
  | |- preserves ?R (try_finally _ _) => apply (preserves_try_finally R)
  | |- preserves ?R (try_except _ _ _) => apply (preserves_try_except R); [|intros ?]
  | |- preserves ?R (ret _) => apply (preserves_ret R)
  | |- preserves ?R (raise _) => apply (preserves_raise R)
  | |- preserves ?R (gets _) => apply (preserves_gets R)
  | |- raises_only _ (bind _ _) => apply raises_only_bind; [|intros ?]
  | |- raises_only _ (try_finally _ _) => apply raises_only_try_finally
  | |- raises_only _ (try_except _ _ _) => apply raises_only_try_except; [|intros ?]
  | |- raises_only _ (ret _) => apply raises_only_ret
  | |- raises_only _ (raise _) => apply raises_only_raise
  | |- raises_only _ (gets _) => apply raises_only_gets
  | |- raises_only _ (modify _) => apply raises_only_modify
  | |- _ _ (match ?x with _ => _ end) => first [progress cbv beta iota | destruct x]
  | |- _ _ (if ?b then _ else _) => destruct b
  end.

(** [preserves_unless X R m]: [R] relates the initial and final states
    unless [m] raised an exception satisfying [X]. *)
Definition preserves_unless {S E A} (X : E -> Prop) (R : S -> S -> Prop)
           (m : Py S E A) : Prop :=
  forall s o s', m s = (o, s') -> (exists e, o = Exc e /\ X e) \/ R s s'.

Section Unless.
Context {S E : Type} (X : E -> Prop) (R : S -> S -> Prop) `{!PreOrder R}.

Lemma preserves_unless_of {A} (m : Py S E A) : preserves R m -> preserves_unless X R m.
Proof. intros Hm s o s' Hrun. right. by eapply Hm. Qed.

Lemma preserves_unless_raise {A} (e : E) : X e -> preserves_unless (A:=A) X R (raise e).
Proof. intros He s o s' [= <- _]. left. by exists e. Qed.

Lemma preserves_unless_bind {A B} (m : Py S E A) (k : A -> Py S E B) :
  preserves_unless X R m -> (forall a, preserves_unless X R (k a)) ->
  preserves_unless X R (bind m k).
Proof.
  intros Hm Hk s o s'. unfold bind. destruct (m s) as [[a|e] s1] eqn:E1.
  - intros H2. destruct (Hm _ _ _ E1) as [(e & [=] & _)|H1].
    destruct (Hk a _ _ _ H2) as [HX|H3]; [left; exact HX|]. right. by transitivity s1.
  - intros [= <- <-]. destruct (Hm _ _ _ E1) as [(e0 & [= <-] & HX)|H1];
      [left; by exists e|right; exact H1].
Qed.
End Unless.

(** [never_returns m]: every run of [m] ends in an exception, like a block
    that finishes with [st.rerun()]. *)
Definition never_returns {S E A} (m : Py S E A) : Prop :=
  forall s a s', m s <> (Ret a, s').

Section Never.
Context {S E : Type}.

Lemma never_returns_raise {A} (e : E) : never_returns (A:=A) (S:=S) (raise e).
Proof. by intros s a s'. Qed.

Lemma never_returns_bind {A B} (m : Py S E A) (k : A -> Py S E B) :
  (forall a, never_returns (k a)) -> never_returns (bind m k).
Proof.
  intros Hk s b s'. unfold bind. destruct (m s) as [[a|e] s1]; [apply Hk|done].
Qed.

(** A block that always raises an exception of [X] keeps any relation
    "unless an exception of [X] was raised". *)
Lemma preserves_unless_never {A} (X : E -> Prop) (R : S -> S -> Prop) (m : Py S E A) :
  raises_only X m -> never_returns m -> preserves_unless X R m.
Proof.
  intros HX HN s [a|e] s' Hrun; [by destruct (HN _ _ _ Hrun)|].
  left. exists e. split; [done|]. by eapply HX.
Qed.
End Never.

Ltac never_step :=
  match goal with
  | |- never_returns (bind _ _) => apply never_returns_bind; intros ?
  | |- never_returns (raise _) => apply never_returns_raise
  end.

(** Decompose a goal [preserves_unless X R m]; a block that ends in an
    exception of [X] is closed by [preserves_unless_never]. *)
Ltac unless_step :=
  match goal with
  | |- preserves_unless ?X ?R _ =>
      apply (preserves_unless_never X R);
      [solve [repeat effects_step; eauto with py] | solve [repeat never_step]]
  | |- preserves_unless ?X ?R (bind _ _) => apply (preserves_unless_bind X R); [|intros ?]
  | |- preserves_unless ?X ?R (raise _) => apply (preserves_unless_raise X R)
  | |- preserves_unless _ _ (match ?x with _ => _ end) => first [progress cbv beta iota | destruct x]
  | |- preserves_unless _ _ (if ?b then _ else _) => destruct b
  | |- preserves_unless ?X ?R _ => apply (preserves_unless_of X R); repeat effects_step
  end.
