(* ===== verification/MySQL.v ===== *)
(** * The MySQL server, as the statements of app.py meet it

    The two tables created by [init_db] (app.py 22-42) and the semantics of
    the seven SQL texts of app.py, as one function [exec] on a [Server].
    The server's configuration ([Config]) and the collation of string
    comparisons ([Collation]) are parameters: the program's behaviour
    depends on them, and the theorems say under which ones they hold.
    The invariant [wf_server] collects the column types, the keys, the
    foreign key and the complaint lifecycle; [exec_wf] shows that every
    statement the application issues preserves it. *)

From S2P Require Import Prelude.

(** ** Configuration *)

(** The largest value of a signed [INT] column. *)
Definition INT_MAX : Z := 2147483647.

Record Config := mk_config {
  (** [lower_case_table_names] is 1 or 2: table names compare
      case-insensitively (the default on Windows and macOS; it is 0, and
      names are case-sensitive, on Linux). *)
  lower_case_table_names : bool;
  (** [STRICT_TRANS_TABLES] is in [sql_mode] (the default since 5.7). *)
  strict_mode : bool;
  (** The host name the server answers on. *)
  server_host : string;
  (** The accounts: user name and password. *)
  accounts : list (string * string);
  (** The databases of the server.  app.py creates none: [Grievances]
      must exist before the first run. *)
  databases : list string
}.

(** The collation of the [username] and [password] columns, which decides
    the [=] of [WHERE username = %s AND password = %s]. *)
Class Collation := {
  coll_eqb : string -> string -> bool;
  coll_refl : forall a, coll_eqb a a = true;
  coll_sym : forall a b, coll_eqb a b = coll_eqb b a
}.

(** A binary collation compares code points. *)
#[local] Program Instance binary_collation : Collation := {
  coll_eqb := String.eqb
}.
Next Obligation. apply String.eqb_refl. Qed.
Next Obligation. apply String.eqb_sym. Qed.

(** The default collations ([utf8mb4_0900_ai_ci], [latin1_swedish_ci])
    are case-insensitive; on ASCII they compare lower-cased strings. *)
#[local] Program Instance ascii_ci_collation : Collation := {
  coll_eqb a b := String.eqb (str_lower a) (str_lower b)
}.
Next Obligation. intros a. apply String.eqb_refl. Qed.
Next Obligation. intros a b. apply String.eqb_sym. Qed.

(** ** Errors *)

Inductive db_error : Type :=
| CR_CONN_HOST_ERROR                     (* 2003: cannot connect *)
| ER_ACCESS_DENIED_ERROR                 (* 1045: user or password refused *)
| ER_BAD_DB_ERROR (db : string)          (* 1049: unknown database *)
| ER_NO_SUCH_TABLE (t : string)          (* 1146 *)
| ER_FK_CANNOT_OPEN_PARENT (t : string)  (* 1824 *)
| ER_NO_REFERENCED_ROW_2                 (* 1452: foreign key fails *)
| ER_DATA_TOO_LONG (col : string)        (* 1406 *)
| ER_DUP_ENTRY_AUTOINC.                  (* 1062: AUTO_INCREMENT at INT_MAX *)

(** ** Tables and rows *)

(** The two tables of the schema, with the names [init_db] creates them
    under. *)
Inductive table : Type := T_USERS | T_COMPLAINTS.

Definition table_name (t : table) : string :=
  match t with T_USERS => "USERS" | T_COMPLAINTS => "COMPLAINTS" end.

(** A row of [USERS] (app.py 23-27). *)
Record user_row := mk_user {
  u_id : Z;
  u_username : string;
  u_password : string
}.

(** A row of [COMPLAINTS] (app.py 32-41).  [status] and [user_id] are
    nullable in the schema, but every insert of app.py sets them, so they
    are not options here. *)
Record complaint_row := mk_complaint {
  c_id : Z;
  c_user_id : Z;
  c_description : string;
  c_status : string;
  c_created_At : Z;
  c_resolution_desc : string;
  c_resolved_At : option Z
}.

#[export] Instance table_eq_dec : EqDecision table.
Proof. solve_decision. Defined.
#[export] Instance user_row_eq_dec : EqDecision user_row.
Proof. solve_decision. Defined.
#[export] Instance complaint_row_eq_dec : EqDecision complaint_row.
Proof. solve_decision. Defined.

(** The sentinel that [DEFAULT "Not Available"] stores (app.py 38). *)
Definition NOT_AVAILABLE : string := "Not Available".

Record Server := mk_server {
  catalog : list table;
  users_rows : list user_row;
  complaints_rows : list complaint_row;
  users_ai : Z;          (* next AUTO_INCREMENT value of USERS.id *)
  complaints_ai : Z;     (* next AUTO_INCREMENT value of COMPLAINTS.id *)
  clock : Z;             (* CURRENT_TIMESTAMP *)
  reachable : bool       (* the server is running and accepts connections *)
}.

(** A fresh server with an empty [Grievances] database. *)
Definition empty_server (now : Z) : Server :=
  mk_server [] [] [] 1 1 now true.

(** ** Statements *)

(** One constructor per SQL text of app.py, with its [%s] parameters. *)
Inductive Stmt : Type :=
| CreateUsersTable                                  (* 22-28 *)
| CreateComplaintsTable                             (* 31-42 *)
| InsertUser (username password : string)           (* 55 *)
| SelectUserId (username password : string)         (* 70 *)
| InsertComplaint (user_id : Z) (description status : string)  (* 83 *)
| SelectComplaints (user_id : Z)                    (* 95-99 *)
| UpdateComplaint (resolution_desc : string) (complaint_id : Z). (* 112-118 *)

(** A row of a result set: [(id,)] from the login query, or the six
    columns of the complaint listing. *)
Inductive Row : Type :=
| RId (id : Z)
| RComplaint (id : Z) (description status : string) (created_At : Z)
             (resolution_desc : string) (resolved_At : option Z).

(** Index 0 of a row tuple: the [id] column in both queries. *)
Definition row_first (r : Row) : Z :=
  match r with RId id => id | RComplaint id _ _ _ _ _ => id end.

Inductive exec_result : Type :=
| Rows (rs : list Row)
| Affected (n : nat) (last_insert_id : Z).

(** The characters of [v] beyond the first [max] are all spaces. *)
Definition excess_is_spaces (max : nat) (v : string) : bool :=
  forallb (fun c => Ascii.eqb c " "%char)
          (list_ascii_of_string (substring max (String.length v) v)).

Section Exec.
Context (cfg : Config) `{Collation}.

Definition name_eqb (a b : string) : bool :=
  if lower_case_table_names cfg then String.eqb (str_lower a) (str_lower b)
  else String.eqb a b.

(** The table a name in a statement refers to. *)
Definition resolve (cat : list table) (name : string) : option table :=
  List.find (fun t => name_eqb (table_name t) name) cat.

Definition table_exists (cat : list table) (name : string) : bool :=
  match resolve cat name with Some _ => true | None => false end.

(** Storing a string in a VARCHAR(max) or TEXT column.  Excess trailing
    spaces are cut in every mode; any other excess is an error in strict
    mode and is cut otherwise.  The width is an [N]: TEXT holds 65535. *)
Definition store_string (col : string) (max : N) (v : string)
  : db_error + string :=
  if (N.of_nat (String.length v) <=? max)%N then inr v
  else if excess_is_spaces (N.to_nat max) v || negb (strict_mode cfg)
       then inr (substring 0 (N.to_nat max) v)
       else inl (ER_DATA_TOO_LONG col).

(** The next AUTO_INCREMENT value, if it fits the [INT] column. *)
Definition alloc_id (ai : Z) : option Z :=
  if (ai <=? INT_MAX)%Z then Some ai else None.

Definition user_matches (username password : string) (u : user_row) : bool :=
  coll_eqb (u_username u) username && coll_eqb (u_password u) password.

Definition complaint_view (c : complaint_row) : Row :=
  RComplaint (c_id c) (c_description c) (c_status c) (c_created_At c)
             (c_resolution_desc c) (c_resolved_At c).

(** The [SET] clause of the update (app.py 114-116). *)
Definition resolve_row (r : string) (now : Z) (c : complaint_row)
  : complaint_row :=
  mk_complaint (c_id c) (c_user_id c) (c_description c) "Resolved"
               (c_created_At c) r (Some now).

Definition update_rows (cid : Z) (r : string) (now : Z)
           (rows : list complaint_row) : list complaint_row :=
  map (fun c => if (c_id c =? cid)%Z then resolve_row r now c else c) rows.

(** [create_users_table] (app.py 22-28). *)
Definition create_users_table (s : Server) : (db_error + exec_result) * Server :=
  if table_exists (catalog s) "USERS" then (inr (Affected 0 0), s)
  else (inr (Affected 0 0),
        mk_server (catalog s ++ [T_USERS]) (users_rows s) (complaints_rows s)
                  (users_ai s) (complaints_ai s) (clock s) (reachable s)).

(** [create_complaints_table] (app.py 31-42): the foreign key needs its
    parent table, which it names [users]. *)
Definition create_complaints_table (s : Server) : (db_error + exec_result) * Server :=
  if table_exists (catalog s) "COMPLAINTS" then (inr (Affected 0 0), s)
  else if table_exists (catalog s) "users" then
    (inr (Affected 0 0),
     mk_server (catalog s ++ [T_COMPLAINTS]) (users_rows s) (complaints_rows s)
               (users_ai s) (complaints_ai s) (clock s) (reachable s))
  else (inl (ER_FK_CANNOT_OPEN_PARENT "users"), s).

(** [INSERT INTO users (username, password) VALUES (%s, %s)] (app.py 55). *)
Definition sql_insert_user (s : Server) (username password : string)
  : (db_error + exec_result) * Server :=
  if negb (table_exists (catalog s) "users") then
    (inl (ER_NO_SUCH_TABLE "Grievances.users"), s)
  else match store_string "username" 25 username,
             store_string "password" 25 password with
  | inl e, _ | _, inl e => (inl e, s)
  | inr un, inr pw =>
      match alloc_id (users_ai s) with
      | None => (inl ER_DUP_ENTRY_AUTOINC, s)
      | Some id =>
          (inr (Affected 1 id),
           mk_server (catalog s) (users_rows s ++ [mk_user id un pw])
                     (complaints_rows s) (id + 1) (complaints_ai s)
                     (clock s) (reachable s))
      end
  end.

(** [SELECT id FROM users WHERE username = %s AND password = %s]
    (app.py 70). *)
Definition sql_select_user_id (s : Server) (username password : string)
  : (db_error + exec_result) * Server :=
  if negb (table_exists (catalog s) "users") then
    (inl (ER_NO_SUCH_TABLE "Grievances.users"), s)
  else (inr (Rows (map (fun u => RId (u_id u))
                  (List.filter (user_matches username password)
                               (users_rows s)))), s).

(** [INSERT INTO complaints (user_id, description, status) VALUES
    (%s, %s, %s)] (app.py 83).  [created_At] and [resolution_desc] take
    their defaults, [resolved_At] is NULL. *)
Definition sql_insert_complaint (s : Server) (uid : Z) (description status : string)
  : (db_error + exec_result) * Server :=
  if negb (table_exists (catalog s) "complaints") then
    (inl (ER_NO_SUCH_TABLE "Grievances.complaints"), s)
  else match store_string "description" 65535 description,
             store_string "status" 25 status with
  | inl e, _ | _, inl e => (inl e, s)
  | inr d, inr stt =>
      match alloc_id (complaints_ai s) with
      | None => (inl ER_DUP_ENTRY_AUTOINC, s)
      | Some id =>
          if existsb (fun u => (u_id u =? uid)%Z) (users_rows s) then
            (inr (Affected 1 id),
             mk_server (catalog s) (users_rows s)
               (complaints_rows s ++
                  [mk_complaint id uid d stt (clock s) NOT_AVAILABLE None])
               (users_ai s) (id + 1) (clock s) (reachable s))
          else
            (* the row is rejected, but InnoDB has used the id *)
            (inl ER_NO_REFERENCED_ROW_2,
             mk_server (catalog s) (users_rows s) (complaints_rows s)
                       (users_ai s) (id + 1) (clock s) (reachable s))
      end
  end.

(** [SELECT id, description, status, created_At, resolution_desc,
    resolved_At FROM complaints WHERE user_id = %s] (app.py 95-99). *)
Definition sql_select_complaints (s : Server) (uid : Z)
  : (db_error + exec_result) * Server :=
  if negb (table_exists (catalog s) "complaints") then
    (inl (ER_NO_SUCH_TABLE "Grievances.complaints"), s)
  else (inr (Rows (map complaint_view
                  (List.filter (fun c => (c_user_id c =? uid)%Z)
                               (complaints_rows s)))), s).

(** [UPDATE complaints SET resolution_desc = %s, status = 'Resolved',
    resolved_At = CURRENT_TIMESTAMP WHERE id = %s] (app.py 112-118).  The
    value is stored, and checked against VARCHAR(255), only in the rows
    that match. *)
Definition sql_update_complaint (s : Server) (r : string) (cid : Z)
  : (db_error + exec_result) * Server :=
  if negb (table_exists (catalog s) "complaints") then
    (inl (ER_NO_SUCH_TABLE "Grievances.complaints"), s)
  else
    let n := length (List.filter (fun c => (c_id c =? cid)%Z)
                                 (complaints_rows s)) in
    if (n =? 0)%nat then (inr (Affected 0 0), s)
    else match store_string "resolution_desc" 255 r with
    | inl e => (inl e, s)
    | inr r' =>
        (inr (Affected n 0),
         mk_server (catalog s) (users_rows s)
           (update_rows cid r' (clock s) (complaints_rows s))
           (users_ai s) (complaints_ai s) (clock s) (reachable s))
    end.

(** The server's answer to one statement. *)
Definition exec (s : Server) (st : Stmt) : (db_error + exec_result) * Server :=
  match st with
  | CreateUsersTable => create_users_table s
  | CreateComplaintsTable => create_complaints_table s
  | InsertUser u p => sql_insert_user s u p
  | SelectUserId u p => sql_select_user_id s u p
  | InsertComplaint uid d stt => sql_insert_complaint s uid d stt
  | SelectComplaints uid => sql_select_complaints s uid
  | UpdateComplaint r cid => sql_update_complaint s r cid
  end.
End Exec.

(** ** Table-name resolution *)

Definition has_table (cat : list table) (t : table) : bool :=
  existsb (fun t' => bool_decide (t' = t)) cat.

Lemma has_table_spec cat t : has_table cat t = true <-> t ∈ cat.
Proof.
  unfold has_table. rewrite existsb_exists, list_elem_of_In. split.
  - intros [t' [Hin Ht]]. apply bool_decide_eq_true in Ht. by subst.
  - intros Hin. exists t. split; [done|]. by apply bool_decide_eq_true.
Qed.

Lemma table_exists_existsb cfg cat n :
  table_exists cfg cat n = existsb (fun t => name_eqb cfg (table_name t) n) cat.
Proof.
  unfold table_exists, resolve. induction cat as [|t cat IH]; [done|]. simpl.
  destruct (name_eqb cfg (table_name t) n); [done|]. exact IH.
Qed.

(** The names the DDL uses resolve under every configuration. *)
Lemma table_exists_USERS cfg cat :
  table_exists cfg cat "USERS" = has_table cat T_USERS.
Proof.
  rewrite table_exists_existsb. unfold has_table, name_eqb.
  induction cat as [|[] cat IH]; destruct (lower_case_table_names cfg); simpl in *; auto.
Qed.

Lemma table_exists_COMPLAINTS cfg cat :
  table_exists cfg cat "COMPLAINTS" = has_table cat T_COMPLAINTS.
Proof.
  rewrite table_exists_existsb. unfold has_table, name_eqb.
  induction cat as [|[] cat IH]; destruct (lower_case_table_names cfg); simpl in *; auto.
Qed.

(** The lower-case names of the foreign key and of the DML resolve only
    when table names are case-insensitive. *)
Lemma table_exists_users cfg cat :
  table_exists cfg cat "users" = lower_case_table_names cfg && has_table cat T_USERS.
Proof.
  rewrite table_exists_existsb. unfold has_table, name_eqb.
  induction cat as [|[] cat IH]; destruct (lower_case_table_names cfg); simpl in *; auto.
Qed.

Lemma table_exists_complaints cfg cat :
  table_exists cfg cat "complaints" =
  lower_case_table_names cfg && has_table cat T_COMPLAINTS.
Proof.
  rewrite table_exists_existsb. unfold has_table, name_eqb.
  induction cat as [|[] cat IH]; destruct (lower_case_table_names cfg); simpl in *; auto.
Qed.

Lemma has_table_app_single cat t t' :
  has_table (cat ++ [t']) t = has_table cat t || bool_decide (t' = t).
Proof. unfold has_table. rewrite existsb_app. simpl. by rewrite orb_false_r. Qed.

#[export] Hint Rewrite table_exists_USERS table_exists_COMPLAINTS
  table_exists_users table_exists_complaints has_table_app_single : pyrw.

(** Both tables are there under the names the data-access statements use. *)
Definition schema_ready (cfg : Config) (s : Server) : bool :=
  table_exists cfg (catalog s) "users" && table_exists cfg (catalog s) "complaints".

Lemma store_string_fits cfg col max v :
  (N.of_nat (String.length v) <= max)%N -> store_string cfg col max v = inr v.
Proof. intros Hl. unfold store_string. by rewrite (proj2 (N.leb_le _ _) Hl). Qed.

Lemma alloc_id_ok ai : (ai <= INT_MAX)%Z -> alloc_id ai = Some ai.
Proof. intros Hai. unfold alloc_id. by rewrite (proj2 (Z.leb_le _ _) Hai). Qed.

Lemma alloc_id_exhausted ai : (INT_MAX < ai)%Z -> alloc_id ai = None.
Proof. intros Hai. unfold alloc_id. destruct (Z.leb_spec ai INT_MAX); [lia|done]. Qed.

(** A successful [INSERT INTO users]. *)
Lemma exec_InsertUser_ok cfg `{Collation} s u p :
  table_exists cfg (catalog s) "users" = true ->
  (String.length u <= 25)%nat -> (String.length p <= 25)%nat ->
  (users_ai s <= INT_MAX)%Z ->
  exec cfg s (InsertUser u p) =
  (inr (Affected 1 (users_ai s)),
   mk_server (catalog s) (users_rows s ++ [mk_user (users_ai s) u p])
             (complaints_rows s) (users_ai s + 1) (complaints_ai s) (clock s)
             (reachable s)).
Proof.
  intros Ht Hu Hp Hai. unfold exec, sql_insert_user. rewrite Ht. simpl.
  rewrite !store_string_fits by lia. by rewrite alloc_id_ok.
Qed.

Lemma store_string_too_long cfg col max v :
  strict_mode cfg = true -> (max < N.of_nat (String.length v))%N ->
  excess_is_spaces (N.to_nat max) v = false ->
  store_string cfg col max v = inl (ER_DATA_TOO_LONG col).
Proof.
  intros Hs Hl He. unfold store_string. rewrite Hs, He.
  by rewrite (proj2 (N.leb_gt _ _) Hl).
Qed.

Lemma store_string_truncate cfg col max v :
  strict_mode cfg = false -> (max < N.of_nat (String.length v))%N ->
  store_string cfg col max v = inr (substring 0 (N.to_nat max) v).
Proof.
  intros Hs Hl. unfold store_string. rewrite Hs, orb_true_r.
  by rewrite (proj2 (N.leb_gt _ _) Hl).
Qed.

(** A server on [localhost] with the account [root] / [password] and the
    database [Grievances], as app.py expects. *)
Definition deployment (lower strict : bool) : Config :=
  mk_config lower strict "localhost" [("root", "password")] ["Grievances"].

(** Configurations the witnesses use: table names case-insensitive or not
    (Windows and macOS against Linux defaults), strict mode on or off. *)
Definition ci_strict : Config := deployment true true.
Definition cs_strict : Config := deployment false true.
Definition ci_lax : Config := deployment true false.

(** A successful [INSERT INTO complaints]. *)
Lemma exec_InsertComplaint_ok cfg `{Collation} s uid d :
  table_exists cfg (catalog s) "complaints" = true ->
  (N.of_nat (String.length d) <= 65535)%N -> (complaints_ai s <= INT_MAX)%Z ->
  existsb (fun u => (u_id u =? uid)%Z) (users_rows s) = true ->
  exec cfg s (InsertComplaint uid d "Pending") =
  (inr (Affected 1 (complaints_ai s)),
   mk_server (catalog s) (users_rows s)
     (complaints_rows s ++
        [mk_complaint (complaints_ai s) uid d "Pending" (clock s) NOT_AVAILABLE None])
     (users_ai s) (complaints_ai s + 1) (clock s) (reachable s)).
Proof.
  intros Ht Hd Hai Hu. unfold exec, sql_insert_complaint. rewrite Ht. simpl.
  rewrite !store_string_fits by first [exact Hd | simpl; lia].
  by rewrite alloc_id_ok, Hu.
Qed.

(** An [INSERT INTO complaints] for a user that does not exist: the
    foreign key rejects the row after InnoDB has used the id. *)
Lemma exec_InsertComplaint_fk cfg `{Collation} s uid d :
  table_exists cfg (catalog s) "complaints" = true ->
  (N.of_nat (String.length d) <= 65535)%N -> (complaints_ai s <= INT_MAX)%Z ->
  existsb (fun u => (u_id u =? uid)%Z) (users_rows s) = false ->
  exec cfg s (InsertComplaint uid d "Pending") =
  (inl ER_NO_REFERENCED_ROW_2,
   mk_server (catalog s) (users_rows s) (complaints_rows s)
             (users_ai s) (complaints_ai s + 1) (clock s) (reachable s)).
Proof.
  intros Ht Hd Hai Hu. unfold exec, sql_insert_complaint. rewrite Ht. simpl.
  rewrite !store_string_fits by first [exact Hd | simpl; lia].
  by rewrite alloc_id_ok, Hu.
Qed.

(** An [UPDATE] that matches at least one row and whose text fits. *)
Lemma exec_UpdateComplaint_ok cfg `{Collation} s r cid :
  table_exists cfg (catalog s) "complaints" = true ->
  (String.length r <= 255)%nat ->
  List.filter (fun c => (c_id c =? cid)%Z) (complaints_rows s) <> [] ->
  snd (exec cfg s (UpdateComplaint r cid)) =
  mk_server (catalog s) (users_rows s)
    (update_rows cid r (clock s) (complaints_rows s))
    (users_ai s) (complaints_ai s) (clock s) (reachable s) /\
  exists n, fst (exec cfg s (UpdateComplaint r cid)) = inr (Affected n 0).
Proof.
  intros Ht Hr Hne. unfold exec, sql_update_complaint. rewrite Ht. simpl.
  destruct (List.filter _ _) as [|c l]; [done|]. simpl.
  rewrite store_string_fits by lia. simpl. split; [reflexivity|eexists; reflexivity].
Qed.

(** An [UPDATE] that matches no row changes nothing and reports success. *)
Lemma exec_UpdateComplaint_none cfg `{Collation} s r cid :
  table_exists cfg (catalog s) "complaints" = true ->
  List.filter (fun c => (c_id c =? cid)%Z) (complaints_rows s) = [] ->
  exec cfg s (UpdateComplaint r cid) = (inr (Affected 0 0), s).
Proof.
  intros Ht Hnone. unfold exec, sql_update_complaint. rewrite Ht, Hnone. done.
Qed.
