(* ===== verification/Integrity.v ===== *)
(** * The integrity invariant of the database

    [wf_server] is what the schema of app.py (lines 22-42) and the
    application's statements keep true of the two tables:
    - ids are unique, positive, below the AUTO_INCREMENT counter, and the
      counter stays within INT;
    - usernames and passwords fit VARCHAR(25), resolutions VARCHAR(255);
    - every complaint references an existing user (the foreign key);
    - every complaint is "Pending", unresolved, with the "Not Available"
      resolution, or "Resolved" with a resolution timestamp no earlier
      than its creation;
    - no timestamp lies ahead of the server's clock.
    [exec_wf] shows that every statement app.py issues preserves it, from
    any server, whatever the configuration and the collation.
    [exec_complaint_history] shows that a statement never removes a
    complaint, and changes one only by resolving it.  Statuses therefore
    only move from "Pending" to "Resolved". *)

From S2P Require Import Prelude MySQL.

(** A complaint row in one of the two states of its lifecycle. *)
Definition lifecycle_ok (c : complaint_row) : Prop :=
  (c_status c = "Pending" /\ c_resolved_At c = None /\
   c_resolution_desc c = NOT_AVAILABLE) \/
  (c_status c = "Resolved" /\
   exists t, c_resolved_At c = Some t /\ (c_created_At c <= t)%Z).

Definition ids_below (ids : list Z) (ai : Z) : Prop :=
  Forall (fun i => 1 <= i < ai)%Z ids /\ NoDup ids.

Record wf_server (s : Server) : Prop := {
  wf_user_ids : ids_below (map u_id (users_rows s)) (users_ai s);
  wf_users_ai : (1 <= users_ai s <= INT_MAX + 1)%Z;
  wf_user_width : Forall (fun u => String.length (u_username u) <= 25 /\
                                   String.length (u_password u) <= 25)%nat
                         (users_rows s);
  wf_complaint_ids : ids_below (map c_id (complaints_rows s)) (complaints_ai s);
  wf_complaints_ai : (1 <= complaints_ai s <= INT_MAX + 1)%Z;
  wf_resolution_width : Forall (fun c => String.length (c_resolution_desc c) <= 255)%nat
                               (complaints_rows s);
  wf_fk : Forall (fun c => c_user_id c ∈ map u_id (users_rows s)) (complaints_rows s);
  wf_lifecycle : Forall lifecycle_ok (complaints_rows s);
  wf_clock : Forall (fun c => (c_created_At c <= clock s)%Z /\
                              (forall t, c_resolved_At c = Some t -> (t <= clock s)%Z))
                    (complaints_rows s)
}.

(** The statements as app.py issues them: complaints are inserted with the
    status "Pending" (app.py 84). *)
Definition app_stmt (st : Stmt) : Prop :=
  match st with InsertComplaint _ _ stt => stt = "Pending" | _ => True end.

(** ** Lemmas on the parts of the invariant *)

Lemma ids_below_add ids ai :
  ids_below ids ai -> (1 <= ai)%Z -> ids_below (ids ++ [ai]) (ai + 1).
Proof.
  intros [Hb Hn] H1. split.
  - apply Forall_app_single. split; [|lia].
    eapply Forall_impl; [exact Hb|]. simpl. lia.
  - apply NoDup_app_single; [done|]. intros Hin.
    rewrite Forall_forall in Hb. specialize (Hb _ Hin). lia.
Qed.

Lemma ids_below_bump ids ai : ids_below ids ai -> ids_below ids (ai + 1).
Proof.
  intros [Hb Hn]. split; [|done]. eapply Forall_impl; [exact Hb|]. simpl. lia.
Qed.

Lemma store_string_width cfg col max v v' :
  store_string cfg col max v = inr v' -> (N.of_nat (String.length v') <= max)%N.
Proof.
  unfold store_string. destruct (N.leb_spec (N.of_nat (String.length v)) max).
  - intros [= <-]. done.
  - case_match; [|discriminate]. intros [= <-].
    pose proof (substring_length_le 0 (N.to_nat max) v). lia.
Qed.

Lemma update_rows_ids cid r now rows :
  map c_id (update_rows cid r now rows) = map c_id rows.
Proof.
  unfold update_rows. rewrite map_map. apply map_ext. intros c.
  by destruct (c_id c =? cid)%Z.
Qed.

(** A map that changes each row by [f] or leaves it, where [f] keeps a
    property [P] given [Q], keeps [P] on the rows satisfying [Q]. *)
Lemma Forall_update_rows (P Q : complaint_row -> Prop) cid r now rows :
  (forall c, Q c -> P c -> P (resolve_row r now c)) ->
  Forall (fun c => Q c /\ P c) rows -> Forall P (update_rows cid r now rows).
Proof.
  intros Hf Hrows. unfold update_rows. apply Forall_map.
  eapply Forall_impl; [exact Hrows|]. intros c [HQ HP]. simpl.
  destruct (c_id c =? cid)%Z; auto.
Qed.

Lemma Forall_update_rows_simple (P : complaint_row -> Prop) cid r now rows :
  (forall c, P c -> P (resolve_row r now c)) ->
  Forall P rows -> Forall P (update_rows cid r now rows).
Proof.
  intros Hf Hrows. apply (Forall_update_rows P (fun _ => True)); [naive_solver|].
  eapply Forall_impl; [exact Hrows|]. done.
Qed.

Lemma Forall_and_split {A} (P Q : A -> Prop) l :
  Forall P l -> Forall Q l -> Forall (fun x => P x /\ Q x) l.
Proof. intros HP HQ. apply Forall_and. auto. Qed.

Lemma existsb_id_elem uid (users : list user_row) :
  existsb (fun u => (u_id u =? uid)%Z) users = true -> uid ∈ map u_id users.
Proof.
  rewrite existsb_exists. intros [u [Hin Hid]]. apply Z.eqb_eq in Hid. subst.
  apply list_elem_of_In, in_map, Hin.
Qed.

(** ** Preservation, statement by statement *)

Section Preservation.
Context (cfg : Config) `{Collation}.

Lemma wf_set_catalog s cat :
  wf_server s ->
  wf_server (mk_server cat (users_rows s) (complaints_rows s) (users_ai s)
                       (complaints_ai s) (clock s) (reachable s)).
Proof. intros []. by constructor. Qed.

Lemma create_users_table_wf s : wf_server s -> wf_server (snd (create_users_table cfg s)).
Proof. intros Hwf. unfold create_users_table. case_match; [done|]. by apply wf_set_catalog. Qed.

Lemma create_complaints_table_wf s :
  wf_server s -> wf_server (snd (create_complaints_table cfg s)).
Proof.
  intros Hwf. unfold create_complaints_table. repeat case_match; try done.
  by apply wf_set_catalog.
Qed.

Lemma sql_select_user_id_wf s u p :
  wf_server s -> wf_server (snd (sql_select_user_id cfg s u p)).
Proof. intros Hwf. unfold sql_select_user_id. by case_match. Qed.

Lemma sql_select_complaints_wf s uid :
  wf_server s -> wf_server (snd (sql_select_complaints cfg s uid)).
Proof. intros Hwf. unfold sql_select_complaints. by case_match. Qed.

Lemma sql_insert_user_wf s u p :
  wf_server s -> wf_server (snd (sql_insert_user cfg s u p)).
Proof.
  intros [Hids Hai Hw Hcids Hcai Hrw Hfk Hlc Hclk]. unfold sql_insert_user.
  destruct (negb _); [by constructor|].
  destruct (store_string cfg "username" 25 u) as [e|un] eqn:Hu; [by constructor|].
  destruct (store_string cfg "password" 25 p) as [e|pw] eqn:Hp; [by constructor|].
  unfold alloc_id. destruct (Z.leb_spec (users_ai s) INT_MAX); [|by constructor].
  constructor; simpl; try done.
  - rewrite map_app. apply ids_below_add; [done|lia].
  - lia.
  - apply Forall_app_single. split; [done|].
    apply store_string_width in Hu, Hp. simpl. lia.
  - eapply Forall_impl; [exact Hfk|]. simpl. intros c Hc.
    rewrite map_app, elem_of_app. by left.
Qed.

Lemma sql_insert_complaint_wf s uid d :
  wf_server s -> wf_server (snd (sql_insert_complaint cfg s uid d "Pending")).
Proof.
  intros [Hids Hai Hw Hcids Hcai Hrw Hfk Hlc Hclk]. unfold sql_insert_complaint.
  destruct (negb _); [by constructor|].
  destruct (store_string cfg "description" 65535 d) as [e|dd] eqn:Hd; [by constructor|].
  rewrite store_string_fits by (simpl; lia).
  unfold alloc_id. destruct (Z.leb_spec (complaints_ai s) INT_MAX); [|by constructor].
  destruct (existsb _ _) eqn:Hex; constructor; simpl; try done; try lia.
  - rewrite map_app. apply ids_below_add; [done|lia].
  - apply Forall_app_single. split; [done|]. simpl. lia.
  - apply Forall_app_single. split; [done|]. by apply existsb_id_elem.
  - apply Forall_app_single. split; [done|]. left. done.
  - apply Forall_app_single. split; [done|]. simpl. split; [lia|discriminate].
  - by apply ids_below_bump.
Qed.

Lemma sql_update_complaint_wf s r cid :
  wf_server s -> wf_server (snd (sql_update_complaint cfg s r cid)).
Proof.
  intros [Hids Hai Hw Hcids Hcai Hrw Hfk Hlc Hclk]. unfold sql_update_complaint.
  destruct (negb _); [by constructor|].
  destruct (_ =? 0)%nat; [by constructor|].
  destruct (store_string cfg "resolution_desc" 255 r) as [e|r'] eqn:Hr; [by constructor|].
  constructor; simpl; try done.
  - by rewrite update_rows_ids.
  - apply Forall_update_rows_simple; [|done].
    intros c _. simpl. apply store_string_width in Hr. lia.
  - by apply Forall_update_rows_simple.
  - apply (Forall_update_rows _ (fun c => c_created_At c <= clock s)%Z).
    + intros c Hc _. right. simpl. split; [done|]. by exists (clock s).
    + apply Forall_and_split; [|done]. eapply Forall_impl; [exact Hclk|]. naive_solver.
  - apply Forall_update_rows_simple; [|done].
    intros c [Hc _]. simpl. split; [done|]. intros t [= <-]. lia.
Qed.
End Preservation.

Lemma empty_server_wf now : wf_server (empty_server now).
Proof. constructor; simpl; try (split; [done|constructor]); try done; unfold INT_MAX; lia. Qed.

(** The UPDATE changes exactly the rows with its id, each to
    [resolve_row]; every other row stays as it was. *)
Lemma update_rows_elem cid r now rows c :
  c ∈ rows -> exists c', c' ∈ update_rows cid r now rows /\
    ((c_id c <> cid /\ c' = c) \/ (c_id c = cid /\ c' = resolve_row r now c)).
Proof.
  intros Hin. unfold update_rows.
  exists (if (c_id c =? cid)%Z then resolve_row r now c else c). split.
  - by apply (list_elem_of_fmap_2 (fun c => if (c_id c =? cid)%Z then resolve_row r now c else c)).
  - destruct (Z.eqb_spec (c_id c) cid); [right|left]; auto.
Qed.

Section Theorems.
Context (cfg : Config) `{Collation}.

(** How statement [st], executed at time [now], can change complaint
    [c]: not at all, or, when [st] is the UPDATE of the id of [c] with a
    resolution the column accepts, to status "Resolved" with the stored
    resolution and the time [now], its id, owner, description and
    creation time kept. *)
Definition complaint_evolves (st : Stmt) (now : Z) (c c' : complaint_row) : Prop :=
  c' = c \/
  exists r r', st = UpdateComplaint r (c_id c) /\
    store_string cfg "resolution_desc" 255 r = inr r' /\
    c' = mk_complaint (c_id c) (c_user_id c) (c_description c) "Resolved"
                      (c_created_At c) r' (Some now).

(** The invariant, statement by statement. *)
Lemma exec_wf_step s st :
  wf_server s -> app_stmt st -> wf_server (snd (exec cfg s st)).
Proof.
  intros Hwf Hst. destruct st; simpl in Hst |- *.
  - by apply create_users_table_wf.
  - by apply create_complaints_table_wf.
  - by apply sql_insert_user_wf.
  - by apply sql_select_user_id_wf.
  - subst. by apply sql_insert_complaint_wf.
  - by apply sql_select_complaints_wf.
  - by apply sql_update_complaint_wf.
Qed.

(** C9: every statement app.py issues preserves the integrity invariant,
    from any server that satisfies it.  Ids stay unique and within INT,
    the column widths hold, every complaint's user exists, and every
    complaint is Pending, or Resolved no earlier than its creation. *)
Theorem exec_wf s st :
  wf_server s -> app_stmt st -> wf_server (snd (exec cfg s st)).
Proof. apply exec_wf_step. Qed.

(** C32: no statement removes a complaint, and only the UPDATE of its
    own id changes it: every complaint is still there after any
    statement, as it was, or, when the statement is [UPDATE ... WHERE id
    = c.id], with status "Resolved", the new resolution and the current
    time, and its id, owner, description and creation time kept.  So no
    statement turns a Resolved complaint back to Pending, and
    re-resolving overwrites the previous resolution. *)
Theorem exec_complaint_history s st c :
  c ∈ complaints_rows s ->
  exists c', c' ∈ complaints_rows (snd (exec cfg s st)) /\ complaint_evolves st (clock s) c c'.
Proof.
  intros Hin. destruct st as [| | | | | |r cid]; simpl.
  all: unfold create_users_table, create_complaints_table, sql_insert_user,
         sql_select_user_id, sql_insert_complaint, sql_select_complaints,
         sql_update_complaint.
  all: repeat case_match; simpl;
       try (exists c; split; [rewrite ?elem_of_app; by auto|by left]).
  match goal with
  | Hs : store_string _ _ _ _ = inr ?r' |- _ =>
      destruct (update_rows_elem cid r' (clock s) _ c Hin) as (c1 & Hc1 & [[_ E]|[Hid E]]);
      exists c1; (split; [exact Hc1|]);
      [left; exact E
      |right; subst cid; exists r, r'; split_and!; [reflexivity|exact Hs|exact E]]
  end.
Qed.
End Theorems.

(** ** Deciding the invariant on a concrete server *)

Definition lifecycle_b (c : complaint_row) : bool :=
  (String.eqb (c_status c) "Pending" &&
   match c_resolved_At c with None => true | Some _ => false end &&
   String.eqb (c_resolution_desc c) NOT_AVAILABLE) ||
  (String.eqb (c_status c) "Resolved" &&
   match c_resolved_At c with Some t => (c_created_At c <=? t)%Z | None => false end).

Lemma lifecycle_b_spec c : lifecycle_b c = true <-> lifecycle_ok c.
Proof.
  unfold lifecycle_b, lifecycle_ok.
  destruct (c_resolved_At c) as [t|]; simpl; rewrite ?andb_true_r, ?andb_false_r;
    rewrite ?orb_false_r, ?orb_true_iff, ?andb_true_iff, ?String.eqb_eq, ?Z.leb_le;
    naive_solver.
Qed.

#[export] Instance lifecycle_ok_dec c : Decision (lifecycle_ok c).
Proof.
  destruct (lifecycle_b c) eqn:E.
  - left. by apply lifecycle_b_spec.
  - right. intros Hc%lifecycle_b_spec. congruence.
Defined.

#[export] Instance ids_below_dec ids ai : Decision (ids_below ids ai).
Proof. unfold ids_below. apply _. Defined.

Definition resolved_le (o : option Z) (now : Z) : Prop :=
  match o with Some t => (t <= now)%Z | None => True end.

#[export] Instance resolved_le_dec o now : Decision (resolved_le o now).
Proof. destruct o; simpl; apply _. Defined.

#[export] Instance wf_server_dec s : Decision (wf_server s).
Proof.
  destruct (decide (ids_below (map u_id (users_rows s)) (users_ai s) /\
                    (1 <= users_ai s <= INT_MAX + 1)%Z /\
                    Forall (fun u => String.length (u_username u) <= 25 /\
                                     String.length (u_password u) <= 25)%nat (users_rows s) /\
                    ids_below (map c_id (complaints_rows s)) (complaints_ai s) /\
                    (1 <= complaints_ai s <= INT_MAX + 1)%Z /\
                    Forall (fun c => String.length (c_resolution_desc c) <= 255)%nat
                           (complaints_rows s) /\
                    Forall (fun c => c_user_id c ∈ map u_id (users_rows s)) (complaints_rows s) /\
                    Forall lifecycle_ok (complaints_rows s) /\
                    Forall (fun c => (c_created_At c <= clock s)%Z /\
                                     resolved_le (c_resolved_At c) (clock s))
                           (complaints_rows s))) as [Hw|Hn].
  - left. destruct Hw as (? & ? & ? & ? & ? & ? & ? & ? & Hclk). constructor; try done.
    eapply Forall_impl; [exact Hclk|]. intros c [Hc Hr]. split; [done|].
    intros t Ht. unfold resolved_le in Hr. by rewrite Ht in Hr.
  - right. intros []. apply Hn.
    refine (conj _ (conj _ (conj _ (conj _ (conj _ (conj _ (conj _ (conj _ _))))))));
      try done.
    eapply Forall_impl; [exact wf_clock0|]. intros c [Hc Hr]. split; [done|].
    unfold resolved_le. destruct (c_resolved_At c); [by apply Hr|done].
Defined.

Section IntegrityWitnesses.
#[local] Existing Instance binary_collation.

(** A server holding one user and one pending complaint, built by the
    application's own statements. *)
Definition sample_server : Server :=
  let s0 := empty_server 100 in
  let s1 := snd (exec ci_strict s0 CreateUsersTable) in
  let s2 := snd (exec ci_strict s1 CreateComplaintsTable) in
  let s3 := snd (exec ci_strict s2 (InsertUser "alice" "pw1")) in
  snd (exec ci_strict s3 (InsertComplaint 1 "broken light" "Pending")).

Lemma exec_wf_witness :
  wf_server (snd (exec ci_strict sample_server (UpdateComplaint "fixed" 1))).
Proof.
  apply exec_wf; [apply (bool_decide_eq_true_1 _); vm_compute; reflexivity|exact I].
Defined.

Lemma exec_complaint_history_witness :
  exists c', c' ∈ complaints_rows (snd (exec ci_strict sample_server (UpdateComplaint "fixed" 1))) /\
    complaint_evolves ci_strict (UpdateComplaint "fixed" 1) (clock sample_server)
      (mk_complaint 1 1 "broken light" "Pending" 100 NOT_AVAILABLE None) c'.
Proof.
  apply exec_complaint_history. vm_compute. left.
Defined.
End IntegrityWitnesses.

(** ** How far a statement can change the tables *)

(** The invariant is kept, and no user and no complaint disappears or
    changes. *)
Definition srv_grows (s s' : Server) : Prop :=
  (wf_server s -> wf_server s') /\
  (forall u, u ∈ users_rows s -> u ∈ users_rows s') /\
  (forall c, c ∈ complaints_rows s -> c ∈ complaints_rows s').

(** The invariant is kept, no user disappears, and the complaints of users
    other than [u] are kept as they were. *)
Definition srv_keeps_others (u : Z) (s s' : Server) : Prop :=
  (wf_server s -> wf_server s') /\
  (forall v, v ∈ users_rows s -> v ∈ users_rows s') /\
  (forall c, c ∈ complaints_rows s -> c_user_id c <> u -> c ∈ complaints_rows s').

#[export] Instance srv_grows_preorder : PreOrder srv_grows.
Proof.
  split; [by intros s; split_and!|].
  intros s1 s2 s3 (W1 & U1 & C1) (W2 & U2 & C2). split_and!; auto.
Qed.

#[export] Instance srv_keeps_others_preorder u : PreOrder (srv_keeps_others u).
Proof.
  split; [by intros s; split_and!|].
  intros s1 s2 s3 (W1 & U1 & C1) (W2 & U2 & C2). split_and!; auto.
Qed.

Lemma srv_grows_keeps_others u s s' : srv_grows s s' -> srv_keeps_others u s s'.
Proof. intros (W & U & C). split_and!; auto. Qed.

(** The statement is not the UPDATE. *)
Definition not_update (st : Stmt) : Prop :=
  match st with UpdateComplaint _ _ => False | _ => True end.

Lemma NoDup_map_eq {A B} (f : A -> B) (l : list A) x y :
  NoDup (map f l) -> x ∈ l -> y ∈ l -> f x = f y -> x = y.
Proof.
  induction l as [|z l IH]; intros Hnd Hx Hy Hf; [by apply not_elem_of_nil in Hx|].
  simpl in Hnd. apply NoDup_cons in Hnd as [Hz Hnd].
  apply elem_of_cons in Hx as [->|Hx], Hy as [->|Hy]; try done.
  - exfalso. apply Hz. rewrite Hf. apply list_elem_of_In, in_map, list_elem_of_In, Hy.
  - exfalso. apply Hz. rewrite <- Hf. apply list_elem_of_In, in_map, list_elem_of_In, Hx.
  - by apply IH.
Qed.

Lemma update_rows_keep cid r now rows c :
  c ∈ rows -> c_id c <> cid -> c ∈ update_rows cid r now rows.
Proof.
  intros Hin Hne. unfold update_rows. induction rows as [|c' rows IH]; simpl.
  - by apply not_elem_of_nil in Hin.
  - apply elem_of_cons in Hin as [->|Hin].
    + rewrite (proj2 (Z.eqb_neq _ _) Hne). apply elem_of_cons. by left.
    + apply elem_of_cons. right. by apply IH.
Qed.

Section Frames.
Context (cfg : Config) `{Collation}.

(** Every statement but the UPDATE keeps all rows. *)
Lemma exec_grows s st :
  app_stmt st -> not_update st -> srv_grows s (snd (exec cfg s st)).
Proof.
  intros Hst Hnu. split; [intros Hwf; by apply exec_wf_step|].
  destruct st; simpl in Hnu; try done.
  all: unfold exec, create_users_table, create_complaints_table, sql_insert_user,
         sql_select_user_id, sql_insert_complaint, sql_select_complaints.
  all: split; intros x Hx; repeat case_match; simpl; rewrite ?elem_of_app; auto.
Qed.

(** The UPDATE of a complaint owned by [u] keeps the complaints of every
    other user, given unique ids. *)
Lemma exec_update_keeps_others s u r cid :
  wf_server s ->
  (exists c0, c0 ∈ complaints_rows s /\ c_id c0 = cid /\ c_user_id c0 = u) ->
  srv_keeps_others u s (snd (exec cfg s (UpdateComplaint r cid))).
Proof.
  intros Hwf (c0 & Hc0 & Hid & Hu). split_and!.
  - intros _. by apply exec_wf_step.
  - intros v Hv. unfold exec, sql_update_complaint. by repeat case_match.
  - intros c Hc Hcu. unfold exec, sql_update_complaint. repeat case_match; try done.
    simpl. apply update_rows_keep; [done|]. intros Hcid. apply Hcu.
    destruct Hwf as [_ _ _ [_ Hnd] _ _ _ _ _].
    rewrite (NoDup_map_eq c_id (complaints_rows s) c c0); try done. congruence.
Qed.

(** Every statement keeps the invariant and every user row. *)
Lemma exec_users_kept s st :
  app_stmt st ->
  (wf_server s -> wf_server (snd (exec cfg s st))) /\
  (forall u, u ∈ users_rows s -> u ∈ users_rows (snd (exec cfg s st))).
Proof.
  intros Hst. split; [intros Hwf; by apply exec_wf_step|].
  intros u Hu. destruct st; unfold exec, create_users_table, create_complaints_table,
    sql_insert_user, sql_select_user_id, sql_insert_complaint, sql_select_complaints,
    sql_update_complaint; repeat case_match; simpl; rewrite ?elem_of_app; auto.
Qed.
End Frames.
