(* ===== verification/Connector.v ===== *)
(** * The client process and mysql-connector-python

    [World] is the state of the Python process together with the server
    it talks to.  The connector calls that app.py makes are computations
    of [Py World Exn].  They follow the pure-Python
    [mysql.connector.connection.MySQLConnection] and its [MySQLCursor]:
    - [execute] raises the error of the server, and with an unread result
      set raises the InternalError Unread result found;
    - [fetchone] reads one row and pre-fetches the next, so the result
      stays unread exactly when a second row exists;
    - [close] on a cursor whose result is unread raises
      the InternalError Unread result found and leaves it open.
    [get_database_connection] (app.py 8-14) is [MySQLConnection] on the
    arguments app.py passes; [connect_error] is the server's answer to the
    handshake.  These calls model a library app.py only calls, from its
    documented behaviour.  The lemmas at the end describe the
    open-then-close pattern that every data-access function of app.py
    follows. *)

From S2P Require Import Prelude MySQL Integrity.

(** ** Exceptions and Streamlit output *)

Inductive Exn : Type :=
| DatabaseError (e : db_error)   (* a mysql.connector error from the server *)
| InternalError_Unread           (* InternalError, Unread result found *)
| InterfaceError_NoResultSet     (* fetch without a result set *)
| RerunException.                (* raised by st.rerun() *)

(** What a script run shows, in order. *)
Inductive Msg : Type :=
| StError (text : string)
| StErrorExn (prefix : string) (e : Exn)    (* st.error of an f-string: prefix, then str(e) *)
| StSuccess (text : string)
| StSuccessId (prefix : string) (id : option Z)
| StWarning (text : string)
| StInfo (text : string)
| StDataframe (rows : list Row)
| StException (e : Exn).                    (* an uncaught exception *)

(** ** The process state *)

Record World := mk_world {
  srv : Server;
  open_conns : nat;                (* connections opened and not closed *)
  open_cursors : nat;              (* cursors opened and not closed *)
  unread : option (list Row);      (* rows of the current result set not yet read *)
  last_id : option Z;              (* cursor.lastrowid *)
  out : list Msg;                  (* the output of the current run *)
  session_user : option (option Z) (* st.session_state.user_id, if the key exists *)
}.

Definition set_srv (s : Server) (w : World) : World :=
  mk_world s (open_conns w) (open_cursors w) (unread w) (last_id w) (out w)
           (session_user w).
Definition set_handles (c k : nat) (w : World) : World :=
  mk_world (srv w) c k (unread w) (last_id w) (out w) (session_user w).
Definition set_unread (r : option (list Row)) (w : World) : World :=
  mk_world (srv w) (open_conns w) (open_cursors w) r (last_id w) (out w)
           (session_user w).
Definition set_last_id (i : option Z) (w : World) : World :=
  mk_world (srv w) (open_conns w) (open_cursors w) (unread w) i (out w)
           (session_user w).
Definition set_out (o : list Msg) (w : World) : World :=
  mk_world (srv w) (open_conns w) (open_cursors w) (unread w) (last_id w) o
           (session_user w).
Definition set_session (u : option (option Z)) (w : World) : World :=
  mk_world (srv w) (open_conns w) (open_cursors w) (unread w) (last_id w)
           (out w) u.

Abbreviation PyW := (Py World Exn).

(** The message calls of Streamlit append to the output of the run. *)
Definition st_emit (m : Msg) : PyW unit := modify (fun w => set_out (out w ++ [m]) w).

(** The keyword arguments of [connection.MySQLConnection]. *)
Record conn_args := mk_conn_args {
  host : string;
  user : string;
  password : string;
  database : string
}.

Section Connect.
Context (cfg : Config).

(** Why the server refuses a connection, checked in the order of the
    handshake: a host it does not answer on (or a server that is down),
    an unknown account or a wrong password, an unknown database.  Names
    of databases compare as names of tables do. *)
Definition connect_error (s : Server) (a : conn_args) : option db_error :=
  if negb (reachable s && String.eqb (host a) (server_host cfg))
  then Some CR_CONN_HOST_ERROR
  else if negb (existsb (fun acc => String.eqb acc.1 (user a) && String.eqb acc.2 (password a))
                        (accounts cfg))
  then Some ER_ACCESS_DENIED_ERROR
  else if negb (existsb (fun d => name_eqb cfg d (database a)) (databases cfg))
  then Some (ER_BAD_DB_ERROR (database a))
  else None.

(** [connection.MySQLConnection(host=..., user=..., password=...,
    database=...)]: a new connection, with no result set pending, or the
    error of the handshake. *)
Definition MySQLConnection (a : conn_args) : PyW unit :=
  fun w => match connect_error (srv w) a with
           | None => (Ret tt, set_unread None
                                (set_handles (S (open_conns w)) (open_cursors w) w))
           | Some e => (Exc (DatabaseError e), w)
           end.

(** app.py 9-13. *)
Definition grievances_args : conn_args :=
  mk_conn_args "localhost" "root" "password" "Grievances".

(** [get_database_connection()] (app.py 8-14). *)
Definition get_database_connection : PyW unit := MySQLConnection grievances_args.

(** The server accepts the connection app.py asks for. *)
Definition connects (s : Server) : bool :=
  match connect_error s grievances_args with None => true | Some _ => false end.
End Connect.

(** [db.cursor()]. *)
Definition cursor : PyW unit :=
  modify (fun w => set_last_id None
                     (set_handles (open_conns w) (S (open_cursors w)) w)).

Section Calls.
Context (cfg : Config) `{Collation}.

(** [cursor.execute(query, params)]. *)
Definition cursor_execute (st : Stmt) : PyW unit :=
  fun w => match unread w with
           | Some _ => (Exc InternalError_Unread, w)
           | None =>
               match exec cfg (srv w) st with
               | (inl e, s') => (Exc (DatabaseError e), set_srv s' w)
               | (inr (Rows rs), s') => (Ret tt, set_unread (Some rs) (set_srv s' w))
               | (inr (Affected _ id), s') =>
                   (Ret tt, set_last_id (Some id) (set_srv s' w))
               end
           end.
End Calls.

(** [cursor.fetchone()]: one row, then the next row is pre-fetched; when
    none is left the end of the result set has been read. *)
Definition fetchone : PyW (option Row) :=
  fun w => match unread w with
           | None => (Exc InterfaceError_NoResultSet, w)
           | Some [] => (Ret None, set_unread None w)
           | Some (r :: []) => (Ret (Some r), set_unread None w)
           | Some (r :: rs) => (Ret (Some r), set_unread (Some rs) w)
           end.

(** [cursor.fetchall()]. *)
Definition fetchall : PyW (list Row) :=
  fun w => match unread w with
           | None => (Exc InterfaceError_NoResultSet, w)
           | Some rs => (Ret rs, set_unread None w)
           end.

(** [cursor.lastrowid]. *)
Definition lastrowid : PyW (option Z) := gets last_id.

(** [db.commit()]: the connection first checks for an unread result. *)
Definition commit : PyW unit :=
  fun w => match unread w with
           | Some _ => (Exc InternalError_Unread, w)
           | None => (Ret tt, w)
           end.

(** [cursor.close()]: [handle_unread_result] raises before the cursor is
    released. *)
Definition cursor_close : PyW unit :=
  fun w => match unread w with
           | Some _ => (Exc InternalError_Unread, w)
           | None => (Ret tt, set_handles (open_conns w) (pred (open_cursors w)) w)
           end.

(** [db.close()]. *)
Definition db_close : PyW unit :=
  modify (fun w => set_handles (pred (open_conns w)) (open_cursors w) w).

(** [except Exception]: every exception of the model but the
    [RerunException], which derives from [BaseException] only. *)
Definition is_Exception (e : Exn) : bool :=
  match e with RerunException => false | _ => true end.

(** ** The open / close pattern of the data-access functions *)

(** The state after [db = get_database_connection(); cursor = db.cursor()]. *)
Definition opened (w : World) : World :=
  mk_world (srv w) (S (open_conns w)) (S (open_cursors w)) None None (out w)
           (session_user w).

(** The [finally] block [cursor.close(); db.close()]. *)
Definition close_both : PyW unit := let* _ := cursor_close in db_close.

Definition closed (w : World) : World :=
  set_handles (pred (open_conns w)) (pred (open_cursors w)) w.

Lemma open_run cfg {A} (k : unit -> PyW A) w :
  connects cfg (srv w) = true ->
  (let* _ := get_database_connection cfg in let* x := cursor in k x) w
  = k tt (opened w).
Proof.
  unfold connects. intros Hc. unfold get_database_connection, MySQLConnection, bind.
  by destruct (connect_error cfg (srv w) grievances_args).
Qed.

Lemma open_refused cfg {A} (k : unit -> PyW A) w e :
  connect_error cfg (srv w) grievances_args = Some e ->
  (let* x := get_database_connection cfg in k x) w = (Exc (DatabaseError e), w).
Proof. intros Hc. unfold get_database_connection, MySQLConnection, bind. by rewrite Hc. Qed.

Lemma connects_false cfg s :
  connects cfg s = false -> exists e, connect_error cfg s grievances_args = Some e.
Proof. unfold connects. destruct (connect_error cfg s grievances_args); by eauto. Qed.

(** Whether app.py connects depends on the server only through
    [reachable]. *)
Lemma connects_reachable cfg s s' :
  reachable s' = reachable s -> connects cfg s' = connects cfg s.
Proof. intros E. unfold connects, connect_error. by rewrite E. Qed.

Lemma connect_error_down cfg s a : reachable s = false -> connect_error cfg s a = Some CR_CONN_HOST_ERROR.
Proof. intros Hr. unfold connect_error. by rewrite Hr. Qed.

Lemma open_unreachable cfg {A} (k : unit -> PyW A) w :
  reachable (srv w) = false ->
  (let* x := get_database_connection cfg in k x) w
  = (Exc (DatabaseError CR_CONN_HOST_ERROR), w).
Proof. intros Hr. by apply open_refused, connect_error_down. Qed.

(** A call that cannot connect raises the handshake error, with the
    world unchanged. *)
Lemma open_fails cfg {A} (k : unit -> PyW A) w :
  connects cfg (srv w) = false ->
  exists e, (let* x := get_database_connection cfg in k x) w = (Exc (DatabaseError e), w).
Proof. intros [e He]%connects_false. exists e. by apply open_refused. Qed.

(** Case analysis on the connection in a hypothesis [H] that runs a
    data-access function: it connects, or it raises the handshake error. *)
Ltac open_cases H :=
  lazymatch type of H with
  | context [bind (get_database_connection ?cfg) ?k ?w] =>
      let Hc := fresh "Hc" in
      destruct (connects cfg (srv w)) eqn:Hc;
      [rewrite (open_run cfg) in H by exact Hc
      |let E := fresh "E" in
       destruct (open_fails cfg k w Hc) as [?e E]; rewrite E in H]
  end.

Lemma close_both_read w :
  unread w = None -> close_both w = (Ret tt, closed w).
Proof. intros Hu. unfold close_both, cursor_close, bind. by rewrite Hu. Qed.

Lemma close_both_unread w rs :
  unread w = Some rs -> close_both w = (Exc InternalError_Unread, w).
Proof. intros Hu. unfold close_both, cursor_close, bind. by rewrite Hu. Qed.

(** The whole function: open, run [body], close, when [body] leaves no
    unread result. *)
Lemma scoped_run cfg {A} (body : PyW A) w o w' :
  connects cfg (srv w) = true ->
  body (opened w) = (o, w') -> unread w' = None ->
  (let* _ := get_database_connection cfg in
   let* _ := cursor in try_finally body close_both) w = (o, closed w').
Proof.
  intros Hr Hb Hu. rewrite open_run by done.
  rewrite (try_finally_run _ _ _ _ _ Hb). by rewrite close_both_read.
Qed.

(** When [body] leaves rows unread, the [finally] block raises from
    [cursor.close()] and [db.close()] never runs. *)
Lemma scoped_run_unread cfg {A} (body : PyW A) w o w' rs :
  connects cfg (srv w) = true ->
  body (opened w) = (o, w') -> unread w' = Some rs ->
  (let* _ := get_database_connection cfg in
   let* _ := cursor in try_finally body close_both) w
  = (Exc InternalError_Unread, w').
Proof.
  intros Hr Hb Hu. rewrite open_run by done.
  rewrite (try_finally_run _ _ _ _ _ Hb). by rewrite (close_both_unread _ rs).
Qed.

(** [cursor.execute] on a connection with no unread result. *)
Lemma cursor_execute_run cfg `{Collation} st w :
  unread w = None ->
  cursor_execute cfg st w =
  match exec cfg (srv w) st with
  | (inl e, s') => (Exc (DatabaseError e), set_srv s' w)
  | (inr (Rows rs), s') => (Ret tt, set_unread (Some rs) (set_srv s' w))
  | (inr (Affected _ id), s') => (Ret tt, set_last_id (Some id) (set_srv s' w))
  end.
Proof. intros Hu. unfold cursor_execute. by rewrite Hu. Qed.

Lemma closed_opened_handles w w' :
  open_conns w' = S (open_conns w) -> open_cursors w' = S (open_cursors w) ->
  open_conns (closed w') = open_conns w /\ open_cursors (closed w') = open_cursors w.
Proof. intros H1 H2. unfold closed, set_handles. simpl. lia. Qed.

(** The process at start-up, against a server with an empty database. *)
Definition fresh_world (now : Z) : World :=
  mk_world (empty_server now) 0 0 None None [] None.

(** Every connection and cursor opened has been closed again. *)
Definition handles_balanced (w w' : World) : Prop :=
  open_conns w' = open_conns w /\ open_cursors w' = open_cursors w.

(** One connection and one cursor were left open. *)
Definition handles_leaked (w w' : World) : Prop :=
  open_conns w' = S (open_conns w) /\ open_cursors w' = S (open_cursors w).

Lemma closed_balanced w w' :
  open_conns w' = open_conns (opened w) -> open_cursors w' = open_cursors (opened w) ->
  handles_balanced w (closed w').
Proof. unfold handles_balanced, closed, set_handles. simpl. lia. Qed.

#[export] Hint Resolve closed_balanced : py.

(** Close the goals about the final world of a data-access function. *)
Ltac finish_world :=
  split_and!; try reflexivity;
  unfold handles_balanced, handles_leaked in *; simpl; rewrite ?app_nil_r;
  try split; try lia; try reflexivity.

Lemma handles_balanced_trans w1 w2 w3 :
  handles_balanced w1 w2 -> handles_balanced w2 w3 -> handles_balanced w1 w3.
Proof. unfold handles_balanced. lia. Qed.

(** ** Frame lemmas: which calls can change the server or the session *)

(** A relation on worlds that holds whenever neither the server nor the
    session changed. *)
Definition frame_rel (R : World -> World -> Prop) : Prop :=
  forall w w', srv w' = srv w -> session_user w' = session_user w ->
               out w' = out w -> R w w'.

Section Frame.
Context (R : World -> World -> Prop) `{!PreOrder R} (HR : frame_rel R).

Lemma get_database_connection_frame cfg : preserves R (get_database_connection cfg).
Proof.
  intros w o w'. unfold get_database_connection, MySQLConnection.
  destruct (connect_error cfg (srv w) grievances_args); intros [= _ <-]; by apply HR.
Qed.

Lemma cursor_frame : preserves R cursor.
Proof. apply preserves_modify. intros w. by apply HR. Qed.

Lemma fetchone_frame : preserves R fetchone.
Proof. intros w o w'. unfold fetchone. repeat case_match; intros [= _ <-]; by apply HR. Qed.

Lemma fetchall_frame : preserves R fetchall.
Proof. intros w o w'. unfold fetchall. repeat case_match; intros [= _ <-]; by apply HR. Qed.

Lemma lastrowid_frame : preserves R lastrowid.
Proof. by apply preserves_gets. Qed.

Lemma commit_frame : preserves R commit.
Proof. intros w o w'. unfold commit. repeat case_match; intros [= _ <-]; by apply HR. Qed.

Lemma cursor_close_frame : preserves R cursor_close.
Proof. intros w o w'. unfold cursor_close. repeat case_match; intros [= _ <-]; by apply HR. Qed.

Lemma db_close_frame : preserves R db_close.
Proof. apply preserves_modify. intros w. by apply HR. Qed.

Lemma close_both_frame : preserves R close_both.
Proof.
  unfold close_both. apply (preserves_bind R); [|intros ?].
  - intros w o w'. unfold cursor_close. repeat case_match; intros [= _ <-]; by apply HR.
  - apply preserves_modify. intros w. by apply HR.
Qed.

Lemma st_emit_frame m :
  (forall w, R w (set_out (out w ++ [m]) w)) -> preserves R (st_emit m).
Proof. intros Hm. by apply preserves_modify. Qed.

(** [cursor.execute(st)] keeps [R] when every server [st] can lead to
    does, with the session and the output unchanged. *)
Lemma cursor_execute_frame cfg `{Collation} st :
  (forall w w', srv w' = snd (exec cfg (srv w) st) ->
                session_user w' = session_user w -> out w' = out w -> R w w') ->
  preserves R (cursor_execute cfg st).
Proof.
  intros Hst w o w'. unfold cursor_execute.
  destruct (unread w); [intros [= _ <-]; by apply HR|].
  destruct (exec cfg (srv w) st) as [[e|[rs|n id]] s'] eqn:E;
    intros [= _ <-]; apply Hst; simpl; by rewrite ?E.
Qed.
End Frame.

#[export] Hint Resolve get_database_connection_frame cursor_frame fetchone_frame
  fetchall_frame lastrowid_frame commit_frame cursor_close_frame db_close_frame
  close_both_frame st_emit_frame : py.

(** ** The relations the data-access functions keep *)

(** What a data-access call can do to the world: the tables only grow
    (and keep the invariant), and the session is untouched. *)
Definition db_call (w w' : World) : Prop :=
  srv_grows (srv w) (srv w') /\ session_user w' = session_user w.

(** What the UPDATE of a complaint of [u] can do. *)
Definition db_call_others (u : Z) (w w' : World) : Prop :=
  srv_keeps_others u (srv w) (srv w') /\ session_user w' = session_user w.

#[export] Instance db_call_preorder : PreOrder db_call.
Proof.
  split; [intros w; split; reflexivity|].
  intros w1 w2 w3 [G1 S1] [G2 S2]. split; [by transitivity (srv w2)|congruence].
Qed.

#[export] Instance db_call_others_preorder u : PreOrder (db_call_others u).
Proof.
  split; [intros w; split; reflexivity|].
  intros w1 w2 w3 [G1 S1] [G2 S2]. split; [by transitivity (srv w2)|congruence].
Qed.

Lemma db_call_frame : frame_rel db_call.
Proof. intros w w' Hs Hu _. split; [rewrite Hs; reflexivity|done]. Qed.

Lemma db_call_others_frame u : frame_rel (db_call_others u).
Proof. intros w w' Hs Hu _. split; [rewrite Hs; reflexivity|done]. Qed.

Lemma db_call_emit m w : db_call w (set_out (out w ++ [m]) w).
Proof. split; [reflexivity|done]. Qed.

Lemma db_call_others_of u w w' : db_call w w' -> db_call_others u w w'.
Proof. intros [G S]. split; [by apply srv_grows_keeps_others|done]. Qed.

(** [cursor.execute] of a statement other than the UPDATE. *)
Lemma cursor_execute_db_call cfg `{Collation} st :
  app_stmt st -> not_update st -> preserves db_call (cursor_execute cfg st).
Proof.
  intros Hst Hnu. apply cursor_execute_frame; [exact db_call_frame|].
  intros w w' Hs Hu _. split; [rewrite Hs; by apply exec_grows|done].
Qed.

#[export] Hint Resolve db_call_frame db_call_others_frame db_call_emit : py.

(** Decompose a data-access function and close the connector calls. *)
Ltac db_call_tac :=
  repeat effects_step;
  first [ apply cursor_execute_db_call; simpl; done
        | eauto with py typeclass_instances ].

(** ** Exceptions: no connector call raises Streamlit's rerun *)

Definition not_rerun (e : Exn) : Prop := e <> RerunException.

Lemma get_database_connection_not_rerun cfg :
  raises_only not_rerun (get_database_connection cfg).
Proof.
  intros w e w'. unfold get_database_connection, MySQLConnection.
  destruct (connect_error cfg (srv w) grievances_args); intros [= <- _]; discriminate.
Qed.

Lemma cursor_not_rerun : raises_only not_rerun cursor.
Proof. apply raises_only_modify. Qed.

Lemma cursor_execute_not_rerun cfg `{Collation} st :
  raises_only not_rerun (cursor_execute cfg st).
Proof.
  intros w e w'. unfold cursor_execute.
  repeat case_match; intros [=]; subst; discriminate.
Qed.

Lemma fetchone_not_rerun : raises_only not_rerun fetchone.
Proof. intros w e w'. unfold fetchone. repeat case_match; intros [=]; subst; discriminate. Qed.

Lemma fetchall_not_rerun : raises_only not_rerun fetchall.
Proof. intros w e w'. unfold fetchall. repeat case_match; intros [=]; subst; discriminate. Qed.

Lemma lastrowid_not_rerun : raises_only not_rerun lastrowid.
Proof. apply raises_only_gets. Qed.

Lemma commit_not_rerun : raises_only not_rerun commit.
Proof. intros w e w'. unfold commit. repeat case_match; intros [=]; subst; discriminate. Qed.

Lemma close_both_not_rerun : raises_only not_rerun close_both.
Proof.
  unfold close_both. apply raises_only_bind; [|intros _; apply raises_only_modify].
  intros w e w'. unfold cursor_close. repeat case_match; intros [=]; subst; discriminate.
Qed.

Lemma cursor_close_not_rerun : raises_only not_rerun cursor_close.
Proof. intros w e w'. unfold cursor_close. repeat case_match; intros [=]; subst; discriminate. Qed.

Lemma db_close_not_rerun : raises_only not_rerun db_close.
Proof. apply raises_only_modify. Qed.

Lemma st_emit_raises_only X m : raises_only X (st_emit m).
Proof. apply raises_only_modify. Qed.

#[export] Hint Resolve get_database_connection_not_rerun cursor_not_rerun
  cursor_execute_not_rerun fetchone_not_rerun fetchall_not_rerun lastrowid_not_rerun
  commit_not_rerun close_both_not_rerun cursor_close_not_rerun db_close_not_rerun
  st_emit_raises_only : py.

Ltac not_rerun_tac := repeat effects_step; eauto with py.
