(* ===== verification/Schema.v ===== *)
(** * The schema initializer, [init_db] (app.py 17-48)

    [init_db] runs at the top of every script run.  It creates [USERS] and
    [COMPLAINTS] if they do not exist.  Its statements are not inside a
    [try] block, so an error leaves the connection and the cursor open.
    Theorems:
    - [init_db_ready]: on a server whose table names are case-insensitive,
      [init_db] succeeds, makes both tables reachable under the names the
      data-access functions use, keeps every row, and releases what it
      opened.
    - [init_db_idempotent]: a second run changes nothing.
    - [init_db_case_sensitive]: on a server with case-sensitive table names
      and no COMPLAINTS table, it raises the foreign-key error and leaks a
      connection and a cursor. *)

From S2P Require Import Prelude MySQL Connector.

Section InitDb.
Context (cfg : Config) `{Collation}.

Definition init_db : PyW unit :=
  let* _ := get_database_connection cfg in
  let* _ := cursor in
  let* _ := cursor_execute cfg CreateUsersTable in
  let* _ := cursor_execute cfg CreateComplaintsTable in
  let* _ := commit in
  let* _ := cursor_close in
  db_close.

(** [CREATE TABLE IF NOT EXISTS] on the catalog. *)
Definition ensure_table (cat : list table) (t : table) : list table :=
  if has_table cat t then cat else cat ++ [t].

(** The catalog after both CREATE statements have run. *)
Definition created_catalog (cat : list table) : list table :=
  ensure_table (ensure_table cat T_USERS) T_COMPLAINTS.

Definition set_catalog (cat : list table) (s : Server) : Server :=
  mk_server cat (users_rows s) (complaints_rows s) (users_ai s)
            (complaints_ai s) (clock s) (reachable s).

(** The state [init_db] leaves behind when it succeeds. *)
Definition init_db_post (w : World) : World :=
  mk_world (set_catalog (created_catalog (catalog (srv w))) (srv w))
           (open_conns w) (open_cursors w) None (Some 0%Z) (out w)
           (session_user w).

Lemma ensure_table_has cat t : has_table (ensure_table cat t) t = true.
Proof.
  unfold ensure_table. destruct (has_table cat t) eqn:E; [done|].
  rewrite has_table_app_single. by rewrite bool_decide_eq_true_2, orb_true_r.
Qed.

Lemma ensure_table_mono cat t t' :
  has_table cat t' = true -> has_table (ensure_table cat t) t' = true.
Proof.
  unfold ensure_table. destruct (has_table cat t); [done|].
  rewrite has_table_app_single. by intros ->.
Qed.

Lemma ensure_table_id cat t : has_table cat t = true -> ensure_table cat t = cat.
Proof. unfold ensure_table. by intros ->. Qed.

Lemma created_catalog_has cat :
  has_table (created_catalog cat) T_USERS = true /\
  has_table (created_catalog cat) T_COMPLAINTS = true.
Proof.
  unfold created_catalog. split.
  - apply ensure_table_mono, ensure_table_has.
  - apply ensure_table_has.
Qed.

Lemma created_catalog_idem cat :
  created_catalog (created_catalog cat) = created_catalog cat.
Proof.
  destruct (created_catalog_has cat) as [Hu Hc].
  unfold created_catalog at 1. by rewrite (ensure_table_id _ _ Hu), ensure_table_id.
Qed.

(** The functional behaviour of [init_db] when table names are
    case-insensitive: it returns, and its effect is [init_db_post]. *)
Lemma init_db_run w :
  lower_case_table_names cfg = true -> connects cfg (srv w) = true ->
  init_db w = (Ret tt, init_db_post w).
Proof.
  intros Hci Hr. unfold init_db. rewrite open_run by done.
  destruct w as [[cat us cs uai cai clk rch] c k u l o ss]; clear Hr.
  unfold init_db_post, created_catalog, ensure_table.
  unfold cursor_execute, exec, create_users_table, create_complaints_table,
    bind, commit, cursor_close, db_close, modify; simpl.
  rewrite table_exists_USERS.
  destruct (has_table cat T_USERS) eqn:Hu; simpl;
    rewrite table_exists_COMPLAINTS, ?has_table_app_single;
    destruct (has_table cat T_COMPLAINTS) eqn:Hc; simpl;
    rewrite ?table_exists_users, ?Hci, ?has_table_app_single, ?Hu, ?Hc; simpl;
    reflexivity.
Qed.

Lemma init_db_post_idem w : init_db_post (init_db_post w) = init_db_post w.
Proof.
  unfold init_db_post at 1. simpl. unfold init_db_post, set_catalog. simpl.
  by rewrite created_catalog_idem.
Qed.
(** The state [init_db] leaves behind when creating COMPLAINTS fails:
    USERS created, one connection and one cursor left open. *)
Definition init_db_fk_post (w : World) : World :=
  mk_world (set_catalog (ensure_table (catalog (srv w)) T_USERS) (srv w))
           (S (open_conns w)) (S (open_cursors w)) None (Some 0%Z) (out w)
           (session_user w).

(** The behaviour of [init_db] when table names are case-sensitive and
    COMPLAINTS does not exist. *)
Lemma init_db_fk_run w :
  lower_case_table_names cfg = false -> connects cfg (srv w) = true ->
  has_table (catalog (srv w)) T_COMPLAINTS = false ->
  init_db w = (Exc (DatabaseError (ER_FK_CANNOT_OPEN_PARENT "users")), init_db_fk_post w).
Proof.
  intros Hcs Hr Hc. unfold init_db. rewrite open_run by done.
  destruct w as [[cat us cs uai cai clk rch] c k u l o ss]; simpl in *; clear Hr.
  unfold init_db_fk_post, ensure_table, cursor_execute, exec, create_users_table,
    create_complaints_table, bind; simpl. rewrite table_exists_USERS.
  destruct (has_table cat T_USERS) eqn:Hu; simpl;
    rewrite table_exists_COMPLAINTS, ?has_table_app_single, Hc; simpl;
    rewrite table_exists_users, Hcs; reflexivity.
Qed.

Lemma ensure_table_other cat t t' :
  t <> t' -> has_table (ensure_table cat t) t' = has_table cat t'.
Proof.
  intros Hne. unfold ensure_table. destruct (has_table cat t); [done|].
  rewrite has_table_app_single, bool_decide_eq_false_2 by done. apply orb_false_r.
Qed.

End InitDb.

Section InitDbTheorems.
Context `{Collation}.

(** C27: on a server whose table names are case-insensitive, [init_db]
    returns; afterwards [users] and [complaints] both resolve, no row and
    no AUTO_INCREMENT counter has changed, and every connection and
    cursor it opened is closed again. *)
Theorem init_db_ready cfg w :
  lower_case_table_names cfg = true -> connects cfg (srv w) = true ->
  exists w', init_db cfg w = (Ret tt, w') /\
    schema_ready cfg (srv w') = true /\
    users_rows (srv w') = users_rows (srv w) /\
    complaints_rows (srv w') = complaints_rows (srv w) /\
    users_ai (srv w') = users_ai (srv w) /\
    complaints_ai (srv w') = complaints_ai (srv w) /\
    open_conns w' = open_conns w /\ open_cursors w' = open_cursors w.
Proof.
  intros Hci Hr. exists (init_db_post w). rewrite init_db_run by done.
  split_and!; try done. unfold schema_ready. simpl.
  rewrite table_exists_users, table_exists_complaints, Hci.
  destruct (created_catalog_has (catalog (srv w))) as [-> ->]. done.
Qed.


(** C28: [init_db] is idempotent: run on the state it produced, it
    returns and changes nothing. *)
Theorem init_db_idempotent cfg w :
  lower_case_table_names cfg = true -> connects cfg (srv w) = true ->
  init_db cfg (snd (init_db cfg w)) = (Ret tt, snd (init_db cfg w)).
Proof.
  intros Hci Hr. rewrite (init_db_run _ w) by done. simpl.
  rewrite init_db_run; [by rewrite init_db_post_idem|done|exact Hr].
Qed.


(** C5: on a server whose table names are case-sensitive (the default on
    Linux), creating COMPLAINTS fails when it does not exist yet: its
    foreign key names [users], and the table is [USERS].  [init_db] has
    no [try] block, so it raises with one more connection and one more
    cursor open than before.  USERS now exists and no row has changed. *)
Theorem init_db_case_sensitive cfg w :
  lower_case_table_names cfg = false -> connects cfg (srv w) = true ->
  has_table (catalog (srv w)) T_COMPLAINTS = false ->
  exists w', init_db cfg w =
    (Exc (DatabaseError (ER_FK_CANNOT_OPEN_PARENT "users")), w') /\
    open_conns w' = S (open_conns w) /\ open_cursors w' = S (open_cursors w) /\
    has_table (catalog (srv w')) T_USERS = true /\
    has_table (catalog (srv w')) T_COMPLAINTS = false /\
    users_rows (srv w') = users_rows (srv w) /\
    complaints_rows (srv w') = complaints_rows (srv w).
Proof.
  intros Hcs Hr Hc. exists (init_db_fk_post w). rewrite init_db_fk_run by done.
  split_and!; try reflexivity; simpl.
  - apply ensure_table_has.
  - by rewrite ensure_table_other.
Qed.

End InitDbTheorems.

Section InitDbWitnesses.
#[local] Existing Instance binary_collation.

Lemma init_db_ready_witness :
  exists w', init_db (deployment true true) (fresh_world 0) = (Ret tt, w') /\
    schema_ready (deployment true true) (srv w') = true /\
    users_rows (srv w') = [] /\ complaints_rows (srv w') = [] /\
    users_ai (srv w') = 1%Z /\ complaints_ai (srv w') = 1%Z /\
    open_conns w' = 0 /\ open_cursors w' = 0.
Proof. apply (init_db_ready (deployment true true) (fresh_world 0)); reflexivity. Defined.

Lemma init_db_idempotent_witness :
  init_db (deployment true true) (snd (init_db (deployment true true) (fresh_world 0)))
  = (Ret tt, snd (init_db (deployment true true) (fresh_world 0))).
Proof. apply init_db_idempotent; reflexivity. Defined.

Lemma init_db_case_sensitive_witness :
  exists w', init_db (deployment false true) (fresh_world 0) =
    (Exc (DatabaseError (ER_FK_CANNOT_OPEN_PARENT "users")), w') /\
    open_conns w' = 1 /\ open_cursors w' = 1 /\
    has_table (catalog (srv w')) T_USERS = true /\
    has_table (catalog (srv w')) T_COMPLAINTS = false /\
    users_rows (srv w') = [] /\ complaints_rows (srv w') = [].
Proof. apply (init_db_case_sensitive (deployment false true) (fresh_world 0)); reflexivity. Defined.
End InitDbWitnesses.

(** The process after the first run's [init_db] on a fresh server. *)
Definition started_world (cfg : Config) `{Collation} (now : Z) : World :=
  snd (init_db cfg (fresh_world now)).

Lemma init_db_db_call cfg `{Collation} : preserves db_call (init_db cfg).
Proof. unfold init_db. db_call_tac. Qed.

Lemma init_db_not_rerun cfg `{Collation} : raises_only not_rerun (init_db cfg).
Proof. unfold init_db. not_rerun_tac. Qed.

#[export] Hint Resolve init_db_not_rerun : py.
