(* ===== verification/Users.v ===== *)
(** * Registration and login: [register_user] (app.py 51-64) and
      [login_user] (app.py 66-76)

    Both open a connection and a cursor, issue one statement, and close
    both in a [finally] block.
    - [register_user] catches every [Exception] of the statement, shows
      "Registration failed: ..." and returns [False].  The connection is
      opened before its [try], so a connection failure escapes it.
    - [login_user] reads one row with [fetchone].  When a second row
      matches, the result set stays unread, so [cursor.close()] in the
      [finally] block raises and [db.close()] never runs.
    The theorems give each function's behaviour on every branch, then the
    register / login round trip and what the collation and the column
    widths change in it. *)

From S2P Require Import Prelude MySQL Connector Schema.

Section Users.
Context (cfg : Config) `{Collation}.

Definition register_user (username password : string) : PyW bool :=
  let* _ := get_database_connection cfg in
  let* _ := cursor in
  try_finally
    (try_except is_Exception
       (let* _ := cursor_execute cfg (InsertUser username password) in
        let* _ := commit in
        ret true)
       (fun e => let* _ := st_emit (StErrorExn "Registration failed: " e) in
                 ret false))
    close_both.

Definition login_user (username password : string) : PyW (option Z) :=
  let* _ := get_database_connection cfg in
  let* _ := cursor in
  try_finally
    (let* _ := cursor_execute cfg (SelectUserId username password) in
     let* result := fetchone in
     ret (match result with Some r => Some (row_first r) | None => None end))
    close_both.

(** The rows of USERS that the login query selects. *)
Definition login_matches (s : Server) (username password : string) : list user_row :=
  List.filter (user_matches username password) (users_rows s).

Lemma exec_InsertUser_not_Rows s u p rs s' :
  exec cfg s (InsertUser u p) <> (inr (Rows rs), s').
Proof. unfold exec, sql_insert_user. repeat case_match; discriminate. Qed.

Lemma exec_SelectUserId s u p :
  table_exists cfg (catalog s) "users" = true ->
  exec cfg s (SelectUserId u p) =
  (inr (Rows (map (fun x => RId (u_id x)) (login_matches s u p))), s).
Proof. intros Ht. unfold exec, sql_select_user_id. by rewrite Ht. Qed.

#[local] Arguments exec : simpl never.

(** Unfold a data-access function down to its statement. *)
Ltac run_access :=
  rewrite open_run by done;
  unfold try_finally, try_except, bind, commit, ret, close_both, cursor_close,
    db_close, modify, st_emit, fetchone;
  rewrite cursor_execute_run by done; simpl.

(** The behaviour of [register_user] on every branch; the theorems below build on it. *)
Lemma register_user_run u p w :
  connects cfg (srv w) = true ->
  let (r, s') := exec cfg (srv w) (InsertUser u p) in
  exists w', register_user u p w = (Ret (if r is inr _ then true else false), w') /\
    srv w' = s' /\ handles_balanced w w' /\
    out w' = out w ++ match r with
                      | inl e => [StErrorExn "Registration failed: " (DatabaseError e)]
                      | inr _ => []
                      end.
Proof.
  intros Hr. destruct (exec cfg (srv w) (InsertUser u p)) as [[e|[rs|n id]] s'] eqn:E.
  - eexists. unfold register_user. run_access. rewrite E. simpl.
    finish_world.
  - by apply exec_InsertUser_not_Rows in E.
  - eexists. unfold register_user. run_access. rewrite E. simpl.
    finish_world.
Qed.

(** C22: [register_user] once connected.  It returns [True] exactly when
    the INSERT succeeds.  On any storage error it shows "Registration
    failed: " with the error and returns [False].  In both cases the
    server is left as the INSERT left it, and the connection and cursor
    are closed. *)
Theorem register_user_spec u p w :
  connects cfg (srv w) = true ->
  let (r, s') := exec cfg (srv w) (InsertUser u p) in
  exists w', register_user u p w = (Ret (if r is inr _ then true else false), w') /\
    srv w' = s' /\ handles_balanced w w' /\
    out w' = out w ++ match r with
                      | inl e => [StErrorExn "Registration failed: " (DatabaseError e)]
                      | inr _ => []
                      end.
Proof. apply register_user_run. Qed.

(** The behaviour of [login_user] on every branch; the theorems below build on it. *)
Lemma login_user_run u p w :
  connects cfg (srv w) = true -> table_exists cfg (catalog (srv w)) "users" = true ->
  match login_matches (srv w) u p with
  | [] => exists w', login_user u p w = (Ret None, w') /\
                     srv w' = srv w /\ handles_balanced w w'
  | [x] => exists w', login_user u p w = (Ret (Some (u_id x)), w') /\
                      srv w' = srv w /\ handles_balanced w w'
  | _ :: _ :: _ => exists w', login_user u p w = (Exc InternalError_Unread, w') /\
                              srv w' = srv w /\ handles_leaked w w'
  end.
Proof.
  intros Hr Ht. unfold login_user. run_access.
  rewrite exec_SelectUserId by done. simpl.
  destruct (login_matches (srv w) u p) as [|x [|y l]]; simpl; eexists; finish_world.
Qed.

(** C21: [login_user] once connected, on every branch.  No matching row
    gives [None].  Exactly one gives its id.  With two or more, the
    pre-fetched second row leaves the result unread: [cursor.close()]
    in the [finally] block raises InternalError, and the connection and
    the cursor stay open.  The spec says one of the matching ids is
    returned. *)
Theorem login_user_spec u p w :
  connects cfg (srv w) = true -> table_exists cfg (catalog (srv w)) "users" = true ->
  match login_matches (srv w) u p with
  | [] => exists w', login_user u p w = (Ret None, w') /\
                     srv w' = srv w /\ handles_balanced w w'
  | [x] => exists w', login_user u p w = (Ret (Some (u_id x)), w') /\
                      srv w' = srv w /\ handles_balanced w w'
  | _ :: _ :: _ => exists w', login_user u p w = (Exc InternalError_Unread, w') /\
                              srv w' = srv w /\ handles_leaked w w'
  end.
Proof. apply login_user_run. Qed.

Lemma login_matches_add s u p x :
  login_matches (mk_server (catalog s) (users_rows s ++ [x]) (complaints_rows s)
                           (users_ai s + 1) (complaints_ai s) (clock s) (reachable s)) u p
  = login_matches s u p ++ (if user_matches u p x then [x] else []).
Proof. unfold login_matches. simpl. apply filter_app_single. Qed.

Lemma user_matches_refl u p i : user_matches u p (mk_user i u p) = true.
Proof. unfold user_matches. simpl. by rewrite !coll_refl. Qed.

(** The server after a successful registration. *)
Definition add_user (s : Server) (u p : string) : Server :=
  mk_server (catalog s) (users_rows s ++ [mk_user (users_ai s) u p])
            (complaints_rows s) (users_ai s + 1) (complaints_ai s) (clock s)
            (reachable s).

Lemma register_user_ok u p w :
  connects cfg (srv w) = true -> table_exists cfg (catalog (srv w)) "users" = true ->
  (String.length u <= 25)%nat -> (String.length p <= 25)%nat ->
  (users_ai (srv w) <= INT_MAX)%Z ->
  exists w1, register_user u p w = (Ret true, w1) /\
             srv w1 = add_user (srv w) u p /\ handles_balanced w w1.
Proof.
  intros Hr Ht Hu Hp Hai. pose proof (register_user_run u p w Hr) as Hreg.
  rewrite exec_InsertUser_ok in Hreg by done.
  destruct Hreg as (w1 & Hrun & Hsrv & Hb1 & _). by exists w1.
Qed.

(** C1: registering then logging in with the same credentials returns
    the id that the registration assigned, the next AUTO_INCREMENT value
    of USERS.  Preconditions: the USERS table exists, both strings fit
    VARCHAR(25), the counter is still within INT, and no user had these
    credentials yet.  All handles are released. *)
Theorem register_login_roundtrip u p w :
  connects cfg (srv w) = true -> table_exists cfg (catalog (srv w)) "users" = true ->
  (String.length u <= 25)%nat -> (String.length p <= 25)%nat ->
  (users_ai (srv w) <= INT_MAX)%Z ->
  login_matches (srv w) u p = [] ->
  exists w1 w2, register_user u p w = (Ret true, w1) /\
    login_user u p w1 = (Ret (Some (users_ai (srv w))), w2) /\
    handles_balanced w w2.
Proof.
  intros Hr Ht Hu Hp Hai Hnone.
  destruct (register_user_ok u p w) as (w1 & Hrun & Hsrv & Hb1); try done.
  pose proof (login_user_run u p w1) as Hlog. unfold add_user in Hsrv.
  rewrite Hsrv, login_matches_add, Hnone, user_matches_refl in Hlog.
  destruct Hlog as (w2 & Hrun2 & _ & Hb2); [done|done|].
  exists w1, w2. split_and!; [done|done|]. by eapply handles_balanced_trans.
Qed.

(** C36: a connection failure escapes [register_user]: the connection is
    opened before its [try] block, so whatever the handshake refuses (a
    server that is down, the account [root] / [password], a missing
    [Grievances] database) is raised to the caller with the world
    unchanged.  The spec says no exception propagates past
    registration. *)
Theorem register_user_unreachable u p w e :
  connect_error cfg (srv w) grievances_args = Some e ->
  register_user u p w = (Exc (DatabaseError e), w).
Proof. intros Hc. unfold register_user. by apply open_refused. Qed.

(** C35: after registering [(u, p)], logging in with a password the
    collation tells apart from [p] finds no user, when no user had the
    credentials [(u, p')] before. *)
Theorem register_then_wrong_password u p p' w :
  connects cfg (srv w) = true -> table_exists cfg (catalog (srv w)) "users" = true ->
  (String.length u <= 25)%nat -> (String.length p <= 25)%nat ->
  (users_ai (srv w) <= INT_MAX)%Z ->
  coll_eqb p p' = false -> login_matches (srv w) u p' = [] ->
  exists w1 w2, register_user u p w = (Ret true, w1) /\
    login_user u p' w1 = (Ret None, w2).
Proof.
  intros Hr Ht Hu Hp Hai Hpw Hnone.
  destruct (register_user_ok u p w) as (w1 & Hrun & Hsrv & _); try done.
  pose proof (login_user_run u p' w1) as Hlog. unfold add_user in Hsrv.
  rewrite Hsrv, login_matches_add, Hnone in Hlog.
  unfold user_matches in Hlog. simpl in Hlog. rewrite Hpw, andb_false_r in Hlog.
  destruct Hlog as (w2 & Hrun2 & _); [done|done|]. by exists w1, w2.
Qed.

(** C29: USERS has no unique key and [register_user] checks nothing, so
    the same credentials can be registered twice.  The next login with
    them raises InternalError from [cursor.close()] and leaves a
    connection and a cursor open. *)
Theorem duplicate_registration_breaks_login u p w :
  connects cfg (srv w) = true -> table_exists cfg (catalog (srv w)) "users" = true ->
  (String.length u <= 25)%nat -> (String.length p <= 25)%nat ->
  (users_ai (srv w) + 1 <= INT_MAX)%Z ->
  login_matches (srv w) u p = [] ->
  exists w1 w2 w3, register_user u p w = (Ret true, w1) /\
    register_user u p w1 = (Ret true, w2) /\
    login_user u p w2 = (Exc InternalError_Unread, w3) /\ handles_leaked w w3.
Proof.
  intros Hr Ht Hu Hp Hai Hnone.
  destruct (register_user_ok u p w) as (w1 & Hrun1 & Hsrv1 & Hb1);
    [done|done|done|done|lia|].
  destruct (register_user_ok u p w1) as (w2 & Hrun2 & Hsrv2 & Hb2);
    rewrite ?Hsrv1; [done|done|done|done|simpl; lia|].
  pose proof (login_user_run u p w2) as Hlog. unfold add_user in *.
  rewrite Hsrv2, login_matches_add, Hsrv1 in Hlog. simpl in Hlog.
  rewrite login_matches_add, Hnone, !user_matches_refl in Hlog. simpl in Hlog.
  destruct Hlog as (w3 & Hrun3 & _ & Hl); [by erewrite connects_reachable|done|].
  exists w1, w2, w3. split_and!; try done.
  destruct Hb1, Hb2, Hl. split; lia.
Qed.

(** C37: in strict mode a password longer than VARCHAR(25), whose excess
    is not only spaces, is refused: [register_user] shows the error and
    returns [False], and the server is unchanged. *)
Theorem register_password_too_long_strict u p w :
  strict_mode cfg = true ->
  connects cfg (srv w) = true -> table_exists cfg (catalog (srv w)) "users" = true ->
  (String.length u <= 25)%nat -> (25 < String.length p)%nat ->
  excess_is_spaces 25 p = false ->
  exists w', register_user u p w = (Ret false, w') /\ srv w' = srv w /\
    out w' = out w ++ [StErrorExn "Registration failed: "
                         (DatabaseError (ER_DATA_TOO_LONG "password"))].
Proof.
  intros Hs Hr Ht Hu Hp He. pose proof (register_user_run u p w Hr) as Hreg.
  cbv beta iota zeta delta [exec sql_insert_user] in Hreg. rewrite Ht in Hreg. simpl in Hreg.
  rewrite store_string_fits, store_string_too_long in Hreg by first [exact He | lia | done].
  destruct Hreg as (w' & Hrun & Hsrv & _ & Hout). by exists w'.
Qed.

(** C38: outside strict mode the same password is cut to its first 25
    characters.  [register_user] returns [True], but logging in with the
    password as typed then finds no user, under the binary collation
    and when no user had these credentials before. *)
Theorem register_password_truncated u p w :
  strict_mode cfg = false ->
  (forall a b, coll_eqb a b = String.eqb a b) ->
  connects cfg (srv w) = true -> table_exists cfg (catalog (srv w)) "users" = true ->
  (String.length u <= 25)%nat -> (25 < String.length p)%nat ->
  (users_ai (srv w) <= INT_MAX)%Z -> login_matches (srv w) u p = [] ->
  exists w1 w2, register_user u p w = (Ret true, w1) /\
    login_user u p w1 = (Ret None, w2).
Proof.
  intros Hs Hbin Hr Ht Hu Hp Hai Hnone.
  pose proof (register_user_run u p w Hr) as Hreg.
  cbv beta iota zeta delta [exec sql_insert_user] in Hreg. rewrite Ht in Hreg. simpl in Hreg.
  rewrite store_string_fits, store_string_truncate, alloc_id_ok in Hreg by first [lia | done].
  destruct Hreg as (w1 & Hrun & Hsrv & _).
  pose proof (login_user_run u p w1) as Hlog. rewrite Hsrv in Hlog.
  simpl in Hlog. rewrite login_matches_add, Hnone in Hlog.
  unfold user_matches in Hlog. simpl in Hlog. rewrite (Hbin _ p) in Hlog.
  change (N.to_nat 25) with 25%nat in Hlog.
  destruct (String.eqb_spec (substring 0 25 p) p) as [Heq|Hne].
  - exfalso. pose proof (substring_length_le 0 25 p) as Hle. rewrite Heq in Hle. lia.
  - rewrite andb_false_r in Hlog. destruct Hlog as (w2 & Hrun2 & _); [done|done|].
    by exists w1, w2.
Qed.
End Users.

Section CaseInsensitive.
Context (cfg : Config).
#[local] Existing Instance ascii_ci_collation.

(** C34: under a case-insensitive collation, the default one, login
    ignores the case of both the username and the password.  After
    registering [(u, p)], any [(u', p')] equal to them up to ASCII case
    logs in as that user.  The spec says login compares the plaintext
    exactly. *)
Theorem register_then_case_variant_login u p u' p' w :
  connects cfg (srv w) = true -> table_exists cfg (catalog (srv w)) "users" = true ->
  (String.length u <= 25)%nat -> (String.length p <= 25)%nat ->
  (users_ai (srv w) <= INT_MAX)%Z ->
  str_lower u' = str_lower u -> str_lower p' = str_lower p ->
  login_matches (srv w) u' p' = [] ->
  exists w1 w2, register_user cfg u p w = (Ret true, w1) /\
    login_user cfg u' p' w1 = (Ret (Some (users_ai (srv w))), w2).
Proof.
  intros Hr Ht Hu Hp Hai Hu' Hp' Hnone.
  destruct (register_user_ok cfg u p w) as (w1 & Hrun & Hsrv & _); try done.
  pose proof (login_user_run cfg u' p' w1) as Hlog. unfold add_user in Hsrv.
  rewrite Hsrv, login_matches_add, Hnone in Hlog.
  unfold user_matches in Hlog. simpl in Hlog. rewrite Hu', Hp', !String.eqb_refl in Hlog.
  destruct Hlog as (w2 & Hrun2 & _); [done|done|]. by exists w1, w2.
Qed.
End CaseInsensitive.

Section UsersWitnesses.
#[local] Existing Instance binary_collation.

(** The started application, after one and after two registrations of
    alice. *)
Definition W0 : World := started_world ci_strict 0.
Definition W1 : World := snd (register_user ci_strict "alice" "pw1" W0).
Definition W2 : World := snd (register_user ci_strict "alice" "pw1" W1).

Lemma register_user_spec_witness :
  exists w', register_user ci_strict "alice" "pw1" W0 = (Ret true, w') /\
    srv w' = snd (exec ci_strict (srv W0) (InsertUser "alice" "pw1")) /\
    handles_balanced W0 w' /\ out w' = out W0 ++ [].
Proof. exact (register_user_spec ci_strict "alice" "pw1" W0 eq_refl). Defined.

Lemma login_user_spec_witness :
  exists w', login_user ci_strict "alice" "pw1" W2 = (Exc InternalError_Unread, w') /\
    srv w' = srv W2 /\ handles_leaked W2 w'.
Proof. exact (login_user_spec ci_strict "alice" "pw1" W2 eq_refl eq_refl). Defined.

Lemma register_login_roundtrip_witness :
  exists w1 w2, register_user ci_strict "alice" "pw1" W0 = (Ret true, w1) /\
    login_user ci_strict "alice" "pw1" w1 = (Ret (Some (users_ai (srv W0))), w2) /\
    handles_balanced W0 w2.
Proof.
  apply register_login_roundtrip; discharge_concrete.
Defined.

Lemma register_user_unreachable_witness :
  register_user ci_strict "alice" "pw1" (set_srv (mk_server [] [] [] 1 1 0 false) W0)
  = (Exc (DatabaseError CR_CONN_HOST_ERROR), set_srv (mk_server [] [] [] 1 1 0 false) W0).
Proof. apply register_user_unreachable. reflexivity. Defined.

Lemma register_then_wrong_password_witness :
  exists w1 w2, register_user ci_strict "alice" "pw1" W0 = (Ret true, w1) /\
    login_user ci_strict "alice" "PW1" w1 = (Ret None, w2).
Proof.
  apply register_then_wrong_password; discharge_concrete.
Defined.

Lemma duplicate_registration_breaks_login_witness :
  exists w1 w2 w3, register_user ci_strict "alice" "pw1" W0 = (Ret true, w1) /\
    register_user ci_strict "alice" "pw1" w1 = (Ret true, w2) /\
    login_user ci_strict "alice" "pw1" w2 = (Exc InternalError_Unread, w3) /\
    handles_leaked W0 w3.
Proof.
  apply duplicate_registration_breaks_login; discharge_concrete.
Defined.

(** A 26-character password. *)
Definition long_pw : string := "abcdefghijklmnopqrstuvwxyz".

Lemma register_password_too_long_strict_witness :
  exists w', register_user ci_strict "alice" long_pw W0 = (Ret false, w') /\
    srv w' = srv W0 /\
    out w' = out W0 ++ [StErrorExn "Registration failed: "
                          (DatabaseError (ER_DATA_TOO_LONG "password"))].
Proof.
  apply register_password_too_long_strict; discharge_concrete.
Defined.

Lemma register_password_truncated_witness :
  exists w1 w2, register_user ci_lax "alice" long_pw (started_world ci_lax 0) = (Ret true, w1) /\
    login_user ci_lax "alice" long_pw w1 = (Ret None, w2).
Proof.
  apply register_password_truncated; try discharge_concrete.
Defined.
End UsersWitnesses.

Section CaseInsensitiveWitness.
#[local] Existing Instance ascii_ci_collation.

Lemma register_then_case_variant_login_witness :
  exists w1 w2, register_user ci_strict "alice" "pw1" (started_world ci_strict 0) = (Ret true, w1) /\
    login_user ci_strict "ALICE" "PW1" w1 = (Ret (Some 1%Z), w2).
Proof.
  apply (register_then_case_variant_login ci_strict "alice" "pw1");
    discharge_concrete.
Defined.
End CaseInsensitiveWitness.


Lemma register_user_db_call cfg `{Collation} u p : preserves db_call (register_user cfg u p).
Proof. unfold register_user. db_call_tac. Qed.

Lemma login_user_db_call cfg `{Collation} u p : preserves db_call (login_user cfg u p).
Proof. unfold login_user. db_call_tac. Qed.

(** An id [login_user] returns belongs to a row of USERS. *)
Lemma login_user_returns_user cfg `{Collation} u p w w' uid :
  login_user cfg u p w = (Ret (Some uid), w') ->
  exists x, x ∈ users_rows (srv w) /\ u_id x = uid.
Proof.
  unfold login_user. intros Hrun.
  open_cases Hrun; [|congruence].
  destruct (table_exists cfg (catalog (srv w)) "users") eqn:Ht.
  - pose proof (exec_SelectUserId cfg (srv w) u p Ht) as Hex.
    unfold try_finally, bind, ret, fetchone in Hrun.
    rewrite cursor_execute_run in Hrun by done.
    change (srv (opened w)) with (srv w) in Hrun. rewrite Hex in Hrun.
    simpl in Hrun. unfold login_matches in Hrun.
    destruct (List.filter (user_matches u p) (users_rows (srv w))) as [|x l] eqn:Hf.
    + simpl in Hrun. congruence.
    + exists x. assert (Hx : x ∈ List.filter (user_matches u p) (users_rows (srv w))).
      { rewrite Hf. apply elem_of_cons. by left. }
      apply list_elem_of_In, filter_In in Hx as [Hx _].
      split; [by apply list_elem_of_In|].
      destruct l; simpl in Hrun; congruence.
  - unfold try_finally, bind in Hrun.
    rewrite cursor_execute_run in Hrun by done. simpl in Hrun.
    unfold exec, sql_select_user_id in Hrun. rewrite Ht in Hrun. simpl in Hrun.
    congruence.
Qed.

Lemma register_user_not_rerun cfg `{Collation} u p :
  raises_only not_rerun (register_user cfg u p).
Proof. unfold register_user. not_rerun_tac. Qed.

Lemma login_user_not_rerun cfg `{Collation} u p :
  raises_only not_rerun (login_user cfg u p).
Proof. unfold login_user. not_rerun_tac. Qed.

#[export] Hint Resolve register_user_not_rerun login_user_not_rerun : py.
