(* ===== verification/Complaints.v ===== *)
(** * Complaint management: [submit_complaint] (app.py 79-89),
      [get_user_complaints] (91-106) and [update_complaint_status] (108-124)

    The three functions share the open / [try] / [finally] / close pattern.
    None of them has an [except] clause, so a storage error reaches the
    Streamlit script as an exception.  The theorems give each function's
    behaviour on every branch, the round trips the spec lists (submit then
    list; resolve then list), and two behaviours the spec leaves open:
    - [update_complaint_status] returns [True] when no complaint has the id;
    - it resolves a complaint whatever user owns it. *)

From S2P Require Import Prelude MySQL Integrity Connector Schema Users.

Section Complaints.
Context (cfg : Config) `{Collation}.

Definition submit_complaint (user_id : Z) (description : string) : PyW (option Z) :=
  let* _ := get_database_connection cfg in
  let* _ := cursor in
  try_finally
    (let* _ := cursor_execute cfg (InsertComplaint user_id description "Pending") in
     let* _ := commit in
     lastrowid)
    close_both.

(** The DataFrame built from the rows is the list of rows; its columns
    are the six of the SELECT. *)
Definition get_user_complaints (user_id : Z) : PyW (list Row) :=
  let* _ := get_database_connection cfg in
  let* _ := cursor in
  try_finally
    (let* _ := cursor_execute cfg (SelectComplaints user_id) in
     let* results := fetchall in
     ret results)
    close_both.

Definition update_complaint_status (complaint_id : Z) (resolution_desc : string)
  : PyW bool :=
  let* _ := get_database_connection cfg in
  let* _ := cursor in
  try_finally
    (let* _ := cursor_execute cfg (UpdateComplaint resolution_desc complaint_id) in
     let* _ := commit in
     ret true)
    close_both.

(** The rows of a user's listing, in table order. *)
Definition user_complaints (s : Server) (uid : Z) : list Row :=
  map complaint_view (List.filter (fun c => (c_user_id c =? uid)%Z) (complaints_rows s)).

#[local] Arguments exec : simpl never.

Ltac run_access :=
  rewrite open_run by done;
  unfold try_finally, try_except, bind, commit, ret, close_both, cursor_close,
    db_close, modify, fetchall, lastrowid, gets;
  rewrite cursor_execute_run by done; simpl.

Lemma exec_not_Rows_insert_complaint s uid d rs s' :
  exec cfg s (InsertComplaint uid d "Pending") <> (inr (Rows rs), s').
Proof. unfold exec, sql_insert_complaint. repeat case_match; discriminate. Qed.

Lemma exec_not_Rows_update s r cid rs s' :
  exec cfg s (UpdateComplaint r cid) <> (inr (Rows rs), s').
Proof. unfold exec, sql_update_complaint. repeat case_match; discriminate. Qed.

(** The behaviour of [submit_complaint] on every branch; the theorems below build on it. *)
Lemma submit_complaint_run uid d w :
  connects cfg (srv w) = true ->
  let (r, s') := exec cfg (srv w) (InsertComplaint uid d "Pending") in
  exists w', submit_complaint uid d w =
    (match r with
     | inl e => Exc (DatabaseError e)
     | inr (Affected _ id) => Ret (Some id)
     | inr (Rows _) => Ret None
     end, w') /\ srv w' = s' /\ handles_balanced w w'.
Proof.
  intros Hr. destruct (exec cfg (srv w) _) as [[e|[rs|n id]] s'] eqn:E.
  - eexists. unfold submit_complaint. run_access. rewrite E. simpl. finish_world.
  - by apply exec_not_Rows_insert_complaint in E.
  - eexists. unfold submit_complaint. run_access. rewrite E. simpl. finish_world.
Qed.

(** C23: [submit_complaint] once connected.  A successful INSERT returns
    [cursor.lastrowid], the new id.  A failing one raises its error
    (there is no [except]), the foreign-key error included.  Either way
    the server is left as the INSERT left it and the handles are
    released. *)
Theorem submit_complaint_spec uid d w :
  connects cfg (srv w) = true ->
  let (r, s') := exec cfg (srv w) (InsertComplaint uid d "Pending") in
  exists w', submit_complaint uid d w =
    (match r with
     | inl e => Exc (DatabaseError e)
     | inr (Affected _ id) => Ret (Some id)
     | inr (Rows _) => Ret None
     end, w') /\ srv w' = s' /\ handles_balanced w w'.
Proof. apply submit_complaint_run. Qed.

(** The behaviour of [get_user_complaints] on every branch; the theorems below build on it. *)
Lemma get_user_complaints_run uid w :
  connects cfg (srv w) = true -> table_exists cfg (catalog (srv w)) "complaints" = true ->
  exists w', get_user_complaints uid w = (Ret (user_complaints (srv w) uid), w') /\
    srv w' = srv w /\ handles_balanced w w'.
Proof.
  intros Hr Ht. eexists. unfold get_user_complaints. run_access.
  unfold exec, sql_select_complaints. rewrite Ht. simpl. finish_world.
Qed.

(** The listing leaves the page and the session as they were. *)
Lemma get_user_complaints_page uid w :
  connects cfg (srv w) = true -> table_exists cfg (catalog (srv w)) "complaints" = true ->
  exists w', get_user_complaints uid w = (Ret (user_complaints (srv w) uid), w') /\
    srv w' = srv w /\ out w' = out w /\ session_user w' = session_user w.
Proof.
  intros Hr Ht. eexists. unfold get_user_complaints. run_access.
  unfold exec, sql_select_complaints. rewrite Ht. simpl. finish_world.
Qed.

(** C24: [get_user_complaints] once connected and with the table there.
    It returns exactly the user's complaints, in table order, with the
    six listed columns.  The server is unchanged and the handles are
    released.  A user with no complaint gets the empty list, not an
    error. *)
Theorem get_user_complaints_spec uid w :
  connects cfg (srv w) = true -> table_exists cfg (catalog (srv w)) "complaints" = true ->
  exists w', get_user_complaints uid w = (Ret (user_complaints (srv w) uid), w') /\
    srv w' = srv w /\ handles_balanced w w'.
Proof. apply get_user_complaints_run. Qed.

(** The behaviour of [update_complaint_status] on every branch; the theorems below build on it. *)
Lemma update_complaint_status_run cid r w :
  connects cfg (srv w) = true ->
  let (res, s') := exec cfg (srv w) (UpdateComplaint r cid) in
  exists w', update_complaint_status cid r w =
    (match res with inl e => Exc (DatabaseError e) | inr _ => Ret true end, w') /\
    srv w' = s' /\ handles_balanced w w'.
Proof.
  intros Hr. destruct (exec cfg (srv w) _) as [[e|[rs|n id]] s'] eqn:E.
  - eexists. unfold update_complaint_status. run_access. rewrite E. simpl. finish_world.
  - by apply exec_not_Rows_update in E.
  - eexists. unfold update_complaint_status. run_access. rewrite E. simpl. finish_world.
Qed.

(** C25: [update_complaint_status] once connected.  It returns [True]
    whenever the UPDATE succeeds, also when no complaint has the id.  It
    raises when the UPDATE fails.  The handles are released either
    way. *)
Theorem update_complaint_status_spec cid r w :
  connects cfg (srv w) = true ->
  let (res, s') := exec cfg (srv w) (UpdateComplaint r cid) in
  exists w', update_complaint_status cid r w =
    (match res with inl e => Exc (DatabaseError e) | inr _ => Ret true end, w') /\
    srv w' = s' /\ handles_balanced w w'.
Proof. apply update_complaint_status_run. Qed.

Lemma user_complaints_add s uid c :
  user_complaints
    (mk_server (catalog s) (users_rows s) (complaints_rows s ++ [c])
               (users_ai s) (complaints_ai s + 1) (clock s) (reachable s)) uid
  = user_complaints s uid ++ (if (c_user_id c =? uid)%Z then [complaint_view c] else []).
Proof.
  unfold user_complaints. simpl. rewrite filter_app_single, map_app.
  by destruct (c_user_id c =? uid)%Z.
Qed.

(** C2: submitting a complaint for user [uid], then listing [uid]'s
    complaints, gives the earlier list followed by the new complaint.  It
    carries the id [submit_complaint] returned (the next AUTO_INCREMENT
    value), the text, status "Pending", the server time, resolution "Not
    Available" and no resolution time.  Preconditions: both tables exist,
    the text fits TEXT, the counter is within INT, and the user exists. *)
Theorem submit_then_list uid d w :
  connects cfg (srv w) = true -> schema_ready cfg (srv w) = true ->
  (N.of_nat (String.length d) <= 65535)%N -> (complaints_ai (srv w) <= INT_MAX)%Z ->
  existsb (fun u => (u_id u =? uid)%Z) (users_rows (srv w)) = true ->
  exists w1 w2,
    submit_complaint uid d w = (Ret (Some (complaints_ai (srv w))), w1) /\
    get_user_complaints uid w1 =
      (Ret (user_complaints (srv w) uid ++
            [RComplaint (complaints_ai (srv w)) d "Pending" (clock (srv w))
                        NOT_AVAILABLE None]), w2) /\
    handles_balanced w w2.
Proof.
  intros Hr Hs Hd Hai Hu. apply andb_true_iff in Hs as [Htu Htc].
  pose proof (submit_complaint_run uid d w Hr) as Hsub.
  rewrite exec_InsertComplaint_ok in Hsub by done.
  destruct Hsub as (w1 & Hrun1 & Hsrv1 & Hb1).
  destruct (get_user_complaints_run uid w1) as (w2 & Hrun2 & _ & Hb2);
    rewrite ?Hsrv1; [done|done|].
  exists w1, w2. split_and!; [done| |by eapply handles_balanced_trans].
  rewrite Hrun2, Hsrv1, user_complaints_add. simpl. by rewrite Z.eqb_refl.
Qed.

(** C3: resolving complaint [c], then listing its owner's complaints,
    shows it as "Resolved", with the new text and the server time as its
    resolution time.  That time is not before its creation.  Nothing
    checks who asks: the function takes no user.  Preconditions: the
    invariant holds, both tables exist, and the text fits
    VARCHAR(255). *)
Theorem resolve_then_list c r w :
  connects cfg (srv w) = true -> schema_ready cfg (srv w) = true ->
  wf_server (srv w) -> c ∈ complaints_rows (srv w) ->
  (String.length r <= 255)%nat ->
  exists w1 w2 rows,
    update_complaint_status (c_id c) r w = (Ret true, w1) /\
    get_user_complaints (c_user_id c) w1 = (Ret rows, w2) /\
    RComplaint (c_id c) (c_description c) "Resolved" (c_created_At c) r
               (Some (clock (srv w))) ∈ rows /\
    (c_created_At c <= clock (srv w))%Z.
Proof.
  intros Hr Hs Hwf Hin Hlen. apply andb_true_iff in Hs as [Htu Htc].
  assert (Hne : List.filter (fun c' => (c_id c' =? c_id c)%Z) (complaints_rows (srv w)) <> []).
  { intros Hnil. assert (Hc : c ∈ List.filter (fun c' => (c_id c' =? c_id c)%Z)
                                      (complaints_rows (srv w))).
    { apply list_elem_of_In, filter_In. split; [by apply list_elem_of_In|].
      apply Z.eqb_refl. }
    rewrite Hnil in Hc. by apply not_elem_of_nil in Hc. }
  destruct (exec_UpdateComplaint_ok cfg (srv w) r (c_id c)) as [Hs' [n Hres]]; try done.
  pose proof (update_complaint_status_run (c_id c) r w Hr) as Hup.
  destruct (exec cfg (srv w) (UpdateComplaint r (c_id c))) as [res s'] eqn:E.
  simpl in Hs', Hres. subst res s'.
  destruct Hup as (w1 & Hrun1 & Hsrv1 & _).
  destruct (get_user_complaints_run (c_user_id c) w1) as (w2 & Hrun2 & _);
    rewrite ?Hsrv1; [done|done|].
  exists w1, w2. eexists. split_and!; [done|exact Hrun2| |].
  - rewrite Hsrv1. unfold user_complaints. simpl.
    apply (list_elem_of_fmap_2 complaint_view _ (resolve_row r (clock (srv w)) c)).
    apply list_elem_of_In, filter_In. split; [|simpl; apply Z.eqb_refl].
    apply list_elem_of_In. unfold update_rows.
    apply (list_elem_of_fmap_2 (fun c0 => if (c_id c0 =? c_id c)%Z
                                         then resolve_row r (clock (srv w)) c0 else c0) _ c) in Hin.
    by rewrite Z.eqb_refl in Hin.
  - pose proof (wf_clock _ Hwf) as Hclk. rewrite Forall_forall in Hclk. by apply Hclk.
Qed.

(** C31: [update_complaint_status] with an id that no complaint has
    changes nothing and still returns [True], so the UI reports
    success. *)
Theorem update_missing_returns_true cid r w :
  connects cfg (srv w) = true -> table_exists cfg (catalog (srv w)) "complaints" = true ->
  List.filter (fun c => (c_id c =? cid)%Z) (complaints_rows (srv w)) = [] ->
  exists w', update_complaint_status cid r w = (Ret true, w') /\ srv w' = srv w /\
    handles_balanced w w'.
Proof.
  intros Hr Ht Hnone. pose proof (update_complaint_status_run cid r w Hr) as Hup.
  by rewrite exec_UpdateComplaint_none in Hup.
Qed.

(** C30: submitting a complaint for a user that does not exist raises the
    foreign-key error out of [submit_complaint], which has no [except].
    No row is added, but the AUTO_INCREMENT counter has moved: the next
    complaint's id skips one. *)
Theorem submit_complaint_unknown_user uid d w :
  connects cfg (srv w) = true -> table_exists cfg (catalog (srv w)) "complaints" = true ->
  (N.of_nat (String.length d) <= 65535)%N -> (complaints_ai (srv w) <= INT_MAX)%Z ->
  existsb (fun u => (u_id u =? uid)%Z) (users_rows (srv w)) = false ->
  exists w', submit_complaint uid d w = (Exc (DatabaseError ER_NO_REFERENCED_ROW_2), w') /\
    complaints_rows (srv w') = complaints_rows (srv w) /\
    complaints_ai (srv w') = (complaints_ai (srv w) + 1)%Z /\ handles_balanced w w'.
Proof.
  intros Hr Ht Hd Hai Hu. pose proof (submit_complaint_run uid d w Hr) as Hsub.
  rewrite exec_InsertComplaint_fk in Hsub by done.
  destruct Hsub as (w' & Hrun & Hsrv & Hb). exists w'. by rewrite Hsrv.
Qed.
End Complaints.

Section ComplaintsWitnesses.
#[local] Existing Instance binary_collation.

(** [W1] (alice registered) after alice's first complaint. *)
Definition WC1 : World := snd (submit_complaint ci_strict 1 "broken light" W1).

(** The complaint as [WC1] stores it. *)
Definition C1row : complaint_row :=
  mk_complaint 1 1 "broken light" "Pending" 0 NOT_AVAILABLE None.

Lemma submit_complaint_spec_witness :
  exists w', submit_complaint ci_strict 1 "broken light" W1 = (Ret (Some 1%Z), w') /\
    srv w' = snd (exec ci_strict (srv W1) (InsertComplaint 1 "broken light" "Pending")) /\
    handles_balanced W1 w'.
Proof. exact (submit_complaint_spec ci_strict 1 "broken light" W1 eq_refl). Defined.

Lemma get_user_complaints_spec_witness :
  exists w', get_user_complaints ci_strict 1 WC1 = (Ret (user_complaints (srv WC1) 1), w') /\
    srv w' = srv WC1 /\ handles_balanced WC1 w'.
Proof. apply get_user_complaints_spec; discharge_concrete. Defined.

Lemma update_complaint_status_spec_witness :
  exists w', update_complaint_status ci_strict 1 "fixed" WC1 = (Ret true, w') /\
    srv w' = snd (exec ci_strict (srv WC1) (UpdateComplaint "fixed" 1)) /\
    handles_balanced WC1 w'.
Proof. exact (update_complaint_status_spec ci_strict 1 "fixed" WC1 eq_refl). Defined.

Lemma submit_then_list_witness :
  exists w1 w2,
    submit_complaint ci_strict 1 "broken light" W1 = (Ret (Some (complaints_ai (srv W1))), w1) /\
    get_user_complaints ci_strict 1 w1 =
      (Ret (user_complaints (srv W1) 1 ++
            [RComplaint (complaints_ai (srv W1)) "broken light" "Pending" (clock (srv W1))
                        NOT_AVAILABLE None]), w2) /\
    handles_balanced W1 w2.
Proof. apply submit_then_list; discharge_concrete. Defined.

Lemma resolve_then_list_witness :
  exists w1 w2 rows,
    update_complaint_status ci_strict (c_id C1row) "fixed" WC1 = (Ret true, w1) /\
    get_user_complaints ci_strict (c_user_id C1row) w1 = (Ret rows, w2) /\
    RComplaint (c_id C1row) (c_description C1row) "Resolved" (c_created_At C1row) "fixed"
               (Some (clock (srv WC1))) ∈ rows /\
    (c_created_At C1row <= clock (srv WC1))%Z.
Proof.
  apply resolve_then_list; discharge_concrete.
Defined.

Lemma update_missing_returns_true_witness :
  exists w', update_complaint_status ci_strict 42 "fixed" WC1 = (Ret true, w') /\
    srv w' = srv WC1 /\ handles_balanced WC1 w'.
Proof. apply update_missing_returns_true; discharge_concrete. Defined.

Lemma submit_complaint_unknown_user_witness :
  exists w', submit_complaint ci_strict 7 "broken light" W1 =
    (Exc (DatabaseError ER_NO_REFERENCED_ROW_2), w') /\
    complaints_rows (srv w') = complaints_rows (srv W1) /\
    complaints_ai (srv w') = (complaints_ai (srv W1) + 1)%Z /\ handles_balanced W1 w'.
Proof. apply submit_complaint_unknown_user; discharge_concrete. Defined.
End ComplaintsWitnesses.

Lemma submit_complaint_db_call cfg `{Collation} uid d :
  preserves db_call (submit_complaint cfg uid d).
Proof. unfold submit_complaint. db_call_tac. Qed.

Lemma get_user_complaints_db_call cfg `{Collation} uid :
  preserves db_call (get_user_complaints cfg uid).
Proof. unfold get_user_complaints. db_call_tac. Qed.

(** The complaint [cid] exists and belongs to [u]. *)
Definition owned_by (s : Server) (u cid : Z) : Prop :=
  exists c0, c0 ∈ complaints_rows s /\ c_id c0 = cid /\ c_user_id c0 = u.

(** [update_complaint_status] on a complaint of [u] changes no other
    user's complaint, given unique ids. *)
Lemma update_complaint_status_others cfg `{Collation} u cid r w o w' :
  update_complaint_status cfg cid r w = (o, w') -> wf_server (srv w) ->
  owned_by (srv w) u cid -> db_call_others u w w'.
Proof.
  intros Hrun Hwf Hown. unfold update_complaint_status in Hrun.
  open_cases Hrun; [|injection Hrun as _ <-; reflexivity].
  pose proof (exec_update_keeps_others cfg (srv w) u r cid Hwf Hown) as Hk.
  unfold try_finally, bind, ret, commit, close_both, cursor_close, db_close, modify in Hrun.
  rewrite cursor_execute_run in Hrun by done.
  change (srv (opened w)) with (srv w) in Hrun.
  destruct (exec cfg (srv w) (UpdateComplaint r cid)) as [[e|[rs|n id]] s'] eqn:E;
    simpl in Hk, Hrun; injection Hrun as _ <-; split; simpl; done.
Qed.

(** What [get_user_complaints] returns, whenever it returns: the user's
    listing; the server and the session are untouched. *)
Lemma get_user_complaints_rows cfg `{Collation} uid w rows w' :
  get_user_complaints cfg uid w = (Ret rows, w') ->
  rows = user_complaints (srv w) uid /\ srv w' = srv w /\ session_user w' = session_user w.
Proof.
  unfold get_user_complaints. intros Hrun.
  open_cases Hrun; [|congruence].
  unfold try_finally, bind, ret, close_both, cursor_close, db_close, modify, fetchall in Hrun.
  rewrite cursor_execute_run in Hrun by done. change (srv (opened w)) with (srv w) in Hrun.
  unfold exec, sql_select_complaints in Hrun.
  destruct (table_exists cfg (catalog (srv w)) "complaints"); simpl in Hrun; [|done].
  by injection Hrun as <- <-.
Qed.

(** Every id of a user's listing is a complaint of that user. *)
Lemma user_complaints_owned s uid cid :
  cid ∈ map row_first (user_complaints s uid) -> owned_by s uid cid.
Proof.
  unfold user_complaints. rewrite map_map.
  intros (c & -> & Hc)%list_elem_of_fmap.
  apply list_elem_of_In, filter_In in Hc as [Hc Hu%Z.eqb_eq].
  exists c. split; [by apply list_elem_of_In|done].
Qed.

Lemma submit_complaint_not_rerun cfg `{Collation} uid d :
  raises_only not_rerun (submit_complaint cfg uid d).
Proof. unfold submit_complaint. not_rerun_tac. Qed.

Lemma get_user_complaints_not_rerun cfg `{Collation} uid :
  raises_only not_rerun (get_user_complaints cfg uid).
Proof. unfold get_user_complaints. not_rerun_tac. Qed.

Lemma update_complaint_status_not_rerun cfg `{Collation} cid r :
  raises_only not_rerun (update_complaint_status cfg cid r).
Proof. unfold update_complaint_status. not_rerun_tac. Qed.

#[export] Hint Resolve submit_complaint_not_rerun get_user_complaints_not_rerun
  update_complaint_status_not_rerun : py.
