(* ===== verification/App.v ===== *)
(** * The Streamlit script [main] (app.py 127-207) and the session

    Streamlit runs [main] from the top for every interaction.  One run is
    modelled by [script_run] for the user's [Action]: which button was
    clicked, with the values of the widgets of its form.  A button that is
    not rendered in a run cannot be clicked.  Its [if] is never evaluated,
    so the action has no effect there.
    - [st.rerun()] raises [RerunException].  Streamlit then starts a new run
      in which no button is clicked ([app_run]).  The output shown is that
      of the last run.
    - An exception that escapes [main] is shown on the page, and the
      session state survives.
    - On a server with case-sensitive table names and no COMPLAINTS
      table, every run stops in [init_db] ([case_sensitive_page_fails]).

    The sidebar and the main area are one [Definition] per block:
    [login_tab] (144-155), [register_tab] (157-165), [logout_button]
    (167-170), [submit_tab] (176-184), [view_tab] (186-192) and
    [update_tab] (194-205).  [page_lists_complaints] shows that every
    page a logged-in user sees without a click lists exactly their
    complaints.  The file ends with concrete sessions on a fresh server
    (the scenario of spec §8 played through the page), used as witnesses.
    Output.v, Isolation.v and Session.v hold the theorems about runs and
    sessions. *)

From S2P Require Import Prelude MySQL Integrity Connector Schema Users Complaints.

(** What the user does in one run. *)
Inductive Action : Type :=
| NoAction
| ClickLogin (username password : string)      (* login form, "Login" *)
| ClickRegister (username password : string)   (* register form, "Register" *)
| ClickLogout                                  (* "Logout" *)
| ClickSubmit (text : string)                  (* complaint text, "Submit" *)
| ClickUpdate (choice : nat) (resolution : string). (* select box, text, "Update Status" *)

(** [st.session_state.user_id], [None] when absent or [None]. *)
Definition current_user (w : World) : option Z :=
  match session_user w with Some u => u | None => None end.

(** [if user_id:] on the value [login_user] returned. *)
Definition py_opt_int_truthy (v : option Z) : bool :=
  match v with Some z => py_int_truthy z | None => false end.

(** [st.selectbox(label, options)]: the option the user picked, by
    position; the first one when nothing else was picked. *)
Definition selectbox (options : list Z) (choice : nat) : Z :=
  match nth_error options choice with
  | Some x => x
  | None => match options with x :: _ => x | [] => 0%Z end
  end.

Section Main.
Context (cfg : Config) `{Collation}.

(** app.py 134-135. *)
Definition init_session : PyW unit :=
  modify (fun w => match session_user w with
                   | None => set_session (Some None) w
                   | Some _ => w
                   end).

(** app.py 144-155. *)
Definition login_tab (a : Action) : PyW unit :=
  let* u := gets current_user in
  match u, a with
  | None, ClickLogin username password =>
      let* user_id := login_user cfg username password in
      if py_opt_int_truthy user_id then
        let* _ := modify (set_session (Some user_id)) in
        let* _ := st_emit (StSuccess "Successfully logged in!") in
        raise RerunException
      else st_emit (StError "Invalid credentials")
  | _, _ => ret tt
  end.

(** app.py 157-165. *)
Definition register_tab (a : Action) : PyW unit :=
  let* u := gets current_user in
  match u, a with
  | None, ClickRegister username password =>
      let* ok := register_user cfg username password in
      if ok then st_emit (StSuccess "Registration successful! Please login.")
      else st_emit (StError "Registration failed")
  | _, _ => ret tt
  end.

(** app.py 167-170. *)
Definition logout_button (a : Action) : PyW unit :=
  let* u := gets current_user in
  match u, a with
  | Some _, ClickLogout =>
      let* _ := modify (set_session (Some None)) in
      raise RerunException
  | _, _ => ret tt
  end.

(** app.py 176-184. *)
Definition submit_tab (uid : Z) (a : Action) : PyW unit :=
  match a with
  | ClickSubmit complaint_text =>
      if py_str_truthy (py_strip complaint_text) then
        let* complaint_id := submit_complaint cfg uid complaint_text in
        st_emit (StSuccessId "Complaint submitted successfully! Complaint ID: " complaint_id)
      else st_emit (StWarning "Please enter a complaint description")
  | _ => ret tt
  end.

(** app.py 186-192. *)
Definition view_tab (uid : Z) : PyW unit :=
  let* complaints_df := get_user_complaints cfg uid in
  match complaints_df with
  | [] => st_emit (StInfo "No complaints found")
  | _ => st_emit (StDataframe complaints_df)
  end.

(** app.py 194-205. *)
Definition update_tab (uid : Z) (a : Action) : PyW unit :=
  let* complaints_df := get_user_complaints cfg uid in
  match complaints_df with
  | [] => st_emit (StInfo "No complaints to update")
  | _ =>
      match a with
      | ClickUpdate choice resolution =>
          let complaint_id := selectbox (map row_first complaints_df) choice in
          let* ok := update_complaint_status cfg complaint_id resolution in
          if ok then
            let* _ := st_emit (StSuccess "Complaint status updated successfully!") in
            raise RerunException
          else ret tt
      | _ => ret tt
      end
  end.

(** app.py 127-207. *)
Definition main (a : Action) : PyW unit :=
  let* _ := init_db cfg in
  let* _ := init_session in
  let* _ := login_tab a in
  let* _ := register_tab a in
  let* _ := logout_button a in
  let* u := gets current_user in
  match u with
  | Some uid =>
      let* _ := submit_tab uid a in
      let* _ := view_tab uid in
      update_tab uid a
  | None => st_emit (StInfo "Please login or register to access the system")
  end.

(** One run of the script: the page starts empty. *)
Definition script_run (a : Action) : PyW unit :=
  let* _ := modify (set_out []) in
  main a.

(** An exception that escapes the script is shown on the page. *)
Definition show_outcome (r : outcome Exn unit * World) : World :=
  match r with
  | (Ret _, w) => w
  | (Exc e, w) => set_out (out w ++ [StException e]) w
  end.

(** A user interaction: a run, and the run [st.rerun()] asks for. *)
Definition app_run (a : Action) (w : World) : World :=
  match script_run a w with
  | (Exc RerunException, w1) => show_outcome (script_run NoAction w1)
  | r => show_outcome r
  end.
End Main.

(** What the View and Update tabs show with no click: the listing, or
    the two notices when the user has no complaint (app.py 188-192,
    196-205). *)
Definition view_out (rows : list Row) : list Msg :=
  match rows with
  | [] => [StInfo "No complaints found"; StInfo "No complaints to update"]
  | _ => [StDataframe rows]
  end.

(** ** A server with case-sensitive table names *)

Section CaseSensitive.
Context (cfg : Config) `{Collation}.

(** Every interaction stops in [init_db], before the page is drawn. *)
Lemma app_run_fk a w :
  lower_case_table_names cfg = false -> connects cfg (srv w) = true ->
  has_table (catalog (srv w)) T_COMPLAINTS = false ->
  app_run cfg a w =
  show_outcome (Exc (DatabaseError (ER_FK_CANNOT_OPEN_PARENT "users")),
                init_db_fk_post (set_out [] w)).
Proof.
  intros Hcs Hr Hc. unfold app_run.
  assert (E : script_run cfg a w = (Exc (DatabaseError (ER_FK_CANNOT_OPEN_PARENT "users")),
                                     init_db_fk_post (set_out [] w))).
  { unfold script_run. erewrite bind_run_Ret; [|reflexivity].
    unfold main. erewrite bind_run_Exc; [reflexivity|]. by apply init_db_fk_run. }
  by rewrite E.
Qed.
End CaseSensitive.

(** C33: on a server whose table names are case-sensitive and that has no
    COMPLAINTS table, every interaction, whatever the user clicks, shows
    only the foreign-key error of [init_db]: no form is drawn, the
    session is unchanged, and one more connection is left open. *)
Theorem case_sensitive_page_fails cfg `{Collation} a w :
  lower_case_table_names cfg = false -> connects cfg (srv w) = true ->
  has_table (catalog (srv w)) T_COMPLAINTS = false ->
  out (app_run cfg a w) = [StException (DatabaseError (ER_FK_CANNOT_OPEN_PARENT "users"))] /\
  srv (app_run cfg a w) = set_catalog (ensure_table (catalog (srv w)) T_USERS) (srv w) /\
  session_user (app_run cfg a w) = session_user w /\
  open_conns (app_run cfg a w) = S (open_conns w).
Proof. intros Hcs Hr Hc. by rewrite app_run_fk. Qed.

(** ** A server that refuses the connection *)

Section Refused.
Context (cfg : Config) `{Collation}.

(** When the handshake fails, [init_db] raises before anything else of
    [main] runs. *)
Lemma app_run_refused a w e :
  connect_error cfg (srv w) grievances_args = Some e ->
  app_run cfg a w = show_outcome (Exc (DatabaseError e), set_out [] w).
Proof.
  intros Hc. unfold app_run.
  assert (E : script_run cfg a w = (Exc (DatabaseError e), set_out [] w)).
  { unfold script_run. erewrite bind_run_Ret; [|reflexivity].
    unfold main. erewrite bind_run_Exc; [reflexivity|].
    unfold init_db. by apply open_refused. }
  by rewrite E.
Qed.
End Refused.

(** C18: app.py creates the tables but not the [Grievances] database, and
    connects outside any [try]: on a server that refuses its connection
    (the server down, the account [root] / [password] refused, or no
    [Grievances] database), every interaction, whatever the user clicks,
    shows only the handshake error as an uncaught exception.  The server,
    the session and the handles are unchanged.  The spec says such a
    failure is fatal at startup, or caught and reported by the
    operation. *)
Theorem connection_refused_page cfg `{Collation} a w e :
  connect_error cfg (srv w) grievances_args = Some e ->
  out (app_run cfg a w) = [StException (DatabaseError e)] /\
  srv (app_run cfg a w) = srv w /\
  session_user (app_run cfg a w) = session_user w /\
  open_conns (app_run cfg a w) = open_conns w.
Proof. intros Hc. by rewrite (app_run_refused cfg a w e Hc). Qed.

(** ** The page a logged-in user sees *)

Section Page.
Context (cfg : Config) `{Collation}.

(** After [init_db] on a case-insensitive server, COMPLAINTS resolves. *)
Lemma init_db_post_complaints w :
  lower_case_table_names cfg = true ->
  table_exists cfg (catalog (srv (init_db_post w))) "complaints" = true.
Proof.
  intros Hci. simpl. rewrite table_exists_complaints, Hci.
  by destruct (created_catalog_has (catalog (srv w))) as [_ ->].
Qed.

(** The View and Update tabs with no click, on a world whose server
    accepts the connection and has COMPLAINTS. *)
Lemma tabs_view w uid :
  connects cfg (srv w) = true -> table_exists cfg (catalog (srv w)) "complaints" = true ->
  exists w', (let* _ := view_tab cfg uid in update_tab cfg uid NoAction) w = (Ret tt, w') /\
    out w' = out w ++ view_out (user_complaints (srv w) uid).
Proof.
  intros Hc Ht.
  destruct (get_user_complaints_page cfg uid w Hc Ht) as (w1 & E1 & S1 & O1 & _).
  unfold view_tab, update_tab.
  rewrite bind_assoc. rewrite (bind_run_Ret _ _ _ _ _ E1).
  set (w2 := set_out (out w1 ++ [match user_complaints (srv w) uid with
                                 | [] => StInfo "No complaints found"
                                 | _ => StDataframe (user_complaints (srv w) uid) end]) w1).
  assert (E2 : (match user_complaints (srv w) uid with
                | [] => st_emit (StInfo "No complaints found")
                | _ => st_emit (StDataframe (user_complaints (srv w) uid)) end) w1 = (Ret tt, w2)).
  { unfold w2. by destruct (user_complaints (srv w) uid). }
  rewrite (bind_run_Ret _ _ _ _ _ E2).
  assert (S2 : srv w2 = srv w) by (unfold w2; simpl; exact S1).
  destruct (get_user_complaints_page cfg uid w2) as (w3 & E3 & S3 & O3 & _);
    [by rewrite S2|by rewrite S2|].
  rewrite (bind_run_Ret _ _ _ _ _ E3), S2.
  assert (O2 : out w2 = out w ++ [match user_complaints (srv w) uid with
                                 | [] => StInfo "No complaints found"
                                 | _ => StDataframe (user_complaints (srv w) uid) end])
    by (unfold w2; simpl; by rewrite O1).
  destruct (user_complaints (srv w) uid) as [|r rs]; eexists; (split; [reflexivity|]);
    simpl; rewrite O3, O2; [by rewrite <-app_assoc|done].
Qed.

Lemma main_view w uid :
  lower_case_table_names cfg = true -> connects cfg (srv w) = true ->
  session_user w = Some (Some uid) ->
  exists w', main cfg NoAction w = (Ret tt, w') /\
    out w' = out w ++ view_out (user_complaints (srv w) uid).
Proof.
  intros Hci Hc Hs. unfold main.
  rewrite (bind_run_Ret _ _ _ tt (init_db_post w)) by (by apply init_db_run).
  destruct (tabs_view (init_db_post w) uid) as (w' & E & O);
    [exact Hc|by apply init_db_post_complaints|].
  exists w'. split; [|exact O].
  destruct w as [s c k u l o ss]; simpl in Hs; subst ss.
  unfold init_session, login_tab, register_tab, logout_button, submit_tab.
  cbn [bind gets ret modify current_user session_user init_db_post]. exact E.
Qed.
End Page.

(** C4: every page a logged-in user sees without a click lists exactly
    their complaints: on a server with case-insensitive table names that
    accepts the connection, the run shows the rows of [user_complaints]
    for the user of the session, in the View tab, and nothing else; with
    no complaint, the notices of the View and the Update tabs.  It is the
    page of every interaction that ends in [st.rerun()]. *)
Theorem page_lists_complaints cfg `{Collation} w uid :
  lower_case_table_names cfg = true -> connects cfg (srv w) = true ->
  current_user w = Some uid ->
  out (app_run cfg NoAction w) = view_out (user_complaints (srv w) uid).
Proof.
  intros Hci Hc Hu.
  assert (Hs : session_user w = Some (Some uid)).
  { unfold current_user in Hu. destruct (session_user w) as [[]|]; congruence. }
  destruct (main_view cfg (set_out [] w) uid) as (w' & E & O); [done|done|done|].
  unfold app_run, script_run. rewrite (bind_run_Ret _ _ _ tt (set_out [] w)) by reflexivity.
  rewrite E. exact O.
Qed.


(** ** Concrete sessions *)

Section Sessions.
#[local] Existing Instance binary_collation.

(** Alice registers, logs in and files a complaint (spec §8). *)
Definition UI1 : World := app_run ci_strict (ClickRegister "alice" "pw1") (fresh_world 0).
Definition UI2 : World := app_run ci_strict (ClickLogin "alice" "pw1") UI1.
Definition UI3 : World := app_run ci_strict (ClickSubmit "broken light") UI2.

(** Alice logs out; Bob registers, logs in and files his own complaint. *)
Definition UI_bob : World :=
  app_run ci_strict (ClickSubmit "noisy fan")
    (app_run ci_strict (ClickLogin "bob" "pw2")
       (app_run ci_strict (ClickRegister "bob" "pw2")
          (app_run ci_strict ClickLogout UI3))).

(** Alice, logged in with one complaint, reloads the page. *)
Lemma page_lists_complaints_witness :
  out (app_run ci_strict NoAction UI3) = view_out (user_complaints (srv UI3) 1).
Proof. apply page_lists_complaints; discharge_concrete. Defined.

(** The same two interactions on a case-sensitive server. *)
Definition CS1 : World := app_run cs_strict (ClickRegister "alice" "pw1") (fresh_world 0).
Definition CS2 : World := app_run cs_strict (ClickLogin "alice" "pw1") CS1.

Lemma case_sensitive_page_fails_witness :
  out (app_run (deployment false true) (ClickRegister "alice" "pw1") (fresh_world 0)) =
    [StException (DatabaseError (ER_FK_CANNOT_OPEN_PARENT "users"))] /\
  srv (app_run (deployment false true) (ClickRegister "alice" "pw1") (fresh_world 0)) =
    set_catalog (ensure_table [] T_USERS) (srv (fresh_world 0)) /\
  session_user (app_run (deployment false true) (ClickRegister "alice" "pw1") (fresh_world 0)) =
    None /\
  open_conns (app_run (deployment false true) (ClickRegister "alice" "pw1") (fresh_world 0)) = 1.
Proof. apply (case_sensitive_page_fails (deployment false true)); reflexivity. Defined.

(** A server with the account but without the [Grievances] database. *)
Definition no_db : Config := mk_config true true "localhost" [("root", "password")] [].

Lemma connection_refused_page_witness :
  out (app_run no_db (ClickRegister "alice" "pw1") (fresh_world 0)) =
    [StException (DatabaseError (ER_BAD_DB_ERROR "Grievances"))] /\
  srv (app_run no_db (ClickRegister "alice" "pw1") (fresh_world 0)) = srv (fresh_world 0) /\
  session_user (app_run no_db (ClickRegister "alice" "pw1") (fresh_world 0)) = None /\
  open_conns (app_run no_db (ClickRegister "alice" "pw1") (fresh_world 0)) = 0.
Proof. apply (connection_refused_page no_db). reflexivity. Defined.

End Sessions.
