(* ===== verification/ServerRel.v ===== *)
(** * Relations on the server that a whole interaction keeps

    Each data-access function of app.py changes the server only through
    the one statement it executes; everything else it does (connecting,
    fetching, closing, showing messages, the session) leaves the server
    as it is.  So a preorder [Rs] on servers that every statement app.py
    issues keeps ([Hexec]) is kept by every data-access function, by
    [main], by one script run and by a whole interaction [app_run].  The
    lemmas of this file are proved once, for any such [Rs]; the theorems
    of Session.v and MultiSession.v instantiate them. *)

From S2P Require Import Prelude MySQL Integrity Connector Schema Users Complaints App.

Section ServerRel.
Context (cfg : Config) `{Collation}.
Context (Rs : Server -> Server -> Prop) `{!PreOrder Rs}.
Hypothesis Hexec : forall s st, app_stmt st -> Rs s (snd (exec cfg s st)).

(** [Rs] read on the server of two worlds. *)
Definition on_srv (w w' : World) : Prop := Rs (srv w) (srv w').

#[export] Instance on_srv_preorder : PreOrder on_srv.
Proof.
  split; [intros w; unfold on_srv; reflexivity|].
  intros w1 w2 w3; unfold on_srv. apply transitivity.
Qed.

Lemma on_srv_frame : frame_rel on_srv.
Proof. intros w w' Hs _ _. unfold on_srv. rewrite Hs. reflexivity. Qed.

Lemma on_srv_modify (f : World -> World) :
  (forall w, srv (f w) = srv w) -> preserves (E:=Exn) on_srv (modify f).
Proof. intros Hf. apply preserves_modify. intros w. unfold on_srv. rewrite Hf. reflexivity. Qed.

Lemma cursor_execute_on_srv st : app_stmt st -> preserves on_srv (cursor_execute cfg st).
Proof.
  intros Hst. apply (cursor_execute_frame _ on_srv_frame). intros w w' Hs _ _.
  unfold on_srv. rewrite Hs. by apply Hexec.
Qed.

#[local] Hint Resolve on_srv_frame : py.

(** Decompose a data-access function down to its one statement. *)
Ltac on_srv_tac :=
  repeat effects_step;
  first [ apply cursor_execute_on_srv; simpl; done
        | apply on_srv_modify; intros; done
        | eauto with py typeclass_instances ].

Lemma init_db_on_srv : preserves on_srv (init_db cfg).
Proof. unfold init_db. on_srv_tac. Qed.

Lemma register_user_on_srv u p : preserves on_srv (register_user cfg u p).
Proof. unfold register_user. on_srv_tac. Qed.

Lemma login_user_on_srv u p : preserves on_srv (login_user cfg u p).
Proof. unfold login_user. on_srv_tac. Qed.

Lemma submit_complaint_on_srv uid d : preserves on_srv (submit_complaint cfg uid d).
Proof. unfold submit_complaint. on_srv_tac. Qed.

Lemma get_user_complaints_on_srv uid : preserves on_srv (get_user_complaints cfg uid).
Proof. unfold get_user_complaints. on_srv_tac. Qed.

Lemma update_complaint_status_on_srv cid r :
  preserves on_srv (update_complaint_status cfg cid r).
Proof. unfold update_complaint_status. on_srv_tac. Qed.

#[local] Hint Resolve init_db_on_srv register_user_on_srv login_user_on_srv
  submit_complaint_on_srv get_user_complaints_on_srv update_complaint_status_on_srv : py.

Lemma main_on_srv a : preserves on_srv (main cfg a).
Proof.
  unfold main, init_session, login_tab, register_tab, logout_button, submit_tab,
    view_tab, update_tab.
  repeat effects_step;
    first [ apply on_srv_modify; intros w0; try destruct (session_user w0); done
          | eauto with py typeclass_instances ].
Qed.

Lemma script_run_on_srv a : preserves on_srv (script_run cfg a).
Proof.
  unfold script_run. apply (preserves_bind on_srv); [|intros _; apply main_on_srv].
  by apply on_srv_modify.
Qed.

Lemma show_outcome_srv r : srv (show_outcome r) = srv (snd r).
Proof. by destruct r as [[]]. Qed.

(** A whole interaction keeps [Rs]: both runs of it do. *)
Lemma app_run_on_srv a w : Rs (srv w) (srv (app_run cfg a w)).
Proof.
  unfold app_run. destruct (script_run cfg a w) as [o w1] eqn:E1.
  assert (K1 : Rs (srv w) (srv w1)) by (eapply script_run_on_srv; exact E1).
  destruct o as [[]|[]]; rewrite ?show_outcome_srv; try exact K1.
  destruct (script_run cfg NoAction w1) as [o2 w2] eqn:E2. cbn [snd].
  transitivity (srv w1); [exact K1|]. eapply script_run_on_srv; exact E2.
Qed.
End ServerRel.
