(* ===== verification/Output.v ===== *)
(** * What a page shows: the output of an interaction

    [out_ext P] says that the output only grows, by messages satisfying
    [P].  [main_out] shows that a run emits no message a user must not see
    except in a block that ends in [st.rerun()], and [app_run_out] that
    what an interaction leaves on the page never holds such a message.
    The claim [rerun_messages_lost]: a [RerunException] is never shown,
    and the success messages of login and of a status update are never
    seen. *)

From S2P Require Import Prelude MySQL Integrity Connector Schema Users Complaints App.

(** ** The output of a run *)

(** The messages a user must never see: those app.py emits just before
    [st.rerun()], and a [RerunException] shown as an error. *)
Definition lost_msg_b (m : Msg) : bool :=
  match m with
  | StSuccess t => bool_decide (t = "Successfully logged in!") ||
                   bool_decide (t = "Complaint status updated successfully!")
  | StException RerunException => true
  | _ => false
  end.

Definition kept_msg (m : Msg) : Prop := lost_msg_b m = false.

(** The output only grows, by messages satisfying [P]. *)
Definition out_ext (P : Msg -> Prop) (w w' : World) : Prop :=
  exists l, out w' = out w ++ l /\ Forall P l.

#[export] Instance out_ext_preorder P : PreOrder (out_ext P).
Proof.
  split; [intros w; exists []; by rewrite app_nil_r|].
  intros w1 w2 w3 (l1 & E1 & F1) (l2 & E2 & F2). exists (l1 ++ l2).
  rewrite E2, E1, app_assoc. split; [done|by apply Forall_app].
Qed.

Lemma out_ext_of_out P w w' : out w' = out w -> out_ext P w w'.
Proof. intros E. exists []. by rewrite E, app_nil_r. Qed.

Lemma out_ext_frame P : frame_rel (out_ext P).
Proof. intros w w' _ _. apply out_ext_of_out. Qed.

Lemma out_ext_emit P m w : P m -> out_ext P w (set_out (out w ++ [m]) w).
Proof. intros Hm. exists [m]. split; [done|by constructor]. Qed.

Lemma out_ext_session P u w : out_ext P w (set_session u w).
Proof. by apply out_ext_of_out. Qed.

Lemma cursor_execute_out P cfg `{Collation} st : preserves (out_ext P) (cursor_execute cfg st).
Proof. apply (cursor_execute_frame _ (out_ext_frame P)). intros. by apply out_ext_of_out. Qed.

#[export] Hint Resolve out_ext_frame out_ext_emit out_ext_session cursor_execute_out : py.
#[export] Hint Extern 1 (kept_msg _) => (unfold kept_msg; reflexivity) : py.
#[export] Hint Extern 1 (preserves _ (modify _)) => (apply preserves_modify; intros ?) : py.

Section Output.
Context (cfg : Config) `{Collation}.

Lemma init_db_out : preserves (out_ext kept_msg) (init_db cfg).
Proof. unfold init_db. repeat effects_step; eauto with py typeclass_instances. Qed.

Lemma register_user_out u p : preserves (out_ext kept_msg) (register_user cfg u p).
Proof. unfold register_user. repeat effects_step; eauto with py typeclass_instances. Qed.

Lemma login_user_out u p : preserves (out_ext kept_msg) (login_user cfg u p).
Proof. unfold login_user. repeat effects_step; eauto with py typeclass_instances. Qed.

Lemma submit_complaint_out uid d : preserves (out_ext kept_msg) (submit_complaint cfg uid d).
Proof. unfold submit_complaint. repeat effects_step; eauto with py typeclass_instances. Qed.

Lemma get_user_complaints_out uid : preserves (out_ext kept_msg) (get_user_complaints cfg uid).
Proof. unfold get_user_complaints. repeat effects_step; eauto with py typeclass_instances. Qed.

Lemma update_complaint_status_out cid r :
  preserves (out_ext kept_msg) (update_complaint_status cfg cid r).
Proof. unfold update_complaint_status. repeat effects_step; eauto with py typeclass_instances. Qed.

Lemma init_session_out : preserves (out_ext kept_msg) init_session.
Proof. apply preserves_modify. intros w. apply out_ext_of_out. by destruct (session_user w). Qed.
End Output.

#[export] Hint Resolve init_db_out register_user_out login_user_out submit_complaint_out
  get_user_complaints_out update_complaint_status_out init_session_out : py.


Lemma init_session_raises_only X : raises_only X init_session.
Proof. apply raises_only_modify. Qed.

#[export] Hint Resolve init_session_raises_only : py.

Lemma main_out cfg `{Collation} a :
  preserves_unless (eq RerunException) (out_ext kept_msg) (main cfg a).
Proof.
  unfold main, login_tab, register_tab, logout_button, submit_tab, view_tab, update_tab.
  repeat unless_step; eauto with py typeclass_instances.
Qed.

(** The run that [st.rerun()] starts has no click, so it never calls
    [st.rerun()] again. *)
Lemma script_run_NoAction_not_rerun cfg `{Collation} :
  raises_only not_rerun (script_run cfg NoAction).
Proof.
  unfold script_run, main, login_tab, register_tab, logout_button, submit_tab,
    view_tab, update_tab.
  not_rerun_tac.
Qed.

Section AppOutput.
Context (cfg : Config) `{Collation}.

Lemma script_run_out a w o w' :
  script_run cfg a w = (o, w') -> o <> Exc RerunException -> Forall kept_msg (out w').
Proof.
  unfold script_run, bind, modify. intros Hrun Ho.
  destruct (main_out cfg a _ _ _ Hrun) as [(e & -> & <-)|(l & El & Hl)]; [done|].
  by rewrite El.
Qed.

Lemma show_outcome_out o w :
  Forall kept_msg (out w) -> o <> Exc RerunException ->
  Forall kept_msg (out (show_outcome (o, w))).
Proof.
  intros Hw Ho. destruct o as [[]|e]; [done|]. simpl. apply Forall_app_single.
  split; [done|]. destruct e; done.
Qed.

(** Everything a user interaction leaves on the page is a [kept_msg]. *)
Lemma app_run_out a w : Forall kept_msg (out (app_run cfg a w)).
Proof.
  unfold app_run. destruct (script_run cfg a w) as [o w1] eqn:E.
  assert (Hgen : forall a' w0 o' w', script_run cfg a' w0 = (o', w') ->
            o' <> Exc RerunException -> Forall kept_msg (out (show_outcome (o', w')))).
  { intros a' w0 o' w' Hr Ho. apply show_outcome_out; [by eapply script_run_out|done]. }
  destruct o as [[]|[e| | |]]; try by eapply Hgen.
  destruct (script_run cfg NoAction w1) as [o2 w2] eqn:E2. eapply Hgen; [exact E2|].
  intros ->. by eapply (script_run_NoAction_not_rerun cfg).
Qed.

Lemma kept_msg_not_in m l : lost_msg_b m = true -> Forall kept_msg l -> m ∉ l.
Proof. intros Hm Hl Hin. rewrite Forall_forall in Hl. unfold kept_msg in Hl. by rewrite Hl in Hm. Qed.
End AppOutput.

(** C26: the messages [lost_msg_b] names are never on the page an
    interaction leaves.  The success messages of login (app.py 152) and of
    a status update (app.py 202) are each followed by [st.rerun()], and
    the new run starts with an empty page; and [st.rerun()] is never shown
    as an error: the run it starts has no click and never reruns again, so
    an interaction is at most two script runs and its page never shows a
    [RerunException]. *)
Theorem rerun_messages_lost cfg `{Collation} a w m :
  lost_msg_b m = true -> m ∉ out (app_run cfg a w).
Proof. intros Hm. apply kept_msg_not_in; [done|apply app_run_out]. Qed.

(** ** The rerun loop of Streamlit *)

Section RerunLoop.
Context (cfg : Config) `{Collation}.

(** The script runner of Streamlit: it runs the script for the user's
    event, and while a run ends in [st.rerun()] it starts a new run with
    no event.  [fuel] bounds the number of runs; [None] when it runs
    out. *)
Fixpoint rerun_loop (fuel : nat) (a : Action) (w : World) : option World :=
  match fuel with
  | O => None
  | S n =>
      match script_run cfg a w with
      | (Exc RerunException, w1) => rerun_loop n NoAction w1
      | r => Some (show_outcome r)
      end
  end.

(** A run with no event gives its page at once. *)
Lemma rerun_loop_NoAction n w :
  rerun_loop (S n) NoAction w = Some (show_outcome (script_run cfg NoAction w)).
Proof.
  simpl. destruct (script_run cfg NoAction w) as [o w1] eqn:E.
  destruct o as [[]|[]]; try reflexivity.
  exfalso. by apply (script_run_NoAction_not_rerun cfg w RerunException w1 E).
Qed.
End RerunLoop.

(** C17: the rerun loop stops: with fuel for two runs or more, Streamlit's
    loop returns, and its page is [app_run]'s.  The first run may end in
    [st.rerun()] (after a login, a logout or a status update), but the run
    it starts has no event and never calls [st.rerun()]: no interaction
    makes the page rerun forever, and [app_run] models an interaction
    faithfully with at most two runs. *)
Theorem rerun_loop_terminates cfg `{Collation} n a w :
  (2 <= n)%nat -> rerun_loop cfg n a w = Some (app_run cfg a w).
Proof.
  intros Hn. destruct n as [|[|n]]; [lia|lia|]. simpl. unfold app_run.
  destruct (script_run cfg a w) as [[[]|[]] w1]; try reflexivity.
  apply rerun_loop_NoAction.
Qed.

Section OutputWitness.
#[local] Existing Instance binary_collation.

(** Alice's login: its success message is gone from the page. *)
Lemma rerun_messages_lost_witness :
  StSuccess "Successfully logged in!" ∉ out (app_run ci_strict (ClickLogin "alice" "pw1") UI1).
Proof. apply rerun_messages_lost. vm_compute. reflexivity. Defined.
(** Alice logs in: the login reruns the script, and the loop stops after
    the second run. *)
Lemma rerun_loop_terminates_witness :
  rerun_loop ci_strict 2 (ClickLogin "alice" "pw1") UI1 =
    Some (app_run ci_strict (ClickLogin "alice" "pw1") UI1).
Proof. apply rerun_loop_terminates. lia. Defined.
End OutputWitness.
