(* ===== verification/Isolation.v ===== *)
(** * Isolation: through the page a user changes only their own complaints

    [update_complaint_status] checks no owner.  The page only offers the
    ids of the logged-in user's listing in its select box, so a run keeps
    every complaint of any other user ([keeps_for]).  [upd_rel] is the
    relation a run keeps while one user is logged in; [db_grows] the one
    a run without a click on [Update Status] keeps. *)

From S2P Require Import Prelude MySQL Integrity Connector Schema Users Complaints App.

(** ** Isolation: the page only updates the user's own complaints *)

Lemma selectbox_in options choice : options <> [] -> selectbox options choice ∈ options.
Proof.
  unfold selectbox. intros Hne. destruct (nth_error options choice) eqn:E.
  - apply list_elem_of_In. by eapply nth_error_In.
  - destruct options; [done|constructor].
Qed.

(** The complaints a run may change while [ou] is logged in: with a user,
    only that user's; with nobody, none. *)
Definition keeps_for (ou : option Z) (s s' : Server) : Prop :=
  match ou with Some u => srv_keeps_others u s s' | None => srv_grows s s' end.

#[export] Instance keeps_for_preorder ou : PreOrder (keeps_for ou).
Proof. destruct ou; simpl; apply _. Qed.

Lemma keeps_for_of_grows ou s s' : srv_grows s s' -> keeps_for ou s s'.
Proof. destruct ou; [apply srv_grows_keeps_others|done]. Qed.

Lemma keeps_for_wf ou s s' : keeps_for ou s s' -> wf_server s -> wf_server s'.
Proof. destruct ou; intros [Hw _]; exact Hw. Qed.

Lemma keeps_for_elem ou s s' c :
  keeps_for ou s s' -> c ∈ complaints_rows s -> ou <> Some (c_user_id c) ->
  c ∈ complaints_rows s'.
Proof.
  destruct ou as [u|]; simpl; intros (_ & _ & K) Hc Hne; [|by apply K].
  apply K; [done|]. intros E. apply Hne. by rewrite E.
Qed.

(** While [ou] is logged in and the invariant holds, the session stays
    and the complaints change only as [keeps_for ou] allows. *)
Definition upd_rel (ou : option Z) (w w' : World) : Prop :=
  current_user w = ou -> wf_server (srv w) ->
  keeps_for ou (srv w) (srv w') /\ current_user w' = current_user w.

#[export] Instance upd_rel_preorder ou : PreOrder (upd_rel ou).
Proof.
  split; [intros w _ _; split; reflexivity|].
  intros w1 w2 w3 H12 H23 Hc Hwf. destruct (H12 Hc Hwf) as [K12 S12].
  destruct (H23) as [K23 S23].
  - by rewrite S12.
  - by eapply keeps_for_wf.
  - split; [by transitivity (srv w2)|congruence].
Qed.

Lemma upd_rel_of_db_call ou w w' : db_call w w' -> upd_rel ou w w'.
Proof.
  intros [G S] _ _. split; [by apply keeps_for_of_grows|]. unfold current_user. by rewrite S.
Qed.

Lemma others_upd u w w' :
  db_call_others u w w' -> keeps_for (Some u) (srv w) (srv w') /\ current_user w' = current_user w.
Proof. intros [K S]. split; [exact K|]. unfold current_user. by rewrite S. Qed.

Lemma upd_rel_db_call {A} ou (m : PyW A) : preserves db_call m -> preserves (upd_rel ou) m.
Proof. apply preserves_impl, upd_rel_of_db_call. Qed.

Lemma upd_rel_frame ou : frame_rel (upd_rel ou).
Proof. intros w w' ? ? ?. apply upd_rel_of_db_call. by apply db_call_frame. Qed.

Lemma upd_rel_emit ou m w : upd_rel ou w (set_out (out w ++ [m]) w).
Proof. apply upd_rel_of_db_call, db_call_emit. Qed.

Lemma db_call_others_emit u m w : db_call_others u w (set_out (out w ++ [m]) w).
Proof. apply db_call_others_of, db_call_emit. Qed.

(** The tables only grow; the session may change. *)
Definition db_grows (w w' : World) : Prop := srv_grows (srv w) (srv w').

#[export] Instance db_grows_preorder : PreOrder db_grows.
Proof. split; [intros w; red; reflexivity|intros w1 w2 w3 ? ?; red; by transitivity (srv w2)]. Qed.

Lemma db_grows_of_db_call w w' : db_call w w' -> db_grows w w'.
Proof. by intros [G _]. Qed.

Lemma db_grows_db_call {A} (m : PyW A) : preserves db_call m -> preserves db_grows m.
Proof. apply preserves_impl, db_grows_of_db_call. Qed.

Lemma db_grows_modify (f : World -> World) :
  (forall w, srv (f w) = srv w) -> preserves (E:=Exn) db_grows (modify f).
Proof. intros Hf. apply preserves_modify. intros w. red. rewrite Hf. reflexivity. Qed.

#[export] Hint Resolve upd_rel_frame upd_rel_emit : py.

Section Isolation.
Context (cfg : Config) `{Collation}.

(** The [Update Status] block (app.py 194-205): the id comes from the
    select box over the user's own listing. *)
Lemma update_tab_keeps u a : preserves (upd_rel (Some u)) (update_tab cfg u a).
Proof.
  intros w o w' Hrun Hc Hwf. apply others_upd. unfold update_tab, bind in Hrun.
  destruct (get_user_complaints cfg u w) as [[rows|e] w1] eqn:E1.
  2: { injection Hrun as _ <-. apply db_call_others_of. by eapply get_user_complaints_db_call. }
  destruct (get_user_complaints_rows cfg u w rows w1 E1) as (-> & Hs1 & Hu1).
  assert (D1 : db_call_others u w w1) by (split; [rewrite Hs1; reflexivity|done]).
  destruct (user_complaints (srv w) u) as [|r0 rs] eqn:Er.
  { injection Hrun as _ <-. transitivity w1; [done|apply db_call_others_emit]. }
  destruct a as [| | | | |choice res]; try (injection Hrun as _ <-; exact D1).
  cbv zeta in Hrun.
  set (cid := selectbox (map row_first (r0 :: rs)) choice) in Hrun.
  assert (Hown : owned_by (srv w1) u cid).
  { rewrite Hs1. apply user_complaints_owned. rewrite Er. by apply selectbox_in. }
  destruct (update_complaint_status cfg cid res w1) as [[ok|e] w2] eqn:E2.
  all: assert (D2 : db_call_others u w1 w2)
         by (eapply update_complaint_status_others; [exact E2|by rewrite Hs1|exact Hown]).
  - destruct ok; injection Hrun as _ <-; (transitivity w2; [by transitivity w1|]);
      [apply db_call_others_emit|reflexivity].
  - injection Hrun as _ <-. by transitivity w1.
Qed.

(** The logged-in part of the page (app.py 174-205). *)
Lemma logged_in_keeps u a :
  preserves (upd_rel (Some u))
    (let* _ := submit_tab cfg u a in let* _ := view_tab cfg u in update_tab cfg u a).
Proof.
  unfold submit_tab, view_tab. repeat effects_step;
    eauto using update_tab_keeps, upd_rel_db_call, submit_complaint_db_call,
      get_user_complaints_db_call with py typeclass_instances.
Qed.

Lemma init_session_keeps ou : preserves (upd_rel ou) init_session.
Proof.
  apply preserves_modify. intros w Hc _.
  destruct (session_user w) as [x|] eqn:E; (split; [reflexivity|]); [done|].
  unfold current_user. by rewrite E.
Qed.

(** A run for a click on [Update Status]: login, registration and logout
    do nothing, and the update only reaches the user's own complaints. *)
Lemma main_update_keeps ou choice res :
  preserves (upd_rel ou) (main cfg (ClickUpdate choice res)).
Proof.
  unfold main.
  apply (preserves_bind (upd_rel ou)); [apply upd_rel_db_call, init_db_db_call|intros _].
  apply (preserves_bind (upd_rel ou)); [apply init_session_keeps|intros _].
  unfold login_tab, register_tab, logout_button.
  do 3 (apply (preserves_bind (upd_rel ou)); [repeat effects_step|intros _]).
  apply preserves_bind_gets. intros w o w' Hrun.
  destruct (current_user w) as [uid|] eqn:Hc.
  - destruct (decide (Some uid = ou)) as [<-|Hne]; [|intros Hc'; congruence].
    eapply logged_in_keeps; exact Hrun.
  - injection Hrun as _ <-. apply upd_rel_emit.
Qed.

(** A run without a click on [Update Status] runs no UPDATE. *)
Lemma main_grows a : (forall choice res, a <> ClickUpdate choice res) ->
  preserves db_grows (main cfg a).
Proof.
  intros Ha. unfold main, login_tab, register_tab, logout_button, submit_tab,
    view_tab, update_tab.
  repeat effects_step;
    try (exfalso; by eapply Ha);
    try (apply db_grows_modify; intros; done);
    eauto using db_grows_db_call, init_db_db_call, login_user_db_call,
      register_user_db_call, submit_complaint_db_call, get_user_complaints_db_call,
      db_grows_of_db_call with py typeclass_instances.
  unfold init_session. apply db_grows_modify. intros w. by destruct (session_user w).
Qed.

Lemma script_run_grows a : (forall choice res, a <> ClickUpdate choice res) ->
  preserves db_grows (script_run cfg a).
Proof.
  intros Ha. unfold script_run.
  apply (preserves_bind db_grows); [by apply db_grows_modify|intros _; by apply main_grows].
Qed.

Lemma script_run_update_keeps ou choice res :
  preserves (upd_rel ou) (script_run cfg (ClickUpdate choice res)).
Proof.
  unfold script_run. apply (preserves_bind (upd_rel ou)); [|intros _; apply main_update_keeps].
  apply preserves_modify. intros w. apply upd_rel_of_db_call. split; [reflexivity|done].
Qed.

(** One user interaction keeps every complaint the logged-in user may not
    touch. *)
Lemma app_run_keeps a w :
  wf_server (srv w) -> keeps_for (current_user w) (srv w) (srv (app_run cfg a w)).
Proof.
  intros Hwf. unfold app_run.
  destruct (script_run cfg a w) as [o w1] eqn:E1.
  assert (K1 : keeps_for (current_user w) (srv w) (srv w1)).
  { destruct a as [|u p|u p| |t|ch r];
      try (apply keeps_for_of_grows;
           refine (script_run_grows _ _ _ _ _ E1); solve [intros ? ? [=]]).
    by destruct (script_run_update_keeps (current_user w) ch r w o w1 E1 eq_refl Hwf). }
  assert (Hnext : forall o2 w2, script_run cfg NoAction w1 = (o2, w2) ->
            keeps_for (current_user w) (srv w) (srv w2)).
  { intros o2 w2 E2. transitivity (srv w1); [done|].
    apply keeps_for_of_grows. refine (script_run_grows _ _ _ _ _ E2). by intros ? ? [=]. }
  destruct o as [[]|[]]; cbn [show_outcome set_out srv]; try exact K1.
  destruct (script_run cfg NoAction w1) as [[]] eqn:E2; cbn [show_outcome set_out srv];
    by eapply Hnext.
Qed.
End Isolation.

(** C7: through the page, a user changes only their own complaints.
    [update_complaint_status] itself checks no owner, but the select box
    offers only the ids of the logged-in user's listing, and a login
    reruns the script before anything else.  So any interaction relates
    the server before and after by [keeps_for] for the user logged in at
    its start: [wf_server] is kept, no USERS row disappears, and every
    complaint row of any other user is still there, unchanged; with nobody
    logged in, no row of either table changes or disappears.  Ids are
    unique by [wf_server]. *)
Theorem ui_update_isolation cfg `{Collation} a w :
  wf_server (srv w) -> keeps_for (current_user w) (srv w) (srv (app_run cfg a w)).
Proof. apply app_run_keeps. Qed.

Section IsolationWitness.
#[local] Existing Instance binary_collation.

(** Bob resolves his complaint; Alice's is still there, unchanged. *)
Lemma ui_update_isolation_witness :
  C1row ∈ complaints_rows (srv (app_run ci_strict (ClickUpdate 0 "fixed") UI_bob)).
Proof.
  apply (keeps_for_elem (current_user UI_bob) (srv UI_bob)).
  - apply ui_update_isolation. apply (bool_decide_eq_true_1 _). vm_compute. reflexivity.
  - apply (bool_decide_eq_true_1 _). vm_compute. reflexivity.
  - vm_compute. congruence.
Defined.

End IsolationWitness.
