(* ===== verification/Session.v ===== *)
(** * The session: its invariant, and a server it can never use

    [app_step] is the session as a step relation: a run for some action,
    or time passing on the server; [reachable_from] its reachable states.
    [session_ok] holds in every state a session reaches ([session_invariant]):
    the server satisfies [wf_server], and the logged-in user is a row of
    USERS.  On a server with case-sensitive table names and no COMPLAINTS
    table, every interaction stops in [init_db], and the session never
    becomes usable ([case_sensitive_session_stuck]).  Once the USERS
    counter has passed [INT_MAX], no user is ever stored again
    ([users_counter_exhausted]). *)

From S2P Require Import Prelude MySQL Integrity Connector Schema Users Complaints App ServerRel.

(** ** The session as a step relation *)

(** Time passes on the server between interactions. *)
Definition tick (dt : Z) (w : World) : World :=
  let s := srv w in
  set_srv (mk_server (catalog s) (users_rows s) (complaints_rows s) (users_ai s)
                     (complaints_ai s) (clock s + dt) (reachable s)) w.

(** The session: interactions and time. *)
Inductive app_step (cfg : Config) `{Collation} : World -> World -> Prop :=
| step_run a w : app_step cfg w (app_run cfg a w)
| step_tick dt w : (0 <= dt)%Z -> app_step cfg w (tick dt w).

Inductive reachable_from (cfg : Config) `{Collation} (w0 : World) : World -> Prop :=
| reach_start : reachable_from cfg w0 w0
| reach_step w w' : reachable_from cfg w0 w -> app_step cfg w w' ->
                    reachable_from cfg w0 w'.

(** ** The session invariant *)

(** The server satisfies [wf_server], and the logged-in user, if any, is
    a row of USERS. *)
Definition session_ok (w : World) : Prop :=
  wf_server (srv w) /\
  forall uid, current_user w = Some uid -> exists x, x ∈ users_rows (srv w) /\ u_id x = uid.

Definition ok_rel (w w' : World) : Prop := session_ok w -> session_ok w'.

#[export] Instance ok_rel_preorder : PreOrder ok_rel.
Proof. split; [intros w Hw; exact Hw|intros w1 w2 w3 H12 H23 H1; auto]. Qed.

(** A step that keeps the invariant, every user row and the user. *)
Lemma ok_rel_kept w w' :
  (wf_server (srv w) -> wf_server (srv w')) ->
  (forall u, u ∈ users_rows (srv w) -> u ∈ users_rows (srv w')) ->
  current_user w' = current_user w -> ok_rel w w'.
Proof.
  intros Hw Hu Hc [Hwf Hs]. split; [by apply Hw|]. intros uid Huid.
  rewrite Hc in Huid. destruct (Hs uid Huid) as (x & Hx & Hid). exists x. auto.
Qed.

Lemma ok_rel_of_db_call w w' : db_call w w' -> ok_rel w w'.
Proof.
  intros [(Hw & Hu & _) Hs]. apply ok_rel_kept; [done|done|]. unfold current_user. by rewrite Hs.
Qed.

Lemma ok_rel_db_call {A} (m : PyW A) : preserves db_call m -> preserves ok_rel m.
Proof. apply preserves_impl, ok_rel_of_db_call. Qed.

Lemma ok_rel_frame : frame_rel ok_rel.
Proof. intros w w' ? ? ?. apply ok_rel_of_db_call. by apply db_call_frame. Qed.

Lemma ok_rel_emit m w : ok_rel w (set_out (out w ++ [m]) w).
Proof. apply ok_rel_of_db_call, db_call_emit. Qed.

Lemma ok_rel_logout w : ok_rel w (set_session (Some None) w).
Proof. intros [Hwf _]. split; [done|]. by intros uid [=]. Qed.

Lemma ok_rel_init_session : preserves ok_rel init_session.
Proof.
  apply preserves_modify. intros w. destruct (session_user w) eqn:E; [done|].
  apply ok_rel_logout.
Qed.

Lemma cursor_execute_ok cfg `{Collation} st :
  app_stmt st -> preserves ok_rel (cursor_execute cfg st).
Proof.
  intros Hst. apply (cursor_execute_frame _ ok_rel_frame). intros w w' Hs Hu _.
  destruct (exec_users_kept cfg (srv w) st Hst) as [Hw Hus].
  apply ok_rel_kept; rewrite ?Hs; [done|done|]. unfold current_user. by rewrite Hu.
Qed.

#[export] Hint Resolve ok_rel_frame ok_rel_emit ok_rel_init_session : py.

Section SessionOk.
Context (cfg : Config) `{Collation}.

Lemma update_complaint_status_ok cid r : preserves ok_rel (update_complaint_status cfg cid r).
Proof.
  unfold update_complaint_status.
  repeat effects_step; first [apply cursor_execute_ok; done | eauto with py typeclass_instances].
Qed.

(** The login form: the id stored in the session is one [login_user]
    returned, the id of a row of USERS. *)
Lemma login_tab_ok a : preserves ok_rel (login_tab cfg a).
Proof.
  unfold login_tab. apply (preserves_bind ok_rel); [apply (preserves_gets ok_rel)|].
  intros [u0|]; [apply (preserves_ret ok_rel)|].
  destruct a as [|name pw| | | |]; try apply (preserves_ret ok_rel).
  intros w o w' Hrun. unfold bind in Hrun.
  assert (Hdb := login_user_db_call cfg name pw w).
  destruct (login_user cfg name pw w) as [[uid|e] w1] eqn:E;
    [|injection Hrun as _ <-; by apply ok_rel_of_db_call, (Hdb (Exc e))].
  specialize (Hdb _ _ eq_refl).
  destruct (py_opt_int_truthy uid).
  - injection Hrun as _ <-. intros Hok. destruct (ok_rel_of_db_call _ _ Hdb Hok) as [Hwf1 _].
    split; [exact Hwf1|]. intros z Hz. unfold current_user in Hz. simpl in Hz. subst uid.
    destruct (login_user_returns_user cfg name pw w w1 z E) as (x & Hx & Hid).
    exists x. split; [|done]. destruct Hdb as [(_ & Hu & _) _]. by apply Hu.
  - injection Hrun as _ <-. transitivity w1; [by apply ok_rel_of_db_call|apply ok_rel_emit].
Qed.

Lemma main_ok a : preserves ok_rel (main cfg a).
Proof.
  unfold main. apply (preserves_bind ok_rel); [apply ok_rel_db_call, init_db_db_call|intros _].
  apply (preserves_bind ok_rel); [apply ok_rel_init_session|intros _].
  apply (preserves_bind ok_rel); [apply login_tab_ok|intros _].
  unfold register_tab, logout_button, submit_tab, view_tab, update_tab.
  repeat effects_step;
    eauto using ok_rel_db_call, register_user_db_call, submit_complaint_db_call,
      get_user_complaints_db_call, update_complaint_status_ok with py typeclass_instances.
  apply preserves_modify, ok_rel_logout.
Qed.

Lemma script_run_ok a : preserves ok_rel (script_run cfg a).
Proof.
  unfold script_run. apply (preserves_bind ok_rel); [|intros _; apply main_ok].
  apply preserves_modify. intros w. apply ok_rel_of_db_call. split; [reflexivity|done].
Qed.

Lemma show_outcome_ok r w : ok_rel w (snd r) -> ok_rel w (show_outcome r).
Proof.
  destruct r as [[[]|e] w1]; [done|]. intros H1. simpl. transitivity w1; [done|apply ok_rel_emit].
Qed.

Lemma app_run_ok a w : ok_rel w (app_run cfg a w).
Proof.
  unfold app_run. destruct (script_run cfg a w) as [o w1] eqn:E1.
  assert (K1 : ok_rel w w1) by (eapply script_run_ok; exact E1).
  destruct o as [[]|[]]; try (apply show_outcome_ok; exact K1).
  destruct (script_run cfg NoAction w1) as [o2 w2] eqn:E2.
  apply show_outcome_ok. transitivity w1; [done|]. eapply script_run_ok; exact E2.
Qed.
End SessionOk.

Lemma tick_ok dt w : (0 <= dt)%Z -> ok_rel w (tick dt w).
Proof.
  intros Hdt [[Hids Hai Hw Hcids Hcai Hrw Hfk Hlc Hclk] Hs]. split; [|exact Hs].
  constructor; try done. simpl. eapply Forall_impl; [exact Hclk|].
  intros c [Hc Hr]. split; [lia|]. intros t Ht. specialize (Hr t Ht). lia.
Qed.

(** C8: along a whole session, [wf_server] holds and the logged-in user
    is a row of USERS, whatever the user clicks and however time passes:
    every state reachable from one that satisfies [session_ok] does. *)
Theorem session_invariant cfg `{Collation} w0 w :
  reachable_from cfg w0 w -> session_ok w0 -> session_ok w.
Proof.
  induction 1 as [|w w' _ IH Hstep]; [done|]. intros H0.
  destruct Hstep as [a w|dt w Hdt]; [apply app_run_ok|apply tick_ok]; auto.
Qed.

(** ** A server with case-sensitive table names *)

(** C6: on such a server the application never becomes usable: in every
    state of the session, COMPLAINTS is still missing, no user and no
    complaint has been stored, and nobody is logged in who was not
    before. *)
Theorem case_sensitive_session_stuck cfg `{Collation} w0 w :
  lower_case_table_names cfg = false -> connects cfg (srv w0) = true ->
  has_table (catalog (srv w0)) T_COMPLAINTS = false ->
  reachable_from cfg w0 w ->
  has_table (catalog (srv w)) T_COMPLAINTS = false /\ connects cfg (srv w) = true /\
  users_rows (srv w) = users_rows (srv w0) /\
  complaints_rows (srv w) = complaints_rows (srv w0) /\
  current_user w = current_user w0.
Proof.
  intros Hcs Hr0 Hc0. induction 1 as [|w w' _ IH Hstep]; [done|].
  destruct IH as (Hc & Hr & Hu & Hcm & Hs).
  destruct Hstep as [a w|dt w Hdt]; [|done].
  rewrite app_run_fk by done. simpl. split_and!; try done.
  by rewrite ensure_table_other.
Qed.


(** ** The AUTO_INCREMENT counter of USERS at the INT bound *)

(** Once the counter has passed [INT_MAX], USERS and its counter stay as
    they are. *)
Definition users_frozen (s s' : Server) : Prop :=
  (INT_MAX < users_ai s)%Z -> users_rows s' = users_rows s /\ users_ai s' = users_ai s.

#[export] Instance users_frozen_preorder : PreOrder users_frozen.
Proof.
  split; [by intros s _|].
  intros s1 s2 s3 H12 H23 Hai. destruct (H12 Hai) as [R12 A12].
  destruct H23 as [R23 A23]; [by rewrite A12|]. split; congruence.
Qed.

(** No statement adds a user once [alloc_id] refuses the next id. *)
Lemma exec_users_frozen cfg `{Collation} s st : users_frozen s (snd (exec cfg s st)).
Proof.
  intros Hai. destruct st; simpl;
    unfold create_users_table, create_complaints_table, sql_insert_user,
      sql_select_user_id, sql_insert_complaint, sql_select_complaints,
      sql_update_complaint;
    rewrite ?alloc_id_exhausted by exact Hai; repeat case_match; done.
Qed.

Lemma tick_users_frozen dt w : users_frozen (srv w) (srv (tick dt w)).
Proof. by intros _. Qed.

(** C19: registration has a bound: once the AUTO_INCREMENT counter of
    USERS has passed [INT_MAX] (the largest value of its INT column), no
    user is ever stored again.  Every later interaction, whatever the user
    clicks, and the passing of time leave USERS as it was: each INSERT is
    refused, and [register_user] reports it as "Registration failed". *)
Theorem users_counter_exhausted cfg `{Collation} w0 w :
  (INT_MAX < users_ai (srv w0))%Z -> reachable_from cfg w0 w ->
  users_rows (srv w) = users_rows (srv w0).
Proof.
  intros Hai Hreach.
  assert (K : users_frozen (srv w0) (srv w)); [|by destruct (K Hai)].
  induction Hreach as [|w w' _ IH Hstep]; [reflexivity|].
  transitivity (srv w); [exact IH|].
  destruct Hstep as [a w|dt w Hdt]; [|apply tick_users_frozen].
  apply (app_run_on_srv cfg users_frozen). intros s st _. apply exec_users_frozen.
Qed.

Section SessionWitnesses.
#[local] Existing Instance binary_collation.

Lemma session_invariant_witness : session_ok UI2.
Proof.
  apply (session_invariant ci_strict (fresh_world 0) UI2).
  - apply (reach_step _ _ UI1 UI2); [|apply step_run].
    apply (reach_step _ _ (fresh_world 0) UI1); [apply reach_start|apply step_run].
  - split; [apply (bool_decide_eq_true_1 _); vm_compute; reflexivity|].
    intros uid Hu. vm_compute in Hu. discriminate.
Defined.

Lemma case_sensitive_session_stuck_witness :
  let w := CS2 in
  has_table (catalog (srv w)) T_COMPLAINTS = false /\ connects cs_strict (srv w) = true /\
  users_rows (srv w) = [] /\ complaints_rows (srv w) = [] /\ current_user w = None.
Proof.
  apply (case_sensitive_session_stuck cs_strict (fresh_world 0)); try reflexivity.
  apply (reach_step _ _ CS1 CS2); [|apply step_run].
  apply (reach_step _ _ (fresh_world 0) CS1); [apply reach_start|apply step_run].
Defined.
(** A server whose USERS counter is past the INT bound: a registration
    leaves USERS empty. *)
Definition full_users : World :=
  set_srv (mk_server [] [] [] (INT_MAX + 1) 1 0 true) (fresh_world 0).

Lemma users_counter_exhausted_witness :
  users_rows (srv (app_run ci_strict (ClickRegister "alice" "pw1") full_users)) = [].
Proof.
  apply (users_counter_exhausted ci_strict full_users); [vm_compute; reflexivity|].
  apply (reach_step _ _ full_users); [apply reach_start|apply step_run].
Defined.
End SessionWitnesses.
