(* ===== verification/MultiSession.v ===== *)
(** * Several browser sessions sharing one server

    Streamlit serves every browser tab its own session, with its own
    [st.session_state], and all of them reach the same MySQL database.
    [System] holds the shared [Server] and one [World] per session (its
    connections, its page and its logged-in user; the server it holds is
    replaced by the shared one when it runs).  [sys_step] interleaves the
    sessions at the granularity of one interaction ([app_run]), opens new
    sessions and lets time pass.  Each data-access call of app.py is one
    statement followed by its commit, so the calls of concurrent runs
    reach the server one at a time: [call_step] interleaves them in any
    order, for the server alone.
    - [sys_invariant]: in every reachable system the server satisfies
      [wf_server], and the user of every session is a row of USERS.
    - [call_interleaving_wf]: [call_step] lets the single data-access
      calls of all sessions reach the server in any order, with any
      arguments; [wf_server] holds throughout. *)

From stdpp Require Import relations.
From S2P Require Import Prelude MySQL Integrity Connector Schema Users Complaints App ServerRel Isolation Session.

Record System := mk_system {
  shared : Server;
  sessions : list World
}.

(** [tick] on the shared server. *)
Definition tick_server (dt : Z) (s : Server) : Server :=
  mk_server (catalog s) (users_rows s) (complaints_rows s) (users_ai s)
            (complaints_ai s) (clock s + dt) (reachable s).

Section Steps.
Context (cfg : Config) `{Collation}.

(** One interaction in session [i]; [None] when there is no such session. *)
Definition run_session (i : nat) (a : Action) (sy : System) : option System :=
  match sessions sy !! i with
  | Some w =>
      let w' := app_run cfg a (set_srv (shared sy) w) in
      Some (mk_system (srv w') (<[i := w']> (sessions sy)))
  | None => None
  end.

(** A new browser tab: no connection, an empty page, no session state. *)
Definition open_session (sy : System) : System :=
  mk_system (shared sy) (sessions sy ++ [fresh_world (clock (shared sy))]).

Inductive sys_step : System -> System -> Prop :=
| sys_run i a sy sy' : run_session i a sy = Some sy' -> sys_step sy sy'
| sys_open sy : sys_step sy (open_session sy)
| sys_time dt sy : (0 <= dt)%Z ->
    sys_step sy (mk_system (tick_server dt (shared sy)) (sessions sy)).
End Steps.

(** The logged-in user of [w], if any, is a row of USERS of [s]. *)
Definition user_ok (s : Server) (w : World) : Prop :=
  forall uid, current_user w = Some uid -> exists x, x ∈ users_rows s /\ u_id x = uid.

Definition sys_ok (sy : System) : Prop :=
  wf_server (shared sy) /\ Forall (user_ok (shared sy)) (sessions sy).

Lemma session_ok_set_srv s w : session_ok (set_srv s w) <-> wf_server s /\ user_ok s w.
Proof. done. Qed.

Lemma user_ok_mono s s' w :
  (forall x, x ∈ users_rows s -> x ∈ users_rows s') -> user_ok s w -> user_ok s' w.
Proof. intros Hu Hw uid Huid. destruct (Hw uid Huid) as (x & ? & ?). eauto. Qed.

Lemma keeps_for_users ou s s' :
  keeps_for ou s s' -> forall x, x ∈ users_rows s -> x ∈ users_rows s'.
Proof. destruct ou; intros (_ & Hu & _); exact Hu. Qed.

Lemma wf_tick_server dt s : (0 <= dt)%Z -> wf_server s -> wf_server (tick_server dt s).
Proof.
  intros Hdt Hwf.
  destruct (tick_ok dt (set_srv s (fresh_world 0)) Hdt) as [Hwf' _]; [|exact Hwf'].
  split; [exact Hwf|]. by intros uid [=].
Qed.

Section Invariant.
Context (cfg : Config) `{Collation}.

Lemma run_session_ok i a sy sy' :
  run_session cfg i a sy = Some sy' -> sys_ok sy -> sys_ok sy'.
Proof.
  unfold run_session. destruct (sessions sy !! i) as [w|] eqn:Hi; [|done].
  intros [= <-] [Hwf Hall]. simpl.
  assert (Hw : session_ok (set_srv (shared sy) w)).
  { apply session_ok_set_srv. split; [done|]. by eapply Forall_lookup_1. }
  pose proof (app_run_ok cfg a _ Hw) as [Hwf' Hu'].
  pose proof (app_run_keeps cfg a (set_srv (shared sy) w) Hwf) as Hk.
  split; [done|]. apply Forall_insert; [|exact Hu'].
  eapply Forall_impl; [exact Hall|]. intros w0. apply user_ok_mono.
  by eapply keeps_for_users.
Qed.

Lemma sys_step_ok sy sy' : sys_step cfg sy sy' -> sys_ok sy -> sys_ok sy'.
Proof.
  destruct 1 as [i a sy sy' Hrun|sy|dt sy Hdt].
  - by eapply run_session_ok.
  - intros [Hwf Hall]. split; [done|]. apply Forall_app. split; [done|].
    apply Forall_singleton. by intros uid [=].
  - intros [Hwf Hall]. split; [by apply wf_tick_server|]. done.
Qed.

(** C16: with any number of browser sessions interleaving their
    interactions, opening new tabs and time passing, the shared server
    satisfies [wf_server] and the user logged in in every session is a
    row of USERS, in every reachable state. *)
Theorem sys_invariant sy0 sy :
  rtc (sys_step cfg) sy0 sy -> sys_ok sy0 -> sys_ok sy.
Proof. induction 1 as [|sy1 sy2 sy3 Hstep _ IH]; [done|]. intros H0. by eapply IH, sys_step_ok. Qed.

End Invariant.

(** ** The calls of concurrent runs, interleaved *)

(** One data-access call of app.py, with its arguments, as a run of any
    session makes it. *)
Inductive call : Type :=
| CInit
| CRegister (username password : string)
| CLogin (username password : string)
| CSubmit (user_id : Z) (description : string)
| CList (user_id : Z)
| CResolve (complaint_id : Z) (resolution : string).

Section Calls.
Context (cfg : Config) `{Collation}.

Definition run_call (c : call) : PyW unit :=
  match c with
  | CInit => init_db cfg
  | CRegister u p => let* _ := register_user cfg u p in ret tt
  | CLogin u p => let* _ := login_user cfg u p in ret tt
  | CSubmit uid d => let* _ := submit_complaint cfg uid d in ret tt
  | CList uid => let* _ := get_user_complaints cfg uid in ret tt
  | CResolve cid r => let* _ := update_complaint_status cfg cid r in ret tt
  end.

(** The shared server as the calls of all sessions reach it, in any
    order: each call connects, executes its one statement, commits and
    closes, so concurrent runs interleave at this granularity. *)
Inductive call_step : Server -> Server -> Prop :=
| call_run c w : call_step (srv w) (srv (snd (run_call c w)))
| call_time dt s : (0 <= dt)%Z -> call_step s (tick_server dt s).
End Calls.

(** [wf_server] carried from one server to the next. *)
Definition wf_kept (s s' : Server) : Prop := wf_server s -> wf_server s'.

#[export] Instance wf_kept_preorder : PreOrder wf_kept.
Proof. split; [intros s Hs; exact Hs|intros s1 s2 s3 H12 H23 H1; auto]. Qed.

Lemma run_call_wf cfg `{Collation} c : preserves (on_srv wf_kept) (run_call cfg c).
Proof.
  assert (Hexec : forall s st, app_stmt st -> wf_kept s (snd (exec cfg s st))).
  { intros s st Hst Hwf. by apply exec_wf_step. }
  destruct c; simpl; [exact (init_db_on_srv cfg wf_kept Hexec)|..];
    (apply (preserves_bind (on_srv wf_kept)); [|intros _; apply (preserves_ret (on_srv wf_kept))]).
  - exact (register_user_on_srv cfg wf_kept Hexec _ _).
  - exact (login_user_on_srv cfg wf_kept Hexec _ _).
  - exact (submit_complaint_on_srv cfg wf_kept Hexec _ _).
  - exact (get_user_complaints_on_srv cfg wf_kept Hexec _).
  - exact (update_complaint_status_on_srv cfg wf_kept Hexec _ _).
Qed.

(** C20: whatever order the data-access calls of concurrent sessions reach
    the server in, whatever user ids and texts they carry, and however
    time passes between them, the server keeps [wf_server]: ids unique
    and below their counters, every complaint owned by a row of USERS,
    column widths respected and the complaint lifecycle consistent.  No
    application-level locking is needed for it, as the spec expects. *)
Theorem call_interleaving_wf cfg `{Collation} s0 s :
  rtc (call_step cfg) s0 s -> wf_server s0 -> wf_server s.
Proof.
  induction 1 as [|s1 s2 s3 Hstep _ IH]; [done|]. intros H1. apply IH.
  destruct Hstep as [c w|dt s1 Hdt]; [|by apply wf_tick_server].
  destruct (run_call cfg c w) as [o w'] eqn:E. exact (run_call_wf cfg c w o w' E H1).
Qed.

(** ** Two sessions on a fresh server *)

Section MultiSessionWitnesses.
#[local] Existing Instance binary_collation.

Definition run_or_stay (i : nat) (a : Action) (sy : System) : System :=
  match run_session ci_strict i a sy with Some sy' => sy' | None => sy end.

(** Two tabs; Alice registers and logs in in the first, Bob in the
    second; each files a complaint. *)
Definition MS0 : System := mk_system (empty_server 0) [].
Definition MS1 : System := open_session MS0.
Definition MS2 : System := open_session MS1.
Definition MS3 : System := run_or_stay 0 (ClickRegister "alice" "pw1") MS2.
Definition MS4 : System := run_or_stay 0 (ClickLogin "alice" "pw1") MS3.
Definition MS5 : System := run_or_stay 1 (ClickRegister "bob" "pw2") MS4.
Definition MS6 : System := run_or_stay 1 (ClickLogin "bob" "pw2") MS5.
Definition MS7 : System := run_or_stay 0 (ClickSubmit "broken light") MS6.
Definition MS8 : System := run_or_stay 1 (ClickSubmit "noisy fan") MS7.

Lemma sys_invariant_witness : sys_ok MS8.
Proof.
  apply (sys_invariant ci_strict MS0 MS8).
  - apply (rtc_l _ MS0 MS1); [apply sys_open|].
    apply (rtc_l _ MS1 MS2); [apply sys_open|].
    apply (rtc_l _ MS2 MS3); [apply (sys_run _ 0 (ClickRegister "alice" "pw1")); vm_compute; reflexivity|].
    apply (rtc_l _ MS3 MS4); [apply (sys_run _ 0 (ClickLogin "alice" "pw1")); vm_compute; reflexivity|].
    apply (rtc_l _ MS4 MS5); [apply (sys_run _ 1 (ClickRegister "bob" "pw2")); vm_compute; reflexivity|].
    apply (rtc_l _ MS5 MS6); [apply (sys_run _ 1 (ClickLogin "bob" "pw2")); vm_compute; reflexivity|].
    apply (rtc_l _ MS6 MS7); [apply (sys_run _ 0 (ClickSubmit "broken light")); vm_compute; reflexivity|].
    apply (rtc_l _ MS7 MS8); [apply (sys_run _ 1 (ClickSubmit "noisy fan")); vm_compute; reflexivity|].
    apply rtc_refl.
  - split; [discharge_concrete|constructor].
Defined.

(** Calls of two sessions, interleaved: both register, one files a
    complaint, and a call with an id nobody has is refused. *)
Definition CW0 : World := snd (run_call ci_strict CInit (fresh_world 0)).
Definition CW1 : World := snd (run_call ci_strict (CRegister "alice" "pw1") CW0).
Definition CW2 : World := snd (run_call ci_strict (CRegister "bob" "pw2") CW1).
Definition CW3 : World := snd (run_call ci_strict (CSubmit 1 "noisy fan") CW2).
Definition CW4 : World := snd (run_call ci_strict (CSubmit 7 "x") CW3).

Lemma call_interleaving_wf_witness : wf_server (srv CW4).
Proof.
  apply (call_interleaving_wf ci_strict (srv (fresh_world 0))); [|discharge_concrete].
  apply (rtc_l _ _ (srv CW0)); [apply call_run|].
  apply (rtc_l _ _ (srv CW1)); [apply call_run|].
  apply (rtc_l _ _ (srv CW2)); [apply call_run|].
  apply (rtc_l _ _ (srv CW3)); [apply call_run|].
  apply (rtc_l _ _ (srv CW4)); [apply call_run|]. apply rtc_refl.
Defined.
End MultiSessionWitnesses.
