(* ===== verification/Refinement.v ===== *)
(** * The abstract grievance store, and the refinement of app.py's data layer

    Spec §3-4 describe the data as two keyed collections: users by id,
    and complaints by id with an owner, a description, a creation time
    and a status in the state machine Pending -> Resolved.  [Store] is
    that description, with stdpp's [gmap]:
    - [spec_register], [spec_login], [spec_submit], [spec_list] and
      [spec_resolve] are the operations of spec 4.2-4.6 on it;
    - [abs] reads a [Server] as a [Store]: its rows keyed by their ids,
      a complaint's state by [classify] from its [status],
      [resolution_desc] and [resolved_At] columns: Pending only with the
      status "Pending", the sentinel and no time, Resolved only with the
      status "Resolved" and a time, [Invalid] otherwise.
    Section [StmtRefinement] shows that each statement app.py issues acts
    on [abs] as the abstract operation does, given the invariant
    [wf_server] (unique ids below the AUTO_INCREMENT counters).  Section
    [Refinement] lifts this to the functions of app.py 51-124, run
    against a server that satisfies [wf_server]:
    - [register_refines]: [register_user] inserts the credentials under
      a fresh id, the next AUTO_INCREMENT value;
    - [submit_refines]: [submit_complaint] adds a Pending complaint when
      the user exists, and leaves the store as it was when not;
    - [resolve_refines]: [update_complaint_status] is [alter] on the id,
      whoever owns it and whatever its status;
    - [listing_equiv]: the rows [get_user_complaints] returns are exactly
      the user's complaints of the store;
    - [login_refines]: [login_user] returns the one id whose credentials
      match, [None] when none does, and raises when two or more do.
    [listing_rows_typed] shows that every row of a listing holds values of
    the column types and of the complaint lifecycle. *)

From stdpp Require Import gmap.
From S2P Require Import Prelude MySQL Integrity Connector Schema Users Complaints.

(** ** The abstract store *)

(** The complaint state machine of spec §4.6.  A row whose columns fit
    neither state is [Invalid]; no operation of the spec produces one. *)
Inductive status : Type :=
| Pending
| Resolved (resolution : string) (resolved_at : Z)
| Invalid (status : string) (resolution : string) (resolved_at : option Z).

Record complaint := mk_acomplaint {
  a_owner : Z;
  a_description : string;
  a_created : Z;
  a_status : status
}.

Record Store := mk_store {
  s_users : gmap Z (string * string);   (* id -> (username, password) *)
  s_complaints : gmap Z complaint;
  s_now : Z
}.

Section Spec.
Context `{Collation}.

(** 4.2: a new user under an identifier not in use. *)
Definition spec_register (id : Z) (u p : string) (st : Store) : Store :=
  mk_store (<[id := (u, p)]> (s_users st)) (s_complaints st) (s_now st).

(** 4.3: the ids whose username and password match, under the collation. *)
Definition spec_login (u p : string) (st : Store) : gset Z :=
  dom (filter (fun kv : Z * (string * string) =>
                 coll_eqb kv.2.1 u = true /\ coll_eqb kv.2.2 p = true) (s_users st)).

(** 4.4: a Pending complaint of an existing user, created now; nothing
    when the user does not exist. *)
Definition spec_submit (id uid : Z) (d : string) (st : Store) : option Store :=
  if decide (uid ∈ dom (s_users st)) then
    Some (mk_store (s_users st)
                   (<[id := mk_acomplaint uid d (s_now st) Pending]> (s_complaints st))
                   (s_now st))
  else None.

(** 4.5: the complaints of one user. *)
Definition spec_list (uid : Z) (st : Store) : gmap Z complaint :=
  filter (fun kv : Z * complaint => a_owner kv.2 = uid) (s_complaints st).

(** 4.6: set the resolution and the time, whatever the owner and the
    current status; nothing for an unknown id. *)
Definition resolve_at (r : string) (now : Z) (c : complaint) : complaint :=
  mk_acomplaint (a_owner c) (a_description c) (a_created c) (Resolved r now).

Definition spec_resolve (cid : Z) (r : string) (st : Store) : Store :=
  mk_store (s_users st) (alter (resolve_at r (s_now st)) cid (s_complaints st)) (s_now st).
End Spec.

(** ** The abstraction of a server *)

(** The state of a complaint read from its three columns [status],
    [resolution_desc] and [resolved_At]: Pending with the default
    resolution and no time, Resolved with a time, anything else
    [Invalid]. *)
Definition classify (st res : string) (rat : option Z) : status :=
  if String.eqb st "Pending" then
    match rat with
    | None => if String.eqb res NOT_AVAILABLE then Pending else Invalid st res rat
    | Some _ => Invalid st res rat
    end
  else if String.eqb st "Resolved" then
    match rat with Some t => Resolved res t | None => Invalid st res rat end
  else Invalid st res rat.

Definition abs_status (c : complaint_row) : status :=
  classify (c_status c) (c_resolution_desc c) (c_resolved_At c).

Definition abs_complaint (c : complaint_row) : complaint :=
  mk_acomplaint (c_user_id c) (c_description c) (c_created_At c) (abs_status c).

Definition user_entry (u : user_row) : Z * (string * string) :=
  (u_id u, (u_username u, u_password u)).

Definition complaint_entry (c : complaint_row) : Z * complaint :=
  (c_id c, abs_complaint c).

Definition abs (s : Server) : Store :=
  mk_store (list_to_map (map user_entry (users_rows s)))
           (list_to_map (map complaint_entry (complaints_rows s)))
           (clock s).

(** A row of the complaint listing of user [uid], read back as an entry
    of the abstract store: the listing has no owner column. *)
Definition row_entry (uid : Z) (r : Row) : option (Z * complaint) :=
  match r with
  | RComplaint id d st created res rat =>
      Some (id, mk_acomplaint uid d created (classify st res rat))
  | RId _ => None
  end.

(** ** Finite maps built from lists of rows *)

Section ListToMap.
Context {A : Type}.
Implicit Types (l : list (Z * A)).

(** [WHERE]: filtering the rows is filtering the map. *)
Lemma list_to_map_filter (P : Z * A -> Prop) `{!forall x, Decision (P x)} l :
  NoDup l.*1 ->
  list_to_map (List.filter (fun x => bool_decide (P x)) l) =@{gmap Z A} filter P (list_to_map l).
Proof.
  induction l as [|[k v] l IH]; simpl; [by rewrite map_filter_empty|].
  intros [Hk Hnd]%NoDup_cons. rewrite map_filter_insert.
  rewrite (delete_id (list_to_map l)) by by apply not_elem_of_list_to_map_1.
  case_bool_decide; case_decide; try done; simpl; by rewrite IH.
Qed.

Lemma map_id_fresh (f : A -> A) (k : Z) l :
  k ∉ l.*1 ->
  map (fun kv => if (kv.1 =? k)%Z then (kv.1, f kv.2) else kv) l = l.
Proof.
  induction l as [|[k' v] l IH]; simpl; [done|]. intros [Hne Hk]%not_elem_of_cons.
  rewrite IH by done. by rewrite (proj2 (Z.eqb_neq k' k)) by congruence.
Qed.

(** [UPDATE ... WHERE id = k] on rows with unique keys is [alter]. *)
Lemma list_to_map_alter (f : A -> A) (k : Z) l :
  NoDup l.*1 ->
  list_to_map (map (fun kv => if (kv.1 =? k)%Z then (kv.1, f kv.2) else kv) l)
  =@{gmap Z A} alter f k (list_to_map l).
Proof.
  induction l as [|[k' v] l IH]; simpl; [by rewrite alter_id'|].
  intros [Hk Hnd]%NoDup_cons. destruct (Z.eqb_spec k' k) as [->|Hne]; simpl.
  - rewrite map_id_fresh by done. by rewrite alter_insert_eq.
  - rewrite alter_insert_ne by congruence. by rewrite IH.
Qed.
End ListToMap.

(** [INSERT]: a row appended under a fresh key is an [insert]. *)
Lemma list_to_map_map_snoc {A B} (f : B -> Z * A) (l : list B) (x : B) :
  (f x).1 ∉ (map f l).*1 ->
  list_to_map (map f (l ++ [x])) =@{gmap Z A} <[(f x).1 := (f x).2]> (list_to_map (map f l)).
Proof. intros Hx. rewrite map_app. simpl. destruct (f x) as [k v]. by apply list_to_map_snoc. Qed.

(** ** The abstraction on the tables' rows *)

Lemma user_entries_fst l : (map user_entry l).*1 = map u_id l.
Proof. induction l as [|x l IH]; [done|]. cbn. f_equal. exact IH. Qed.

Lemma complaint_entries_fst l : (map complaint_entry l).*1 = map c_id l.
Proof. induction l as [|x l IH]; [done|]. cbn. f_equal. exact IH. Qed.

Lemma fresh_id (ids : list Z) ai : ids_below ids ai -> ai ∉ ids.
Proof.
  intros [Hb _] Hin. rewrite Forall_forall in Hb. specialize (Hb ai Hin). lia.
Qed.

Lemma abs_users_nodup s : wf_server s -> NoDup (map user_entry (users_rows s)).*1.
Proof. intros Hwf. rewrite user_entries_fst. apply (wf_user_ids _ Hwf). Qed.

Lemma abs_complaints_nodup s : wf_server s -> NoDup (map complaint_entry (complaints_rows s)).*1.
Proof. intros Hwf. rewrite complaint_entries_fst. apply (wf_complaint_ids _ Hwf). Qed.

Lemma abs_users_fresh s : wf_server s -> s_users (abs s) !! users_ai s = None.
Proof.
  intros Hwf. apply not_elem_of_list_to_map_1. rewrite user_entries_fst.
  apply fresh_id, (wf_user_ids _ Hwf).
Qed.

Lemma abs_complaints_fresh s : wf_server s -> s_complaints (abs s) !! complaints_ai s = None.
Proof.
  intros Hwf. apply not_elem_of_list_to_map_1. rewrite complaint_entries_fst.
  apply fresh_id, (wf_complaint_ids _ Hwf).
Qed.

(** A user id is in the abstract store exactly when USERS has a row with it. *)
Lemma abs_users_dom s uid :
  uid ∈ dom (s_users (abs s)) <-> uid ∈ map u_id (users_rows s).
Proof.
  rewrite elem_of_dom, <-user_entries_fst. simpl. split.
  - intros Hs. destruct (decide (uid ∈ (map user_entry (users_rows s)).*1)) as [|Hn]; [done|].
    apply not_elem_of_list_to_map_1 in Hn. rewrite Hn in Hs. by destruct Hs.
  - intros Hin. destruct (list_to_map _ !! uid) eqn:E; [done|].
    by apply not_elem_of_list_to_map in E.
Qed.

Lemma existsb_id_iff uid (users : list user_row) :
  existsb (fun u => (u_id u =? uid)%Z) users = true <-> uid ∈ map u_id users.
Proof.
  split; [apply existsb_id_elem|]. intros (u & -> & Hu)%list_elem_of_fmap.
  apply existsb_exists. exists u. split; [by apply list_elem_of_In|apply Z.eqb_refl].
Qed.

Lemma complaint_entries_update cid r now l :
  map complaint_entry (update_rows cid r now l) =
  map (fun kv => if (kv.1 =? cid)%Z then (kv.1, resolve_at r now kv.2) else kv)
      (map complaint_entry l).
Proof.
  induction l as [|c l IH]; [done|]. simpl. rewrite IH. f_equal.
  unfold complaint_entry. simpl. by destruct (c_id c =? cid)%Z.
Qed.

(** The listing query read back through [row_entry] gives the entries of
    the rows it selected. *)
Lemma row_entries_listing uid l :
  omap (row_entry uid) (map complaint_view (List.filter (fun c => (c_user_id c =? uid)%Z) l)) =
  List.filter (fun kv => bool_decide (a_owner kv.2 = uid)) (map complaint_entry l).
Proof.
  induction l as [|c l IH]; [done|]. simpl.
  destruct (Z.eqb_spec (c_user_id c) uid) as [<-|Hne]; simpl.
  - rewrite bool_decide_eq_true_2 by done. f_equal; exact IH.
  - rewrite bool_decide_eq_false_2 by done. exact IH.
Qed.

Lemma abs_complaints_missing s cid :
  List.filter (fun c => (c_id c =? cid)%Z) (complaints_rows s) = [] ->
  s_complaints (abs s) !! cid = None.
Proof.
  intros Hf. apply not_elem_of_list_to_map_1. rewrite complaint_entries_fst.
  intros (c & -> & Hc)%list_elem_of_fmap.
  assert (Hin : In c (List.filter (fun c' => (c_id c' =? c_id c)%Z) (complaints_rows s))).
  { apply filter_In. split; [by apply list_elem_of_In|apply Z.eqb_refl]. }
  by rewrite Hf in Hin.
Qed.

(** The ids the login query selects are the abstract matches. *)
Lemma matching_ids_spec `{Collation} s u p :
  wf_server s ->
  forall i, i ∈ map u_id (List.filter (user_matches u p) (users_rows s)) <->
            i ∈ spec_login u p (abs s).
Proof.
  intros Hwf i. unfold spec_login, abs. simpl. rewrite elem_of_dom. split.
  - intros (x & -> & Hx)%list_elem_of_fmap.
    apply list_elem_of_In, filter_In in Hx as [Hx Hm].
    exists (u_username x, u_password x). apply map_lookup_filter_Some. split.
    + apply elem_of_list_to_map_1; [by apply abs_users_nodup|].
      apply list_elem_of_In, in_map_iff. by exists x.
    + unfold user_matches in Hm. by apply andb_prop in Hm.
  - intros [v (Hl & Hu & Hp)%map_lookup_filter_Some].
    apply elem_of_list_to_map_2, list_elem_of_In, in_map_iff in Hl as (x & Hx & Hin).
    unfold user_entry in Hx. injection Hx as <- Hv. subst v. simpl in Hu, Hp.
    apply list_elem_of_In, in_map_iff. exists x. split; [done|].
    apply filter_In. split; [done|]. unfold user_matches. by rewrite Hu, Hp.
Qed.

(** ** Each statement refines its abstract operation *)

Section StmtRefinement.
Context (cfg : Config) `{Collation}.

Lemma insert_user_refines s u p :
  wf_server s -> table_exists cfg (catalog s) "users" = true ->
  (String.length u <= 25)%nat -> (String.length p <= 25)%nat -> (users_ai s <= INT_MAX)%Z ->
  abs (snd (exec cfg s (InsertUser u p))) = spec_register (users_ai s) u p (abs s).
Proof.
  intros Hwf Ht Hu Hp Hai. rewrite exec_InsertUser_ok by done.
  unfold abs, spec_register. simpl.
  rewrite list_to_map_map_snoc; [done|]. rewrite user_entries_fst.
  apply fresh_id, (wf_user_ids _ Hwf).
Qed.

Lemma insert_complaint_refines s uid d :
  wf_server s -> table_exists cfg (catalog s) "complaints" = true ->
  (N.of_nat (String.length d) <= 65535)%N -> (complaints_ai s <= INT_MAX)%Z ->
  match spec_submit (complaints_ai s) uid d (abs s) with
  | Some st' => exec cfg s (InsertComplaint uid d "Pending") =
                  (inr (Affected 1 (complaints_ai s)), snd (exec cfg s (InsertComplaint uid d "Pending")))
                /\ abs (snd (exec cfg s (InsertComplaint uid d "Pending"))) = st'
  | None => fst (exec cfg s (InsertComplaint uid d "Pending")) = inl ER_NO_REFERENCED_ROW_2
            /\ abs (snd (exec cfg s (InsertComplaint uid d "Pending"))) = abs s
  end.
Proof.
  intros Hwf Ht Hd Hai. unfold spec_submit.
  destruct (decide (uid ∈ dom (s_users (abs s)))) as [Hin|Hnin].
  - rewrite abs_users_dom, <-existsb_id_iff in Hin.
    rewrite exec_InsertComplaint_ok by done. split; [done|].
    unfold abs. simpl.
    rewrite list_to_map_map_snoc; [done|]. rewrite complaint_entries_fst.
    apply fresh_id, (wf_complaint_ids _ Hwf).
  - rewrite abs_users_dom, <-existsb_id_iff in Hnin. apply not_true_is_false in Hnin.
    rewrite exec_InsertComplaint_fk by done. done.
Qed.

Lemma update_complaint_refines s r cid :
  wf_server s -> table_exists cfg (catalog s) "complaints" = true ->
  (String.length r <= 255)%nat ->
  abs (snd (exec cfg s (UpdateComplaint r cid))) = spec_resolve cid r (abs s).
Proof.
  intros Hwf Ht Hr. unfold spec_resolve.
  destruct (decide (List.filter (fun c => (c_id c =? cid)%Z) (complaints_rows s) = [])) as [Hn|Hn].
  - rewrite exec_UpdateComplaint_none by done. simpl.
    rewrite alter_id' by (by apply abs_complaints_missing). reflexivity.
  - destruct (exec_UpdateComplaint_ok cfg s r cid Ht Hr Hn) as [-> _].
    unfold abs. simpl. rewrite complaint_entries_update.
    by rewrite list_to_map_alter by (by apply abs_complaints_nodup).
Qed.

Lemma select_user_refines s u p :
  wf_server s -> table_exists cfg (catalog s) "users" = true ->
  exists rows, exec cfg s (SelectUserId u p) = (inr (Rows rows), s) /\
    forall i, RId i ∈ rows <-> i ∈ spec_login u p (abs s).
Proof.
  intros Hwf Ht. eexists. split.
  - unfold exec, sql_select_user_id. rewrite Ht. reflexivity.
  - intros i. rewrite <-matching_ids_spec by done. split.
    + intros (x & [= ->] & Hx)%list_elem_of_fmap. by apply (list_elem_of_fmap_2 u_id).
    + intros (x & -> & Hx)%list_elem_of_fmap. by apply (list_elem_of_fmap_2 (fun x => RId (u_id x))).
Qed.

(** Equivalence of the listing query and the abstract per-user view. *)
Lemma select_complaints_refines s uid :
  wf_server s -> table_exists cfg (catalog s) "complaints" = true ->
  exists rows, exec cfg s (SelectComplaints uid) = (inr (Rows rows), s) /\
    list_to_map (omap (row_entry uid) rows) = spec_list uid (abs s).
Proof.
  intros Hwf Ht. eexists. split.
  - unfold exec, sql_select_complaints. rewrite Ht. reflexivity.
  - rewrite row_entries_listing. unfold spec_list, abs. simpl.
    by apply list_to_map_filter, abs_complaints_nodup.
Qed.
End StmtRefinement.

(** ** The functions of app.py against the abstract store *)

Lemma NoDup_map_filter {A B} (f : A -> B) (P : A -> bool) (l : list A) :
  NoDup (map f l) -> NoDup (map f (List.filter P l)).
Proof.
  induction l as [|x l IH]; simpl; [done|]. intros [Hx Hnd]%NoDup_cons.
  destruct (P x); simpl; [|by apply IH]. apply NoDup_cons. split; [|by apply IH].
  intros Hin. apply Hx. apply list_elem_of_In in Hin. apply list_elem_of_In.
  apply in_map_iff in Hin as (y & Hy & Hin). apply in_map_iff. exists y.
  split; [done|]. by apply filter_In in Hin as [? _].
Qed.

Section Refinement.
Context (cfg : Config) `{Collation}.

(** C10: [register_user] refines spec 4.2: when the INSERT can succeed it
    returns [True], and the abstract store gains the credentials under
    the next AUTO_INCREMENT value, an id no user has. *)
Theorem register_refines u p w :
  wf_server (srv w) -> connects cfg (srv w) = true ->
  table_exists cfg (catalog (srv w)) "users" = true ->
  (String.length u <= 25)%nat -> (String.length p <= 25)%nat ->
  (users_ai (srv w) <= INT_MAX)%Z ->
  exists w', register_user cfg u p w = (Ret true, w') /\
    s_users (abs (srv w)) !! users_ai (srv w) = None /\
    abs (srv w') = spec_register (users_ai (srv w)) u p (abs (srv w)).
Proof.
  intros Hwf Hr Ht Hu Hp Hai.
  destruct (register_user_ok cfg u p w Hr Ht Hu Hp Hai) as (w1 & Hrun & Hsrv & _).
  exists w1. split_and!; [done|by apply abs_users_fresh|].
  rewrite Hsrv, <-(insert_user_refines cfg) by done.
  by rewrite exec_InsertUser_ok.
Qed.

(** C11: [submit_complaint] refines spec 4.4: for an existing user it
    returns the new id and adds a Pending complaint of that user, created
    now; for a user id with no row it raises the foreign-key error and the
    abstract store is unchanged. *)
Theorem submit_refines uid d w :
  wf_server (srv w) -> connects cfg (srv w) = true ->
  table_exists cfg (catalog (srv w)) "complaints" = true ->
  (N.of_nat (String.length d) <= 65535)%N -> (complaints_ai (srv w) <= INT_MAX)%Z ->
  match spec_submit (complaints_ai (srv w)) uid d (abs (srv w)) with
  | Some st' => exists w', submit_complaint cfg uid d w =
                  (Ret (Some (complaints_ai (srv w))), w') /\ abs (srv w') = st'
  | None => exists w', submit_complaint cfg uid d w =
              (Exc (DatabaseError ER_NO_REFERENCED_ROW_2), w') /\ abs (srv w') = abs (srv w)
  end.
Proof.
  intros Hwf Hr Ht Hd Hai.
  pose proof (insert_complaint_refines cfg (srv w) uid d Hwf Ht Hd Hai) as Href.
  pose proof (submit_complaint_run cfg uid d w Hr) as Hrun.
  destruct (exec cfg (srv w) (InsertComplaint uid d "Pending")) as [res s'] eqn:E.
  destruct Hrun as (w' & Hrun & Hsrv & _). simpl in Href.
  destruct (spec_submit _ _ _ _) as [st'|].
  - destruct Href as [[= ->] Habs]. exists w'. by rewrite Hrun, Hsrv.
  - destruct Href as [-> Habs]. exists w'. by rewrite Hrun, Hsrv.
Qed.

(** C12: [update_complaint_status] refines spec 4.6: it returns [True]
    and the abstract store is [alter] of the complaint's status to
    Resolved with the text and the current time, whoever owns the
    complaint and whatever its status; an unknown id changes nothing. *)
Theorem resolve_refines cid r w :
  wf_server (srv w) -> connects cfg (srv w) = true ->
  table_exists cfg (catalog (srv w)) "complaints" = true ->
  (String.length r <= 255)%nat ->
  exists w', update_complaint_status cfg cid r w = (Ret true, w') /\
    abs (srv w') = spec_resolve cid r (abs (srv w)).
Proof.
  intros Hwf Hr Ht Hlen.
  pose proof (update_complaint_refines cfg (srv w) r cid Hwf Ht Hlen) as Href.
  pose proof (update_complaint_status_run cfg cid r w Hr) as Hrun.
  destruct (decide (List.filter (fun c => (c_id c =? cid)%Z) (complaints_rows (srv w)) = []))
    as [Hn|Hn].
  - rewrite exec_UpdateComplaint_none in Hrun, Href by done.
    destruct Hrun as (w' & Hrun & Hsrv & _). exists w'. by rewrite Hrun, Hsrv.
  - destruct (exec_UpdateComplaint_ok cfg (srv w) r cid Ht Hlen Hn) as [_ [n Hn']].
    destruct (exec cfg (srv w) (UpdateComplaint r cid)) as [res s'] eqn:E.
    simpl in Hn', Href. subst res.
    destruct Hrun as (w' & Hrun & Hsrv & _). exists w'. by rewrite Hrun, Hsrv.
Qed.

(** C13: the listing of [get_user_complaints] is equivalent to the
    abstract view of spec 4.5: read back as entries keyed by id, its rows
    are exactly the user's complaints of the store, with their
    descriptions, creation times and statuses. *)
Theorem listing_equiv uid w :
  wf_server (srv w) -> connects cfg (srv w) = true ->
  table_exists cfg (catalog (srv w)) "complaints" = true ->
  exists rows w', get_user_complaints cfg uid w = (Ret rows, w') /\
    list_to_map (omap (row_entry uid) rows) = spec_list uid (abs (srv w)).
Proof.
  intros Hwf Hr Ht.
  destruct (get_user_complaints_run cfg uid w Hr Ht) as (w' & Hrun & _).
  exists (user_complaints (srv w) uid), w'. split; [done|].
  unfold user_complaints. rewrite row_entries_listing.
  unfold spec_list, abs. simpl. by apply list_to_map_filter, abs_complaints_nodup.
Qed.

(** The ids of the USERS rows [login_user]'s query selects are the
    abstract matches. *)
Lemma login_matches_spec s u p i :
  wf_server s -> i ∈ map u_id (login_matches s u p) <-> i ∈ spec_login u p (abs s).
Proof. intros Hwf. by apply matching_ids_spec. Qed.

(** C14: [login_user] refines spec 4.3 where the abstract result is one
    id: it returns [None] exactly when no credentials match, the id when
    one does.  When two or more match, it raises, where the spec returns
    one of them. *)
Theorem login_refines u p w o w' :
  wf_server (srv w) -> connects cfg (srv w) = true ->
  table_exists cfg (catalog (srv w)) "users" = true ->
  login_user cfg u p w = (o, w') ->
  match o with
  | Ret None => spec_login u p (abs (srv w)) = ∅
  | Ret (Some i) => spec_login u p (abs (srv w)) = {[i]}
  | Exc _ => exists i j, i <> j /\ i ∈ spec_login u p (abs (srv w)) /\
                         j ∈ spec_login u p (abs (srv w))
  end.
Proof.
  intros Hwf Hr Ht Hrun.
  pose proof (login_user_run cfg u p w Hr Ht) as Hl.
  assert (Hspec := login_matches_spec (srv w) u p).
  destruct (login_matches (srv w) u p) as [|x [|y l]] eqn:E;
    destruct Hl as (w1 & Hrun1 & _); rewrite Hrun in Hrun1; injection Hrun1 as -> _.
  - apply set_eq. intros i. rewrite <-Hspec by done. simpl. set_solver.
  - apply set_eq. intros i. rewrite <-Hspec by done. simpl. set_solver.
  - exists (u_id x), (u_id y). split_and!; [|apply Hspec; [done|]; set_solver..].
    assert (Hnd : NoDup (map u_id (login_matches (srv w) u p))).
    { apply NoDup_map_filter, (wf_user_ids _ Hwf). }
    rewrite E in Hnd. simpl in Hnd. apply NoDup_cons in Hnd as [Hx _]. set_solver.
Qed.

(** A row of a complaint listing, against the column types and the
    complaint lifecycle: an INT id, a resolution within VARCHAR(255), and
    Pending with the sentinel and no time, or Resolved no earlier than
    created. *)
Definition row_typed (r : Row) : Prop :=
  match r with
  | RComplaint id _ st created res rat =>
      (1 <= id <= INT_MAX)%Z /\ (String.length res <= 255)%nat /\
      ((st = "Pending" /\ rat = None /\ res = NOT_AVAILABLE) \/
       (st = "Resolved" /\ exists t, rat = Some t /\ (created <= t)%Z))
  | RId _ => False
  end.

(** C15: every row [get_user_complaints] returns is well typed. *)
Theorem listing_rows_typed uid w :
  wf_server (srv w) -> connects cfg (srv w) = true ->
  table_exists cfg (catalog (srv w)) "complaints" = true ->
  exists rows w', get_user_complaints cfg uid w = (Ret rows, w') /\ Forall row_typed rows.
Proof.
  intros Hwf Hr Ht.
  destruct (get_user_complaints_run cfg uid w Hr Ht) as (w' & Hrun & _).
  exists (user_complaints (srv w) uid), w'. split; [done|].
  destruct Hwf as [_ _ _ [Hids _] [_ Hai] Hrw _ Hlc _].
  unfold user_complaints. apply Forall_map, Forall_forall. intros c Hc.
  apply list_elem_of_In, filter_In in Hc as [Hc _]. apply list_elem_of_In in Hc.
  rewrite Forall_forall in Hrw, Hlc.
  assert (Hb : (1 <= c_id c < complaints_ai (srv w))%Z).
  { eapply (proj1 (Forall_forall _ _) Hids). by apply (list_elem_of_fmap_2 c_id). }
  simpl. split_and!; [lia|lia|by apply Hrw|].
  destruct (Hlc c Hc) as [(? & ? & ?)|(? & t & ? & ?)]; [left|right]; eauto.
Qed.
End Refinement.

Section RefinementWitnesses.
#[local] Existing Instance binary_collation.

Lemma register_refines_witness :
  exists w', register_user ci_strict "bob" "pw2" W1 = (Ret true, w') /\
    s_users (abs (srv W1)) !! users_ai (srv W1) = None /\
    abs (srv w') = spec_register (users_ai (srv W1)) "bob" "pw2" (abs (srv W1)).
Proof. apply register_refines; discharge_concrete. Defined.

Lemma submit_refines_witness :
  match spec_submit (complaints_ai (srv W1)) 1 "broken light" (abs (srv W1)) with
  | Some st' => exists w', submit_complaint ci_strict 1 "broken light" W1 =
                  (Ret (Some (complaints_ai (srv W1))), w') /\ abs (srv w') = st'
  | None => exists w', submit_complaint ci_strict 1 "broken light" W1 =
              (Exc (DatabaseError ER_NO_REFERENCED_ROW_2), w') /\ abs (srv w') = abs (srv W1)
  end.
Proof. apply submit_refines; discharge_concrete. Defined.

Lemma resolve_refines_witness :
  exists w', update_complaint_status ci_strict 1 "fixed" WC1 = (Ret true, w') /\
    abs (srv w') = spec_resolve 1 "fixed" (abs (srv WC1)).
Proof. apply resolve_refines; discharge_concrete. Defined.

Lemma listing_equiv_witness :
  exists rows w', get_user_complaints ci_strict 1 WC1 = (Ret rows, w') /\
    list_to_map (omap (row_entry 1) rows) = spec_list 1 (abs (srv WC1)).
Proof. apply listing_equiv; discharge_concrete. Defined.

Lemma login_refines_witness :
  spec_login "alice" "pw1" (abs (srv W1)) = {[1%Z]}.
Proof.
  apply (login_refines ci_strict "alice" "pw1" W1 (Ret (Some 1%Z))
           (snd (login_user ci_strict "alice" "pw1" W1))); discharge_concrete.
Defined.

Lemma listing_rows_typed_witness :
  exists rows w', get_user_complaints ci_strict 1 WC1 = (Ret rows, w') /\ Forall row_typed rows.
Proof. apply listing_rows_typed; discharge_concrete. Defined.
End RefinementWitnesses.
